(** * GlutenPeek: scan resolution and staleness-driven reclassification

    A shallow embedding of the scan screen of the GlutenPeek front end
    ([ScanTab] with its helpers), of the API client ([lib/api.ts]) and of the
    S3 upload helper ([lib/s3upload.ts]), and the properties of the
    resolution cascade and of the background gluten re-check proved or
    refuted on it.

    Conventions of the embedding.
    - Values typed [any] in the source (bodies of HTTP responses, what the
      model returns) are [JSValue]s; values with a TypeScript interface are
      records.
    - Text is [string]: a sequence of code units, the alphabet being the
      code units below 256.
    - An [async] function is a computation in the monad [M]: the effects it
      performs, in order, then the value it returns or the value it throws.
    - What the browser and the network answer is an input: the [World]. *)

From Stdlib Require Import String Ascii List ZArith Bool Lia.
From Stdlib Require Import DecimalString.
Import ListNotations.
Local Open Scope string_scope.
Local Open Scope Z_scope.

Set Implicit Arguments.
Set Warnings "-register-all".

(* ================================================================== *)
(** * Text *)

Module Text.

Definition chars := list ascii.

Fixpoint of_string (s : string) : chars :=
  match s with
  | EmptyString => []
  | String c s' => c :: of_string s'
  end.

Fixpoint to_string (l : chars) : string :=
  match l with
  | [] => EmptyString
  | c :: l' => String c (to_string l')
  end.

Definition code (c : ascii) : N := N_of_ascii c.

(** [\n] *)
Definition is_newline (c : ascii) : bool := N.eqb (code c) 10.

(** [\s] of a regular expression and the white space [trim] strips: TAB, LF,
    VT, FF, CR, SP and NBSP are the ones below 256. *)
Definition is_space (c : ascii) : bool :=
  let n := code c in
  (N.leb 9 n && N.leb n 13) || N.eqb n 32 || N.eqb n 160.

(** Case folding of the [i] flag: only the letters A-Z fold onto a-z; no
    code unit from 128 on is folded onto a letter below 128. *)
Definition fold_case (c : ascii) : ascii :=
  let n := code c in
  if N.leb 65 n && N.leb n 90 then ascii_of_N (n + 32) else c.

Fixpoint drop_spaces (l : chars) : chars :=
  match l with
  | c :: l' => if is_space c then drop_spaces l' else l
  | [] => []
  end.

(** [String.prototype.trim] *)
Definition trim (s : string) : string :=
  to_string (rev (drop_spaces (rev (drop_spaces (of_string s))))).

Definition lf : string := String (ascii_of_N 10) EmptyString.

(** The double quote, and a text between double quotes. *)
Definition dquote : ascii := ascii_of_N 34.
Definition quoted (s : string) : string :=
String dquote (s ++ String dquote EmptyString).

(** [`${n}`] for an integer [n]. *)
Definition of_Z (z : Z) : string := NilZero.string_of_int (Z.to_int z).

Fixpoint ends_with_slash (l : chars) : bool :=
  match l with
  | [] => false
  | [c] => Ascii.eqb c "/"
  | _ :: l' => ends_with_slash l'
  end.

(** [name.split('.').pop()]: what follows the last dot, the whole of it
    when there is none. *)
Fixpoint after_last_dot (l : chars) (acc : chars) : chars :=
  match l with
  | [] => rev acc
  | c :: l' => if Ascii.eqb c "." then after_last_dot l' [] else after_last_dot l' (c :: acc)
  end.

End Text.

(* ================================================================== *)
(** * Regular expressions

    The fragment of the language the source uses, with the backtracking
    order of the language: alternatives left to right, greedy repetition
    longest first, lazy repetition shortest first, one capturing group. *)

Module Regex.
Import Text.

Inductive regex : Type :=
| Chr (p : ascii -> bool)             (* one code unit of a class *)
| Eps
| Seq (r1 r2 : regex)
| Alt (r1 r2 : regex)
| Star (greedy : bool) (r : regex)    (* r* and r*? *)
| Group (r : regex).                  (* ( r ), group 1 *)

Definition any : regex := Chr (fun _ => true).              (* [\s\S] *)
Definition not_newline : regex := Chr (fun c => negb (is_newline c)).  (* [^\n] *)
Definition space : regex := Chr is_space.                    (* \s *)
Definition Plus (r : regex) : regex := Seq r (Star true r).  (* r+ *)
Definition Opt (r : regex) : regex := Alt r Eps.             (* r? *)

Fixpoint seqs (l : list regex) : regex :=
  match l with
  | [] => Eps
  | [r] => r
  | r :: l' => Seq r (seqs l')
  end.

(** A literal, and a literal under the [i] flag. *)
Definition lit (s : string) : regex :=
  seqs (map (fun c => Chr (Ascii.eqb c)) (of_string s)).
Definition lit_i (s : string) : regex :=
  seqs (map (fun c => Chr (fun d => Ascii.eqb (fold_case d) (fold_case c))) (of_string s)).

Section Matcher.
Variable R : Type.

(** [run r s cap k]: match [r] at the head of [s], then go on with [k] on
    what is left and on the capture; the first success in backtracking
    order wins.  A repetition gives up an iteration that consumes
    nothing. *)
Fixpoint run (r : regex) (s : chars) (cap : option chars)
         (k : chars -> option chars -> option R) {struct r} : option R :=
  match r with
  | Chr p =>
      match s with
      | c :: s' => if p c then k s' cap else None
      | [] => None
      end
  | Eps => k s cap
  | Seq r1 r2 => run r1 s cap (fun s' cap' => run r2 s' cap' k)
  | Alt r1 r2 =>
      match run r1 s cap k with
      | Some x => Some x
      | None => run r2 s cap k
      end
  | Star greedy r1 =>
      (fix loop (fuel : nat) (s : chars) (cap : option chars) : option R :=
         match fuel with
         | O => k s cap
         | S fuel' =>
             let again :=
               run r1 s cap
                   (fun s' cap' =>
                      if Nat.ltb (length s') (length s) then loop fuel' s' cap' else None) in
             if greedy then
               match again with
               | Some x => Some x
               | None => k s cap
               end
             else
               match k s cap with
               | Some x => Some x
               | None => again
               end
         end) (length s) s cap
  | Group r1 =>
      run r1 s cap
          (fun s' _ => k s' (Some (firstn (length s - length s') s)))
  end.
End Matcher.

(** The result of [String.prototype.match] without the [g] flag: the text
    matched ([m[0]]) and the capture ([m[1]]). *)
Record match_result := { whole : string; group1 : option string }.

Definition match_here (r : regex) (s : chars) : option match_result :=
  run r s None
      (fun s' cap =>
         Some {| whole := to_string (firstn (length s - length s') s);
                 group1 := option_map to_string cap |}).

(** The leftmost position at which the expression matches. *)
Fixpoint search (r : regex) (s : chars) : option match_result :=
  match match_here r s with
  | Some m => Some m
  | None =>
      match s with
      | [] => None
      | _ :: s' => search r s'
      end
  end.

(** [text.match(r)] *)
Definition match_ (r : regex) (text : string) : option match_result :=
  search r (of_string text).

(** [text.replace(r, '')] with the [g] flag. *)
Fixpoint remove_all (fuel : nat) (r : regex) (s : chars) : chars :=
  match fuel with
  | O => s
  | S fuel' =>
      match run r s None (fun s' _ => Some s') with
      | Some s' =>
          if Nat.ltb (length s') (length s) then remove_all fuel' r s'
          else match s with
               | [] => []
               | c :: t => c :: remove_all fuel' r t
               end
      | None =>
          match s with
          | [] => []
          | c :: t => c :: remove_all fuel' r t
          end
      end
  end.

Definition replace_all_empty (r : regex) (text : string) : string :=
  let s := of_string text in to_string (remove_all (S (length s)) r s).

End Regex.

(* ================================================================== *)
(** * Values of the language *)

Module JS.
Import Text.

(** A number as JSON writes it: [mant * 10^exp10]. *)
Record Num := { mant : Z; exp10 : Z }.

(** The number is read as [+0] or [-0]: its magnitude is at most half the
    least positive double, [2^-1075]. *)
Definition num_is_zero (n : Num) : bool :=
  (mant n =? 0) ||
  ((exp10 n <? 0) && (Z.abs (mant n) * 2 ^ 1075 <=? 10 ^ (- exp10 n))).

Inductive JSValue : Type :=
| JUndefined
| JNull
| JBool (b : bool)
| JNum (n : Num)
| JStr (s : string)
| JArr (items : list JSValue)
| JObj (fields : list (string * JSValue)).

(** [ToBoolean] *)
Definition truthy (v : JSValue) : bool :=
  match v with
  | JUndefined | JNull => false
  | JBool b => b
  | JNum n => negb (num_is_zero n)
  | JStr s => negb (s =? "")%string
  | JArr _ | JObj _ => true
  end.

(** [a || b] *)
Definition or (a b : JSValue) : JSValue := if truthy a then a else b.

(** The value of a key in an object built by [JSON.parse]: the last
    binding of the key wins. *)
Fixpoint lookup (k : string) (fields : list (string * JSValue)) : JSValue :=
  match fields with
  | [] => JUndefined
  | (k', v) :: rest =>
      match lookup k rest with
      | JUndefined => if (k' =? k)%string then v else JUndefined
      | found => found
      end
  end.

(** [v.k] for [v] neither [null] nor [undefined] and [k] one of the keys
    the source reads; none of them is a property of arrays, strings,
    numbers or booleans. *)
Definition prop (v : JSValue) (k : string) : JSValue :=
  match v with
  | JObj fields => lookup k fields
  | _ => JUndefined
  end.

Definition nullish (v : JSValue) : bool :=
  match v with
  | JUndefined | JNull => true
  | _ => false
  end.

(** [v?.k] *)
Definition opt_prop (v : JSValue) (k : string) : JSValue :=
  if nullish v then JUndefined else prop v k.

(** [v?.[0]] *)
Definition opt_item0 (v : JSValue) : JSValue :=
  match v with
  | JArr (x :: _) => x
  | JStr (String c _) => JStr (String c EmptyString)
  | JObj fields => lookup "0" fields
  | _ => JUndefined
  end.

(** [v === s] for a string [s] *)
Definition is_str (v : JSValue) (s : string) : bool :=
  match v with
  | JStr s' => (s' =? s)%string
  | _ => false
  end.

(** [v === 0] *)
Definition is_zero (v : JSValue) : bool :=
  match v with
  | JNum n => num_is_zero n
  | _ => false
  end.

Definition join_comma (l : list string) : string :=
  match l with
  | [] => ""
  | x :: rest => fold_left (fun acc y => acc ++ "," ++ y) rest x
  end.

Section ToString.
(** [Number.prototype.toString], of the host. *)
Variable Number_toString : Num -> string.

(** [String(v)], what a template literal prints for [v]. *)
Fixpoint ToString (v : JSValue) : string :=
  match v with
  | JUndefined => "undefined"
  | JNull => "null"
  | JBool true => "true"
  | JBool false => "false"
  | JNum n => Number_toString n
  | JStr s => s
  | JArr items =>
      join_comma (map (fun x => if nullish x then "" else ToString x) items)
  | JObj _ => "[object Object]"
  end.
End ToString.

End JS.

(* ================================================================== *)
(** * JSON.parse

    A reader of JSON texts over the alphabet of the model, used to run the
    embedding on concrete texts.  An escape [\uXXXX] from 0100 on names a
    code unit outside the alphabet and has no value here. *)

Module JSON.
Import Text JS.

Definition is_ws (c : ascii) : bool :=
  let n := code c in N.eqb n 32 || N.eqb n 9 || N.eqb n 10 || N.eqb n 13.

Fixpoint skip_ws (s : chars) : chars :=
  match s with
  | c :: s' => if is_ws c then skip_ws s' else s
  | [] => []
  end.

Definition digit (c : ascii) : option Z :=
  let n := code c in
  if N.leb 48 n && N.leb n 57 then Some (Z.of_N n - 48) else None.

Definition hex (c : ascii) : option N :=
  let n := code c in
  if N.leb 48 n && N.leb n 57 then Some (n - 48)%N
  else if N.leb 65 n && N.leb n 70 then Some (n - 55)%N
  else if N.leb 97 n && N.leb n 102 then Some (n - 87)%N
  else None.

(** The characters of a string literal after its opening quote. *)
Fixpoint string_body (s : chars) (acc : chars) : option (string * chars) :=
  match s with
  | [] => None
  | c :: rest =>
      if Ascii.eqb c dquote then Some (to_string (rev acc), rest)
      else if Ascii.eqb c "\" then
        match rest with
        | e :: rest' =>
            let simple (x : N) := string_body rest' (ascii_of_N x :: acc) in
            if Ascii.eqb e dquote then simple 34%N
            else if Ascii.eqb e "\" then simple 92%N
            else if Ascii.eqb e "/" then simple 47%N
            else if Ascii.eqb e "b" then simple 8%N
            else if Ascii.eqb e "f" then simple 12%N
            else if Ascii.eqb e "n" then simple 10%N
            else if Ascii.eqb e "r" then simple 13%N
            else if Ascii.eqb e "t" then simple 9%N
            else if Ascii.eqb e "u" then
              match rest' with
              | h1 :: h2 :: h3 :: h4 :: rest'' =>
                  match hex h1, hex h2, hex h3, hex h4 with
                  | Some 0%N, Some 0%N, Some a, Some b =>
                      string_body rest'' (ascii_of_N (16 * a + b) :: acc)
                  | _, _, _, _ => None
                  end
              | _ => None
              end
            else None
        | [] => None
        end
      else if N.ltb (code c) 32 then None
      else string_body rest (c :: acc)
  end.

(** A run of digits: their value appended to [acc], how many, the rest. *)
Fixpoint digits (s : chars) (acc : Z) (count : Z) : Z * Z * chars :=
  match s with
  | c :: s' =>
      match digit c with
      | Some d => digits s' (10 * acc + d) (count + 1)
      | None => (acc, count, s)
      end
  | [] => (acc, count, [])
  end.

(** [-? int frac? exp?] *)
Definition number (s : chars) : option (Num * chars) :=
  let '(neg, s1) :=
    match s with
    | c :: s' => if Ascii.eqb c "-" then (true, s') else (false, s)
    | [] => (false, s)
    end in
  let '(i, ni, s2) := digits s1 0 0 in
  if (ni =? 0) || ((1 <? ni) && match s1 with c :: _ => Ascii.eqb c "0" | [] => false end)
  then None
  else
    let frac :=
      match s2 with
      | c :: s' =>
          if Ascii.eqb c "." then
            let '(m, nf, s3) := digits s' i 0 in
            if nf =? 0 then None else Some (m, nf, s3)
          else Some (i, 0, s2)
      | [] => Some (i, 0, s2)
      end in
    match frac with
    | None => None
    | Some (m, nf, s3) =>
        let sign (m : Z) := if neg then - m else m in
        match s3 with
        | c :: s' =>
            if Ascii.eqb c "e" || Ascii.eqb c "E" then
              let '(eneg, s4) :=
                match s' with
                | d :: s'' =>
                    if Ascii.eqb d "-" then (true, s'')
                    else if Ascii.eqb d "+" then (false, s'')
                    else (false, s')
                | [] => (false, s')
                end in
              let '(e, ne, s5) := digits s4 0 0 in
              if ne =? 0 then None
              else Some ({| mant := sign m; exp10 := (if eneg then - e else e) - nf |}, s5)
            else Some ({| mant := sign m; exp10 := - nf |}, s3)
        | [] => Some ({| mant := sign m; exp10 := - nf |}, s3)
        end
    end.

Fixpoint starts_with (p s : chars) : option chars :=
  match p, s with
  | [], _ => Some s
  | c :: p', d :: s' => if Ascii.eqb c d then starts_with p' s' else None
  | _ :: _, [] => None
  end.

(** A value, the elements of an array after its first, the members of an
    object after its first. *)
Fixpoint value (fuel : nat) (s : chars) : option (JSValue * chars) :=
  match fuel with
  | O => None
  | S fuel' =>
      match skip_ws s with
      | [] => None
      | c :: rest =>
          if Ascii.eqb c dquote then
            match string_body rest [] with
            | Some (str, s') => Some (JStr str, skip_ws s')
            | None => None
            end
          else if Ascii.eqb c "[" then
            match skip_ws rest with
            | d :: rest' =>
                if Ascii.eqb d "]" then Some (JArr [], skip_ws rest')
                else
                  match value fuel' rest with
                  | Some (v, s') =>
                      match elements fuel' s' [v] with
                      | Some (items, s'') => Some (JArr items, skip_ws s'')
                      | None => None
                      end
                  | None => None
                  end
            | [] => None
            end
          else if Ascii.eqb c "{" then
            match skip_ws rest with
            | d :: rest' =>
                if Ascii.eqb d "}" then Some (JObj [], skip_ws rest')
                else
                  match members fuel' (skip_ws rest) [] with
                  | Some (fields, s'') => Some (JObj fields, skip_ws s'')
                  | None => None
                  end
            | [] => None
            end
          else
            match starts_with (of_string "true") (c :: rest) with
            | Some s' => Some (JBool true, skip_ws s')
            | None =>
            match starts_with (of_string "false") (c :: rest) with
            | Some s' => Some (JBool false, skip_ws s')
            | None =>
            match starts_with (of_string "null") (c :: rest) with
            | Some s' => Some (JNull, skip_ws s')
            | None =>
            match number (c :: rest) with
            | Some (n, s') => Some (JNum n, skip_ws s')
            | None => None
            end end end end
      end
  end
with elements (fuel : nat) (s : chars) (acc : list JSValue)
     : option (list JSValue * chars) :=
  match fuel with
  | O => None
  | S fuel' =>
      match s with
      | c :: rest =>
          if Ascii.eqb c "]" then Some (rev acc, rest)
          else if Ascii.eqb c "," then
            match value fuel' rest with
            | Some (v, s') => elements fuel' s' (v :: acc)
            | None => None
            end
          else None
      | [] => None
      end
  end
with members (fuel : nat) (s : chars) (acc : list (string * JSValue))
     : option (list (string * JSValue) * chars) :=
  match fuel with
  | O => None
  | S fuel' =>
      (* at a key *)
      match s with
      | q :: rest =>
          if Ascii.eqb q dquote then
            match string_body rest [] with
            | Some (key, s1) =>
                match skip_ws s1 with
                | colon :: s2 =>
                    if Ascii.eqb colon ":" then
                      match value fuel' s2 with
                      | Some (v, s3) =>
                          match s3 with
                          | c :: s4 =>
                              if Ascii.eqb c "}" then Some (rev ((key, v) :: acc), s4)
                              else if Ascii.eqb c "," then
                                members fuel' (skip_ws s4) ((key, v) :: acc)
                              else None
                          | [] => None
                          end
                      | None => None
                      end
                    else None
                | [] => None
                end
            | None => None
            end
          else None
      | [] => None
      end
  end.

(** [JSON.parse(text)]; [None] when it throws. *)
Definition parse (text : string) : option JSValue :=
  let s := of_string text in
  match value (2 * length s + 2) s with
  | Some (v, []) => Some v
  | _ => None
  end.

End JSON.

(* ================================================================== *)
(** * Data of the application *)

Import Text JS.

(** A thrown value.  [createScanApi] decorates the errors it throws with
    [isProductNotFound] and [barcode]; a value that is not an [Error] (the
    event a failing [FileReader] rejects with) has no [message]. *)
Record Thrown := {
  instanceofError : bool;
  message : JSValue;
  isProductNotFound : bool;
  thrown_barcode : option string
}.

(** [new Error(msg)] *)
Definition Error (msg : string) : Thrown :=
  {| instanceofError := true; message := JStr msg;
     isProductNotFound := false; thrown_barcode := None |}.

(** A [File] the user picked: name, MIME type, size in bytes, and the data
    URL a [FileReader] reads from it ([None]: the reader fails). *)
Record File := {
  file_name : string;
  file_type : string;
  file_size : Z;
  file_dataURL : option string
}.

(** [toast({ title, description, variant, duration })] *)
Record Toast := {
  title : string;
  description : JSValue;
  variant : option string;
  duration : option Z
}.

(** [interface CreateScanData]; [date] is the time value whose ISO string is
    sent. *)
Record CreateScanData := {
  productBarcode : string;
  date : Z;
  symptoms : list string
}.

(** [status] of [interface ProductInScan] *)
Record Status := {
  status : string;
  explanation : option string
}.

(** [interface ProductInScan].  The function guards against an absent
    [status], so the field is optional here. *)
Record ProductInScan := {
  barcode : string;
  name : string;
  ingredients : string;
  createdAt : string;
  product_status : option Status
}.

(** What [checkGlutenStatus] is given. *)
Record GlutenCheckInput := {
  productName : string;
  check_ingredients : string;
  currentStatus : option string
}.

(** [fetch(url, options)]: the request, by the endpoint and what its body
    and headers are built from. *)
Inductive Request : Type :=
| POST_api_scans (scanData : CreateScanData) (token : string)
| POST_api_products (productData : JSValue) (token : string)
| PATCH_api_status (barcode : string) (statusData : JSValue) (token : string)
| GET_off_product (barcode : string)
| POST_gemini_check (productData : GlutenCheckInput)
| POST_gemini_images (images : list string) (prompt : string).

(** A [Response]: status line and what [response.json()] settles to. *)
Record Response := {
  res_status : Z;
  statusText : string;
  json : Thrown + JSValue
}.

(** [response.ok] *)
Definition ok (r : Response) : bool := (200 <=? res_status r) && (res_status r <=? 299).

Inductive FetchOutcome : Type :=
| Rejected (e : Thrown)
| Resolved (r : Response).

(** What [s3Client.send(new PutObjectCommand(params))] settles to: on failure
    the fields of the error the handler reads. *)
Inductive S3Outcome : Type :=
| S3Sent
| S3Failed (httpStatusCode : option Z) (code : option string).

(** The capabilities the scan screen calls. *)
Inductive ApiCall : Type :=
| scanApi_recordScan (scanData : CreateScanData) (token : string)
| productApi_createProduct (productData : JSValue) (token : string)
| statusApi_updateProductStatus (barcode : string) (statusData : JSValue) (token : string)
| openFoodFactsApi_getProduct (barcode : string)
| geminiApi_checkGlutenStatus (productData : GlutenCheckInput)
| geminiApi_generateProductInfo (images : list string) (prompt : string)
| s3_uploadFileToS3 (file : File) (pathPrefix : string).

(** What a computation does, in the order it does it. *)
Inductive Event : Type :=
| Call (c : ApiCall)
| Fetch (req : Request)
| S3Put (key : string) (file : File)
| ShowToast (t : Toast)
| SetIsScanning (b : bool)
| SetShowUploadModal (b : bool)
| SetUploadedImages (images : list File)
| SetCurrentBarcodeForUpload (barcode : option string)
| InvalidateQueries (queryKey : list string)
| Mutate (scanData : CreateScanData).     (* recordScan(scanData) *)

(** Everything the code does not decide: the builtins of the language, the
    build-time configuration, the network, the object store, the clock. *)
Record World := {
  JSON_parse : string -> option JSValue;      (* [None]: throws *)
  Date_parse : string -> option Z;            (* [None]: Invalid Date *)
  Number_toString : Num -> string;
  TypeError_message : string -> string;
  GEMINI_API_KEY : string;                    (* empty: not configured *)
  S3_BUCKET_NAME : string;
  S3_REGION : string;
  S3_ACCESS_KEY_ID : string;
  S3_SECRET_ACCESS_KEY : string;
  S3_PUBLIC_URL : string;
  fetch : Request -> FetchOutcome;
  s3_send : string -> File -> S3Outcome;
  uuidv4 : string;
  now : Z;                                    (* [new Date()] *)
  LocalTZA : Z -> bool -> Z   (* the offset of the host's time zone, in ms:
                                 at the UTC time [t] ([true]), at the local
                                 time [t] ([false]) *)
}.

(** The [TypeError] of reading a property of [null] or [undefined], or of
    calling what is not a function. *)
Definition TypeError (w : World) (what : string) : Thrown :=
  Error (TypeError_message w what).

(** [`${v}`] *)
Definition str (w : World) (v : JSValue) : string := ToString (Number_toString w) v.

(* ================================================================== *)
(** * Computations *)

Definition M (A : Type) : Type := (list Event * (Thrown + A))%type.

Definition ret {A} (a : A) : M A := ([], inr a).
Definition throw {A} (e : Thrown) : M A := ([], inl e).
Definition emit (ev : Event) : M unit := ([ev], inr tt).

Definition bind {A B} (m : M A) (f : A -> M B) : M B :=
  match m with
  | (t, inl e) => (t, inl e)
  | (t, inr a) => let (t', r) := f a in ((t ++ t')%list, r)
  end.

(** [try { m } catch (e) { h e }] *)
Definition try_catch {A} (m : M A) (h : Thrown -> M A) : M A :=
  match m with
  | (t, inl e) => let (t', r) := h e in ((t ++ t')%list, r)
  | (t, inr a) => (t, inr a)
  end.

(** [try { m } finally { f }] for an [f] that neither throws nor returns. *)
Definition finally {A} (m : M A) (f : list Event) : M A :=
  let (t, r) := m in ((t ++ f)%list, r).

Definition lift {A} (r : Thrown + A) : M A := ([], r).

Definition trace {A} (m : M A) : list Event := fst m.
Definition outcome {A} (m : M A) : Thrown + A := snd m.

Declare Scope comp_scope.
Delimit Scope comp_scope with comp.
Notation "x <- m ;; k" := (bind m (fun x => k))
  (at level 61, m at next level, right associativity) : comp_scope.
Notation "m ;;; k" := (bind m (fun _ => k))
  (at level 61, right associativity) : comp_scope.
Local Open Scope comp_scope.

Definition toast (t : Toast) : M unit := emit (ShowToast t).

(* ================================================================== *)
(** * lib/api.ts *)

Module Api.
Import Regex.

(** [interface ApiResponse<T>]; an absent field is [undefined]. *)
Record ApiResponse := {
  data : JSValue;
  error : JSValue;
  http_status : Z          (* [status] *)
}.

Definition error_response (err : JSValue) (st : Z) : ApiResponse :=
  {| data := JUndefined; error := err; http_status := st |}.
Definition ok_response (d : JSValue) (st : Z) : ApiResponse :=
  {| data := d; error := JUndefined; http_status := st |}.

(** [v.k], throwing on [null] and [undefined]. *)
Definition get (w : World) (v : JSValue) (k : string) : Thrown + JSValue :=
  if nullish v then inl (TypeError w k) else inr (prop v k).

(** [error instanceof Error ? error.message : fallback] *)
Definition message_or (e : Thrown) (fallback : string) : JSValue :=
  if instanceofError e then message e else JStr fallback.

Definition handleApiError (response : Response) : ApiResponse :=
  let plain :=
    error_response (JStr ("API error: " ++ of_Z (res_status response) ++ " " ++ statusText response))
            (res_status response) in
  match json response with
  | inr errorData =>
      if nullish errorData then plain
      else error_response (or (or (prop errorData "message") (prop errorData "error"))
                       (JStr ("API error: " ++ of_Z (res_status response))))
                   (res_status response)
  | inl _ => plain
  end.

Definition apiFetch (w : World) (req : Request) : M ApiResponse :=
  emit (Fetch req) ;;;
  try_catch
    (match fetch w req with
     | Rejected e => throw e
     | Resolved response =>
         if negb (ok response) then ret (handleApiError response)
         else
           d <- lift (json response) ;;
           ret (ok_response d (res_status response))
     end)
    (fun e => ret (error_response (message_or e "Unknown API error occurred") 0)).

Module productApi.
Definition createProduct (w : World) (productData : JSValue) (token : string)
  : M ApiResponse :=
  emit (Call (productApi_createProduct productData token)) ;;;
  apiFetch w (POST_api_products productData token).
End productApi.

Module scanApi.
Definition recordScan (w : World) (scanData : CreateScanData) (token : string)
  : M ApiResponse :=
  emit (Call (scanApi_recordScan scanData token)) ;;;
  apiFetch w (POST_api_scans scanData token).
End scanApi.

Module statusApi.
Definition updateProductStatus (w : World) (barcode : string) (statusData : JSValue)
           (token : string) : M ApiResponse :=
  emit (Call (statusApi_updateProductStatus barcode statusData token)) ;;;
  apiFetch w (PATCH_api_status barcode statusData token).
End statusApi.

Module openFoodFactsApi.
Definition getProduct (w : World) (barcode : string) : M ApiResponse :=
  emit (Call (openFoodFactsApi_getProduct barcode)) ;;;
  apiFetch w (GET_off_product barcode).
End openFoodFactsApi.

(** ** The expressions the client matches the model's text with *)

Definition backticks : string := "```".
Definition dash_or_space : regex :=
  Chr (fun c => Ascii.eqb c "-" || Ascii.eqb c " ").
(** [( [^\n]+ (?: \n [^\n]+ )* )] *)
Definition lines : regex :=
  Group (Seq (Plus not_newline) (Star true (Seq (lit lf) (Plus not_newline)))).
(** [([^\n]+)] *)
Definition line : regex := Group (Plus not_newline).
(** [label:?\s*] under the [i] flag *)
Definition labelled (label : string) (body : regex) : regex :=
  seqs [lit_i label; Opt (lit ":"); Star true space; body].

(** [/```json\n([\s\S]*?)\n```/] *)
Definition re_fence_json : regex :=
  seqs [lit (backticks ++ "json" ++ lf); Group (Star false any); lit (lf ++ backticks)].
(** [/```\n([\s\S]*?)\n```/] *)
Definition re_fence : regex :=
  seqs [lit (backticks ++ lf); Group (Star false any); lit (lf ++ backticks)].
(** [/{[\s\S]*?}/] *)
Definition re_braces : regex := seqs [lit "{"; Star false any; lit "}"].
(** [/```json\n|```\n|```/g] *)
Definition re_fence_marks : regex :=
  Alt (lit (backticks ++ "json" ++ lf)) (Alt (lit (backticks ++ lf)) (lit backticks)).
(** [/gluten[- ]free/i] *)
Definition re_gluten_free : regex := seqs [lit_i "gluten"; dash_or_space; lit_i "free"].
(** [/not gluten[- ]free/i] *)
Definition re_not_gluten_free : regex :=
  seqs [lit_i "not gluten"; dash_or_space; lit_i "free"].
(** [/contains gluten|has gluten|gluten[- ]containing/i] *)
Definition re_contains_gluten : regex :=
  Alt (lit_i "contains gluten")
      (Alt (lit_i "has gluten") (seqs [lit_i "gluten"; dash_or_space; lit_i "containing"])).
(** [/explanation:?\s*( [^\n]+ (?: \n [^\n]+ )* )/i] and its two siblings *)
Definition re_explanation : regex := labelled "explanation" lines.
Definition re_analysis : regex := labelled "analysis" lines.
Definition re_assessment : regex := labelled "assessment" lines.
(** [/Product name:?\s*([^\n]+)/i], [/Name:?\s*([^\n]+)/i],
    [/Ingredients:?\s*( [^\n]+ (?: \n [^\n]+ )* )/i] *)
Definition re_product_name : regex := labelled "Product name" line.
Definition re_name : regex := labelled "Name" line.
Definition re_ingredients : regex := labelled "Ingredients" lines.

Definition test (r : regex) (text : string) : bool :=
  match match_ r text with Some _ => true | None => false end.

(** [a || b] on the results of [match] *)
Definition or_match (a b : option match_result) : option match_result :=
  match a with Some m => Some m | None => b end.

(** [m && m[1].trim()], when truthy *)
Definition trimmed_group (m : option match_result) : option string :=
  match m with
  | Some {| group1 := Some g |} =>
      let t := trim g in if (t =? "")%string then None else Some t
  | _ => None
  end.

(** ** extractProductInfoFromGeminiResponse *)

Record ProductInfo := { info_name : string; info_ingredients : string }.

Definition extractProductInfoFromGeminiResponse (text : string) : ProductInfo :=
  let nameMatch := or_match (match_ re_product_name text) (match_ re_name text) in
  let ingredientsMatch := match_ re_ingredients text in
  {| info_name :=
       match trimmed_group nameMatch with Some n => n | None => "Unknown Product" end;
     info_ingredients :=
       match trimmed_group ingredientsMatch with Some i => i | None => "" end |}.

(** ** extractGlutenInfoFromText *)

Record GlutenInfo := { glutenFreeStatus : string; info_explanation : string }.

Definition extractGlutenInfoFromText (text : string) : GlutenInfo :=
  let explanationMatch :=
    or_match (or_match (match_ re_explanation text) (match_ re_analysis text))
             (match_ re_assessment text) in
  {| glutenFreeStatus :=
       if test re_gluten_free text && negb (test re_not_gluten_free text) then "gluten-free"
       else if test re_contains_gluten text then "contains-gluten"
       else "unknown";
     info_explanation :=
       match trimmed_group explanationMatch with
       | Some e => e
       | None => "Unable to determine from AI response"
       end |}.

Definition GlutenInfo_object (g : GlutenInfo) : JSValue :=
  JObj [("glutenFreeStatus", JStr (glutenFreeStatus g));
        ("explanation", JStr (info_explanation g))].

Definition ProductInfo_object (p : ProductInfo) : JSValue :=
  JObj [("name", JStr (info_name p)); ("ingredients", JStr (info_ingredients p))].

Module geminiApi.

Definition api_key_missing : Toast :=
  {| title := "API Key Missing";
     description := JStr "Google Gemini API key is not configured.";
     variant := Some "destructive"; duration := None |}.

(** [data.candidates?.[0]?.content?.parts?.[0]?.text || ''] *)
Definition candidate_text (w : World) (d : JSValue) : Thrown + JSValue :=
  match get w d "candidates" with
  | inl e => inl e
  | inr candidates =>
      inr (or (opt_prop (opt_item0 (opt_prop (opt_prop (opt_item0 candidates)
                                                        "content") "parts")) "text")
              (JStr ""))
  end.

(** The receiver of [responseText.match]: anything but a string has no
    such method. *)
Definition as_text (w : World) (v : JSValue) : Thrown + string :=
  match v with
  | JStr s => inr s
  | _ => inl (TypeError w "match")
  end.

(** [responseText.match(fence_json) || responseText.match(fence) ||
    responseText.match(braces)] *)
Definition jsonMatch (text : string) : option match_result :=
  or_match (or_match (match_ re_fence_json text) (match_ re_fence text))
           (match_ re_braces text).

(** The [glutenInfo] of [checkGlutenStatus]. *)
Definition glutenInfo (w : World) (responseText : string) : JSValue :=
  match jsonMatch responseText with
  | Some m =>
      match JSON_parse w (replace_all_empty re_fence_marks (whole m)) with
      | Some v => v
      | None => GlutenInfo_object (extractGlutenInfoFromText responseText)
      end
  | None => GlutenInfo_object (extractGlutenInfoFromText responseText)
  end.

Definition checkGlutenStatus (w : World) (productData : GlutenCheckInput)
  : M ApiResponse :=
  emit (Call (geminiApi_checkGlutenStatus productData)) ;;;
  if (GEMINI_API_KEY w =? "")%string then
    toast api_key_missing ;;;
    ret (error_response (JStr "Gemini API key is not configured") 0)
  else
    try_catch
      (emit (Fetch (POST_gemini_check productData)) ;;;
       match fetch w (POST_gemini_check productData) with
       | Rejected e => throw e
       | Resolved response =>
           if negb (ok response) then ret (handleApiError response)
           else
             d <- lift (json response) ;;
             responseText <- lift (candidate_text w d) ;;
             text <- lift (as_text w responseText) ;;
             let info := glutenInfo w text in
             st <- lift (get w info "glutenFreeStatus") ;;
             ex <- lift (get w info "explanation") ;;
             ret (ok_response (JObj [("success", JBool true);
                                 ("glutenFreeStatus", or st (JStr "unknown"));
                                 ("explanation", or ex (JStr "Unable to determine"))])
                          200)
       end)
      (fun e => ret (error_response (message_or e "Unknown error with Gemini AI") 0)).

Definition generateProductInfo (w : World) (images : list string) (prompt : string)
  : M ApiResponse :=
  emit (Call (geminiApi_generateProductInfo images prompt)) ;;;
  if (GEMINI_API_KEY w =? "")%string then
    toast api_key_missing ;;;
    ret (error_response (JStr "Gemini API key is not configured") 0)
  else
    try_catch
      (emit (Fetch (POST_gemini_images images prompt)) ;;;
       match fetch w (POST_gemini_images images prompt) with
       | Rejected e => throw e
       | Resolved response =>
           if negb (ok response) then ret (handleApiError response)
           else
             d <- lift (json response) ;;
             responseText <- lift (candidate_text w d) ;;
             text <- lift (as_text w responseText) ;;
             ret (ok_response (JObj [("success", JBool true);
                                 ("product",
                                  ProductInfo_object
                                    (extractProductInfoFromGeminiResponse text))])
                          200)
       end)
      (fun e => ret (error_response (message_or e "Unknown error with Gemini AI") 0)).

End geminiApi.

End Api.

(* ================================================================== *)
(** * lib/s3upload.ts *)

Module S3upload.

(** [interface S3UploadResponse] *)
Record S3UploadResponse := {
  fileUrl : option string;       (* [data?.fileUrl] *)
  s3_error : option string;      (* [error] *)
  s3_status : Z                  (* [status] *)
}.

Definition validateS3Config (w : World) : option string :=
  if (S3_BUCKET_NAME w =? "")%string then Some "AWS S3 bucket name is not configured"
  else if (S3_REGION w =? "")%string then Some "AWS S3 region is not configured"
  else if (S3_ACCESS_KEY_ID w =? "")%string then Some "AWS S3 access key ID is not configured"
  else if (S3_SECRET_ACCESS_KEY w =? "")%string
       then Some "AWS S3 secret access key is not configured"
  else None.

(** [getS3Client() !== null] *)
Definition getS3Client (w : World) : bool :=
  match validateS3Config w with
  | Some _ => false
  | None => true
  end.

Definition validImageTypes : list string :=
  ["image/jpeg"; "image/png"; "image/gif"; "image/webp"].

Definition MAX_FILE_SIZE_MB : Z := 5.

Definition validateFile (file : File) : option string :=
  if negb (existsb (String.eqb (file_type file)) validImageTypes)
  then Some "Invalid file type. Only JPG, PNG, GIF, WEBP are allowed."
  else if MAX_FILE_SIZE_MB * 1024 * 1024 <? file_size file
  then Some ("File is too large. Maximum size is " ++ of_Z MAX_FILE_SIZE_MB ++ "MB.")
  else None.

Definition constructFileUrl (w : World) (s3Key : string) : string :=
  if negb (S3_PUBLIC_URL w =? "")%string then S3_PUBLIC_URL w ++ "/" ++ s3Key
  else "https://" ++ S3_BUCKET_NAME w ++ ".s3." ++ S3_REGION w ++ ".amazonaws.com/" ++ s3Key.

Definition destructive (t d : string) : Toast :=
  {| title := t; description := JStr d; variant := Some "destructive"; duration := None |}.

(** The [catch] of the upload: message and status code from the error. *)
Definition upload_failure (httpStatusCode : option Z) (code : option string)
  : S3UploadResponse :=
  let '(errorMessage, statusCode) :=
    match httpStatusCode with
    | Some c =>
        if c =? 0 then ("Failed to upload file to S3", 500)
        else if c =? 403
        then ("Access denied uploading to S3. Check credentials and permissions.", c)
        else if c =? 404
        then ("S3 bucket not found. Check your bucket name and region.", c)
        else ("Failed to upload file to S3", c)
    | None => ("Failed to upload file to S3", 500)
    end in
  let '(errorMessage, statusCode) :=
    match code with
    | Some "NetworkError" =>
        ("Network error while uploading to S3. Check your internet connection.", 0)
    | _ => (errorMessage, statusCode)
    end in
  {| fileUrl := None; s3_error := Some errorMessage; s3_status := statusCode |}.

Definition uploadFileToS3 (w : World) (file : File) (pathPrefix : string)
  : M S3UploadResponse :=
  emit (Call (s3_uploadFileToS3 file pathPrefix)) ;;;
  match validateS3Config w with
  | Some configError =>
      toast (destructive "AWS S3 Configuration Error" configError) ;;;
      ret {| fileUrl := None; s3_error := Some configError; s3_status := 0 |}
  | None =>
      if negb (getS3Client w)
      then ret {| fileUrl := None; s3_error := Some "Could not initialize S3 client";
                  s3_status := 0 |}
      else
        match validateFile file with
        | Some fileError =>
            toast (destructive "File Validation Error" fileError) ;;;
            ret {| fileUrl := None; s3_error := Some fileError; s3_status := 400 |}
        | None =>
            let fileExtension := to_string (after_last_dot (of_string (file_name file)) []) in
            let uniqueFileName := uuidv4 w ++ "." ++ fileExtension in
            let s3Key :=
              (if ends_with_slash (of_string pathPrefix) then pathPrefix
               else pathPrefix ++ "/") ++ uniqueFileName in
            emit (S3Put s3Key file) ;;;
            match s3_send w s3Key file with
            | S3Sent =>
                ret {| fileUrl := Some (constructFileUrl w s3Key); s3_error := None;
                       s3_status := 200 |}
            | S3Failed httpStatusCode code =>
                let r := upload_failure httpStatusCode code in
                toast (destructive "Upload Failed"
                                   (match s3_error r with Some m => m | None => "" end)) ;;;
                ret r
            end
        end
  end.

End S3upload.

(* ================================================================== *)
(** * The scan screen ([ScanTab]) *)

Module ScanTab.
Import Api S3upload.

(** The state of the component a handler closes over: the values of the
    render in which the handler was created. *)
Record Closure := {
  token : option string;
  isScanning : bool;
  showUploadModal : bool;
  uploadedImages : list File;
  currentBarcodeForUpload : option string
}.

(** [!!s] for a string or [null] *)
Definition present (s : option string) : bool :=
  match s with
  | Some x => negb (x =? "")%string
  | None => false
  end.

Definition or_empty (s : option string) : string :=
  match s with Some x => x | None => "" end.

(** The product of a scan response, as the screen reads it. *)
Record ScanProduct := {
  sp_barcode : string;
  sp_name : string;
  sp_ingredients : option string;     (* [None]: not of type string *)
  sp_createdAt : string;              (* empty: absent *)
  sp_status : option Status
}.

(** The body of a recorded scan ([data: ScanType]). *)
Record ScanType := {
  scan_productBarcode : string;
  scan_product : option ScanProduct
}.

(** A field that the screen prints ([`${v.k}`], in a notification, a prompt
    or a URL) or names a query with: what a template shows for it, so
    "undefined" for a field that is not there. *)
Definition shown_field (w : World) (v : JSValue) (k : string) : string :=
  str w (prop v k).

(** A field that the screen computes with, at the type its interface
    declares: a string, empty when the field is not there.  The records
    hold bodies that honour [interface ScanType] in these fields
    ([createdAt] a string, [status] an object with a string [status]). *)
Definition string_field (v : JSValue) (k : string) : string :=
  match prop v k with JStr s => s | _ => "" end.

Definition as_Status (v : JSValue) : option Status :=
  match v with
  | JObj _ =>
      Some {| status := string_field v "status";
              explanation := match prop v "explanation" with
                             | JStr s => Some s
                             | _ => None
                             end |}
  | _ => None
  end.

(** The body of a recorded scan as [onSuccess] reads it.  The first thing
    [onSuccess] does is to read [data.productBarcode], which throws a
    [TypeError] when the body is [null]. *)
Definition as_ScanType (w : World) (v : JSValue) : Thrown + ScanType :=
  if nullish v then inl (TypeError w "productBarcode")
  else
    inr {| scan_productBarcode := shown_field w v "productBarcode";
           scan_product :=
             match prop v "product" with
             | JObj fields =>
                 let p := JObj fields in
                 Some {| sp_barcode := shown_field w p "barcode";
                         sp_name := shown_field w p "name";
                         sp_ingredients := match prop p "ingredients" with
                                           | JStr s => Some s
                                           | _ => None
                                           end;
                         sp_createdAt := string_field p "createdAt";
                         sp_status := as_Status (prop p "status") |}
             | _ => None
             end |}.

Definition Status_object (s : Status) : JSValue :=
  JObj (("status", JStr (status s)) ::
        match explanation s with
        | Some e => [("explanation", JStr e)]
        | None => []
        end).

(** [product.status], [undefined] when absent *)
Definition status_value (p : ProductInScan) : JSValue :=
  match product_status p with
  | Some s => Status_object s
  | None => JUndefined
  end.

(** [product.status?.status] *)
Definition stored_label (p : ProductInScan) : option string :=
  option_map status (product_status p).

Definition info (t d : string) : Toast :=
  {| title := t; description := JStr d; variant := None; duration := None |}.

(** ** fileToBase64 and uploadImageToServer *)

(** What a failing [FileReader] rejects with: an event, not an [Error]. *)
Definition reader_error : Thrown :=
  {| instanceofError := false; message := JUndefined;
     isProductNotFound := false; thrown_barcode := None |}.

Definition fileToBase64 (file : File) : Thrown + string :=
  match file_dataURL file with
  | Some url => inr url
  | None => inl reader_error
  end.

(** [Promise.all(files.map(fileToBase64))] *)
Fixpoint all_fileToBase64 (files : list File) : Thrown + list string :=
  match files with
  | [] => inr []
  | f :: rest =>
      match fileToBase64 f, all_fileToBase64 rest with
      | inr u, inr us => inr (u :: us)
      | inl e, _ => inl e
      | _, inl e => inl e
      end
  end.

Definition uploadImageToServer (w : World) (file : File) (pathPrefix : string)
  : M string :=
  uploadResult <- uploadFileToS3 w file pathPrefix ;;
  if present (s3_error uploadResult)
  then throw (Error (or_empty (s3_error uploadResult)))
  else ret (or_empty (fileUrl uploadResult)).

(** ** createScanApi *)

Definition createScanApi (w : World) (c : Closure) (scanData : CreateScanData)
  : M JSValue :=
  if negb (present (token c)) then throw (Error "Authentication token not found.")
  else
    response <- scanApi.recordScan w scanData (or_empty (token c)) ;;
    if truthy (error response) then
      let barcode := productBarcode scanData in
      if http_status response =? 404 then
        throw {| instanceofError := true; message := JStr (str w (error response));
                 isProductNotFound := true; thrown_barcode := Some barcode |}
      else
        throw {| instanceofError := true; message := JStr (str w (error response));
                 isProductNotFound := false; thrown_barcode := Some barcode |}
    else ret (data response).

(** ** fetchProductFromOpenFoodFacts *)

Record OffResult := {
  success : bool;
  reason : option string;
  off_message : JSValue;         (* [message] *)
  productData : JSValue
}.

Definition off_failure (r : string) (m : JSValue) : OffResult :=
  {| success := false; reason := Some r; off_message := m; productData := JUndefined |}.

(** The candidate built from the catalog's [product]. *)
Definition productPayload (barcode : string) (product : JSValue) : JSValue :=
  JObj [("barcode", JStr barcode);
        ("name",
         or (or (or (prop product "product_name") (prop product "product_name_en"))
                (prop product "name"))
            (JStr "Unknown Product"));
        ("ingredients",
         or (or (or (or (prop product "ingredients_text_with_allergens")
                        (prop product "ingredients_text"))
                    (prop product "ingredients_text_en"))
                (prop product "ingredients_text_debug"))
            (JStr ""));
        ("pictureUrl",
         or (or (or (prop product "image_front_url") (prop product "image_url"))
                (prop product "image_small_url"))
            (JStr ""))].

Definition fetchProductFromOpenFoodFacts (w : World) (barcode : string)
           (authToken : option string) : M OffResult :=
  try_catch
    (offResponse <- openFoodFactsApi.getProduct w barcode ;;
     if truthy (error offResponse) then
       if http_status offResponse =? 404 then ret (off_failure "OFF_NOT_FOUND" JUndefined)
       else ret (off_failure "OFF_API_ERROR" (error offResponse))
     else
       let offData := data offResponse in
       st <- lift (get w offData "status") ;;
       if is_zero st || negb (truthy (prop offData "product"))
       then ret (off_failure "OFF_NOT_FOUND" JUndefined)
       else
         let product := prop offData "product" in
         let payload := productPayload barcode product in
         if negb (present authToken)
         then ret (off_failure "AUTH_ERROR"
                               (JStr "Authentication token not found for saving product."))
         else
           backendResponse <- productApi.createProduct w payload (or_empty authToken) ;;
           if truthy (error backendResponse)
           then ret (off_failure "DB_SAVE_FAILED"
                                 (JStr ("Failed to save product to our DB: "
                                        ++ str w (error backendResponse))))
           else ret {| success := true; reason := None; off_message := JUndefined;
                       productData := data backendResponse |})
    (fun e => ret (off_failure "ERROR" (message e))).

(** ** checkAndProcessGlutenStatus *)

Definition msPerDay : Z := 86400000.

(** [TimeClip]: a time value lies within 8.64e15 ms of the epoch; beyond,
    the date is invalid. *)
Definition TimeClip (t : Z) : option Z :=
  if Z.abs t <=? 8640000000000000 then Some t else None.

(** [d.setDate(d.getDate() - n)] on the time value [t] of [d].  The date is
    stepped in the local time of the host: [LocalTime(t)] is
    [t + LocalTZA(t, true)]; [MakeDay] goes [n] days back in the calendar
    and [MakeDate] keeps the time within the day, which is [n * msPerDay]
    less; the result is read back as [UTC(t')], that is
    [t' - LocalTZA(t', false)], and clipped.  Across a change of the
    offset the step is not [n] times 24 hours. *)
Definition minus_days (w : World) (t n : Z) : option Z :=
  let local := t + LocalTZA w t true in
  let moved := local - n * msPerDay in
  TimeClip (moved - LocalTZA w moved false).

(** [productDate > oneWeekAgo]; a comparison with an invalid date is false. *)
Definition is_recent (w : World) (createdAt : string) : bool :=
  match Date_parse w createdAt, minus_days w (now w) 7 with
  | Some productDate, Some oneWeekAgo => oneWeekAgo <? productDate
  | _, _ => false
  end.

(** [v !== s] for the stored label [s], [undefined] when there is none *)
Definition differs (v : JSValue) (stored : option string) : bool :=
  match stored with
  | Some s => negb (is_str v s)
  | None => negb (match v with JUndefined => true | _ => false end)
  end.

Definition status_updated (w : World) (name : string) (glutenFreeStatus explanation : JSValue)
  : Toast :=
  {| title := "AI Gluten Check";
     description :=
       JStr ("Product '" ++ name ++ "' status updated to '" ++ str w glutenFreeStatus ++ "'. "
             ++ (if truthy explanation then "Reason: " ++ str w explanation else ""));
     variant := None; duration := None |}.

Definition check_failed (e : Thrown) : Toast :=
  {| title := "AI Gluten Check Failed"; description := message e;
     variant := Some "destructive"; duration := None |}.

Definition checkAndProcessGlutenStatus (w : World) (product : ProductInScan)
           (authToken : option string) : M JSValue :=
  if (createdAt product =? "")%string || negb (truthy (status_value product))
  then ret JNull
  else if is_recent w (createdAt product) then ret (status_value product)
  else
    try_catch
      (let geminiPayload :=
         {| productName := name product; check_ingredients := ingredients product;
            currentStatus := stored_label product |} in
       geminiResponse <- geminiApi.checkGlutenStatus w geminiPayload ;;
       if truthy (error geminiResponse)
       then throw (Error ("Gemini API for gluten check failed: "
                          ++ str w (error geminiResponse)))
       else if negb (truthy (opt_prop (data geminiResponse) "success"))
               || negb (truthy (opt_prop (data geminiResponse) "glutenFreeStatus"))
       then throw (Error "Gemini gluten check was not successful or status missing")
       else
         let glutenFreeStatus := prop (data geminiResponse) "glutenFreeStatus" in
         let explanation := prop (data geminiResponse) "explanation" in
         if differs glutenFreeStatus (stored_label product) then
           if negb (present authToken) then ret (status_value product)
           else
             let statusUpdatePayload :=
               JObj [("status", glutenFreeStatus);
                     ("explanation", or explanation (JStr ""))] in
             backendUpdateResponse <-
               statusApi.updateProductStatus w (barcode product) statusUpdatePayload
                                             (or_empty authToken) ;;
             if truthy (error backendUpdateResponse) then ret (status_value product)
             else
               toast (status_updated w (name product) glutenFreeStatus explanation) ;;;
               ret (data backendUpdateResponse)
         else ret (status_value product))
      (fun e =>
         toast (check_failed e) ;;;
         ret (status_value product)).

(** ** The recordScan mutation *)

Definition processBarcode (w : World) (barcode : string) : M unit :=
  emit (SetIsScanning true) ;;;
  emit (Mutate {| productBarcode := barcode; date := now w; symptoms := [] |}).

(** [data.product as ProductInScan], past the guard of [onSuccess]. *)
Definition as_ProductInScan (p : ScanProduct) (ingredients : string) : ProductInScan :=
  {| barcode := sp_barcode p; name := sp_name p; ingredients := ingredients;
     createdAt := sp_createdAt p; product_status := sp_status p |}.

Definition scan_recorded (d : ScanType) : Toast :=
  info "Scan Recorded!"
       ("Product (Barcode: " ++ scan_productBarcode d
        ++ ") scan has been added to your journal.").

Definition onSuccess (w : World) (c : Closure) (d : ScanType) : M unit :=
  toast (scan_recorded d) ;;;
  emit (SetIsScanning false) ;;;
  match scan_product d with
  | Some p =>
      match sp_ingredients p, sp_status p with
      | Some ingredients, Some st =>
          if negb (sp_createdAt p =? "")%string then
            updatedProductStatus <-
              checkAndProcessGlutenStatus w (as_ProductInScan p ingredients) (token c) ;;
            if truthy updatedProductStatus
               && negb (is_str (prop updatedProductStatus "status") (status st))
            then
              emit (InvalidateQueries ["product"; scan_productBarcode d]) ;;;
              emit (InvalidateQueries ["recentScans"])
            else ret tt
          else ret tt
      | _, _ => ret tt
      end
  | None => ret tt
  end ;;;
  emit (InvalidateQueries ["recentScans"]) ;;;
  emit (InvalidateQueries ["currentUser"]) ;;;
  emit (InvalidateQueries ["product"; scan_productBarcode d]).

Definition searching_off (barcode : string) : Toast :=
  {| title := "Product Not Found";
     description := JStr ("Searching Open Food Facts for barcode: " ++ barcode ++ "...");
     variant := None; duration := Some 3000 |}.

Definition product_added : Toast :=
  {| title := "Product Added!";
     description :=
       JStr "Found on Open Food Facts and added to our database. Recording your scan...";
     variant := None; duration := Some 5000 |}.

Definition not_on_off : Toast :=
  {| title := "Not on Open Food Facts";
     description := JStr "Please help add this product by uploading its images.";
     variant := None; duration := Some 7000 |}.

Definition processing_error (m : JSValue) : Toast :=
  {| title := "Product Processing Error";
     description :=
       or m (JStr "Could not process product information from Open Food Facts.");
     variant := Some "destructive"; duration := None |}.

Definition failed_to_record (w : World) (e : Thrown) (currentBarcode : string) : Toast :=
  {| title := "Failed to Record Scan";
     description :=
       JStr (str w (or (message e) (JStr "An unexpected error occurred."))
             ++ " (Barcode: "
             ++ (if (currentBarcode =? "")%string then "unknown" else currentBarcode)
             ++ ")");
     variant := Some "destructive"; duration := None |}.

Definition onError (w : World) (c : Closure) (e : Thrown) (variables : CreateScanData)
  : M unit :=
  let currentBarcode :=
    if present (thrown_barcode e) then or_empty (thrown_barcode e)
    else productBarcode variables in
  if isProductNotFound e && negb (currentBarcode =? "")%string then
    emit (SetIsScanning true) ;;;
    toast (searching_off currentBarcode) ;;;
    offResult <- fetchProductFromOpenFoodFacts w currentBarcode (token c) ;;
    if success offResult then
      toast product_added ;;;
      processBarcode w currentBarcode
    else if match reason offResult with
            | Some r => (r =? "OFF_NOT_FOUND")%string
            | None => false
            end
    then
      emit (SetCurrentBarcodeForUpload (Some currentBarcode)) ;;;
      emit (SetUploadedImages []) ;;;
      emit (SetShowUploadModal true) ;;;
      toast not_on_off ;;;
      emit (SetIsScanning false)
    else
      toast (processing_error (off_message offResult)) ;;;
      emit (SetIsScanning false)
  else
    toast (failed_to_record w e currentBarcode) ;;;
    emit (SetIsScanning false).

(** The mutation as the query library runs it: the mutation function, then
    [onSuccess] with its result; [onError] with what either of them threw,
    which the mutation then rethrows. *)
Definition recordScan (w : World) (c : Closure) (scanData : CreateScanData) : M unit :=
  try_catch
    (body <- createScanApi w c scanData ;;
     d <- lift (as_ScanType w body) ;;
     onSuccess w c d)
    (fun e => onError w c e scanData ;;; throw e).

(** ** handleMultipleImageUpload *)

Definition upload_prompt (barcode : string) : string :=
  "Analyze these images to identify the product name and ingredients." ++ lf
  ++ "      The product has barcode: " ++ barcode ++ "." ++ lf
  ++ "      Provide name and ingredients.".

Definition more_images_needed (n : nat) : Toast :=
  destructive "More Images Needed"
              ("Please upload at least 4 images. Current: " ++ of_Z (Z.of_nat n)).

Definition no_barcode : Toast :=
  destructive "Error" "No barcode associated with this upload. Please try scanning again.".

Definition product_added_with_ai : Toast :=
  info "Product Added with AI!"
       "The new product information has been saved. Recording your scan...".

Definition creation_failed (e : Thrown) : Toast :=
  {| title := "AI Product Creation Failed"; description := message e;
     variant := Some "destructive"; duration := None |}.

(** [uploadedImages[0]], handed to the upload, which reads its [type]. *)
Definition first_image (w : World) (files : list File) : Thrown + File :=
  match files with
  | f :: _ => inr f
  | [] => inl (TypeError w "type")
  end.

Definition handleMultipleImageUpload (w : World) (c : Closure) : M unit :=
  if Nat.ltb (length (uploadedImages c)) 4 then
    toast (more_images_needed (length (uploadedImages c)))
  else if negb (present (currentBarcodeForUpload c)) then
    toast no_barcode
  else
    let barcode := or_empty (currentBarcodeForUpload c) in
    emit (SetIsScanning true) ;;;
    finally
      (try_catch
         (base64Images <- lift (all_fileToBase64 (uploadedImages c)) ;;
          let prompt := upload_prompt barcode in
          geminiResponse <- geminiApi.generateProductInfo w base64Images prompt ;;
          if truthy (error geminiResponse)
          then throw (Error ("Gemini API failed: " ++ str w (error geminiResponse)))
          else if negb (truthy (opt_prop (data geminiResponse) "success"))
                  || negb (truthy (opt_prop (data geminiResponse) "product"))
          then throw (Error "Failed to get product info from AI.")
          else
            let geminiProduct := prop (data geminiResponse) "product" in
            file0 <- lift (first_image w (uploadedImages c)) ;;
            firstImageUrl <- uploadImageToServer w file0 ("products/" ++ barcode) ;;
            let payload :=
              JObj [("barcode", JStr barcode);
                    ("name", or (prop geminiProduct "name")
                                (JStr "Unknown Product (from AI)"));
                    ("ingredients", or (prop geminiProduct "ingredients") (JStr ""));
                    ("pictureUrl", JStr firstImageUrl)] in
            if negb (present (token c))
            then throw (Error "Authentication token not found.")
            else
              backendResponse <- productApi.createProduct w payload (or_empty (token c)) ;;
              if truthy (error backendResponse)
              then throw (Error ("Failed to save AI-generated product: "
                                 ++ str w (error backendResponse)))
              else
                toast product_added_with_ai ;;;
                emit (SetShowUploadModal false) ;;;
                processBarcode w barcode)
         (fun e =>
            toast (creation_failed e) ;;;
            emit (SetIsScanning false)))
      (if negb (showUploadModal c) || (showUploadModal c && negb (isScanning c))
       then [SetUploadedImages []; SetCurrentBarcodeForUpload None]
       else []).

(** [onChange] of the input that collects the images:
    [setUploadedImages(prev => [...prev, ...files].slice(0, 8))]. *)
Definition addImages (prev files : list File) : list File :=
  match files with
  | [] => prev
  | _ => firstn 8 (prev ++ files)
  end.

(** ** The state after the effects of a handler *)

Definition apply (c : Closure) (ev : Event) : Closure :=
  match ev with
  | SetIsScanning b =>
      {| token := token c; isScanning := b; showUploadModal := showUploadModal c;
         uploadedImages := uploadedImages c;
         currentBarcodeForUpload := currentBarcodeForUpload c |}
  | SetShowUploadModal b =>
      {| token := token c; isScanning := isScanning c; showUploadModal := b;
         uploadedImages := uploadedImages c;
         currentBarcodeForUpload := currentBarcodeForUpload c |}
  | SetUploadedImages l =>
      {| token := token c; isScanning := isScanning c; showUploadModal := showUploadModal c;
         uploadedImages := l; currentBarcodeForUpload := currentBarcodeForUpload c |}
  | SetCurrentBarcodeForUpload b =>
      {| token := token c; isScanning := isScanning c; showUploadModal := showUploadModal c;
         uploadedImages := uploadedImages c; currentBarcodeForUpload := b |}
  | _ => c
  end.

Definition after (c : Closure) (t : list Event) : Closure := fold_left apply t c.

(** The Submit button of the upload dialog is on screen and enabled. *)
Definition can_submit (c : Closure) : bool :=
  negb (isScanning c) && showUploadModal c && negb (Nat.ltb (length (uploadedImages c)) 4).

End ScanTab.

(* ================================================================== *)
(** * What a trace shows *)

Module Observe.
Import Api S3upload ScanTab.

Definition count (p : Event -> bool) (t : list Event) : nat := length (filter p t).

(** A call of the Classifier: [geminiApi.checkGlutenStatus]. *)
Definition is_classifier_call (ev : Event) : bool :=
  match ev with Call (geminiApi_checkGlutenStatus _) => true | _ => false end.

(** A call of the Extractor: [geminiApi.generateProductInfo]. *)
Definition is_extractor_call (ev : Event) : bool :=
  match ev with Call (geminiApi_generateProductInfo _ _) => true | _ => false end.

(** A call of the ObjectStore: [uploadFileToS3]. *)
Definition is_objectstore_call (ev : Event) : bool :=
  match ev with Call (s3_uploadFileToS3 _ _) => true | _ => false end.

(** A write of a status to the catalog: [statusApi.updateProductStatus]. *)
Definition is_status_write (ev : Event) : bool :=
  match ev with Call (statusApi_updateProductStatus _ _ _) => true | _ => false end.

(** The creation of a Product in the catalog: [productApi.createProduct]. *)
Definition is_product_create (ev : Event) : bool :=
  match ev with Call (productApi_createProduct _ _) => true | _ => false end.

(** A write to the catalog, of either kind. *)
Definition is_catalog_write (ev : Event) : bool :=
  is_status_write ev || is_product_create ev.

(** A scan handed to the recordScan mutation. *)
Definition is_mutate (ev : Event) : bool :=
  match ev with Mutate _ => true | _ => false end.

(** The upload dialog is opened, or a barcode is set for it. *)
Definition opens_upload_dialog (ev : Event) : bool :=
  match ev with
  | SetShowUploadModal true => true
  | SetCurrentBarcodeForUpload (Some _) => true
  | _ => false
  end.

(** A notification with the given title. *)
Definition is_toast_titled (t : string) (ev : Event) : bool :=
  match ev with ShowToast x => (title x =? t)%string | _ => false end.

(** A request on the network or a notification: what the API client does
    besides being called. *)
Definition quiet (ev : Event) : bool :=
  match ev with Fetch _ | ShowToast _ | S3Put _ _ => true | _ => false end.

(** The first truthy value of a preference list, a default when there is
    none: the fallback the specification describes. *)
Fixpoint prefer (candidates : list JSValue) (default : JSValue) : JSValue :=
  match candidates with
  | [] => default
  | v :: rest => if truthy v then v else prefer rest default
  end.

(** The labels of the data model. *)
Definition is_label (v : JSValue) : bool :=
  is_str v "gluten-free" || is_str v "contains-gluten" || is_str v "unknown".

(** The external catalog lookup ended in an upstream error: the request
    failed on the network, the answer is an HTTP failure other than 404, or
    its body cannot be read as JSON. *)
Definition upstream_error (o : FetchOutcome) : bool :=
  match o with
  | Rejected _ => true
  | Resolved r =>
      if ok r then match json r with inl _ => true | inr _ => false end
      else negb (res_status r =? 404)
  end.

(** The model's text holds no JSON the client can use: nothing in it looks
    like JSON, or what does is refused by [JSON.parse]. *)
Definition no_parsable_json (w : World) (text : string) : bool :=
  match geminiApi.jsonMatch text with
  | None => true
  | Some m =>
      match JSON_parse w (Regex.replace_all_empty re_fence_marks (Regex.whole m)) with
      | None => true
      | Some _ => false
      end
  end.

(** None of the words by which the client tells the label. *)
Definition no_status_keyword (text : string) : bool :=
  negb (test re_gluten_free text) && negb (test re_contains_gluten text).

(** None of the words by which the client finds an explanation. *)
Definition no_explanation_keyword (text : string) : bool :=
  negb (test re_explanation text) && negb (test re_analysis text)
  && negb (test re_assessment text).

(** The Extractor succeeded: no error, and a product in its answer. *)
Definition extractor_succeeded (r : ApiResponse) : bool :=
  negb (truthy (error r))
  && truthy (opt_prop (data r) "success") && truthy (opt_prop (data r) "product").



(** The catalog found the product: the lookup returned no error, a status
    other than 0 and a product. *)
Definition lookup_found (w : World) (barcode : string) (r : ApiResponse) : Prop :=
  outcome (openFoodFactsApi.getProduct w barcode) = inr r
  /\ truthy (error r) = false
  /\ (exists st, get w (data r) "status" = inr st /\ is_zero st = false)
  /\ truthy (prop (data r) "product") = true.


(** What the resolver answers once the catalog's answer to the creation is
    known. *)
Definition creation_result (w : World) (u : ApiResponse) : OffResult :=
  if truthy (error u)
  then off_failure "DB_SAVE_FAILED"
                   (JStr ("Failed to save product to our DB: " ++ str w (error u)))
  else {| success := true; reason := None; off_message := JUndefined;
          productData := data u |}.

End Observe.


(* ================================================================== *)
(** * lib/api.ts, the rest: sessions and the barcode decoder

    The functions below each make one request of their own; they are given
    what that request settles to. *)

Module authApi.
Import Api.

(** [authApi.login], on what [fetch] settles to. *)
Definition login (w : World) (o : FetchOutcome) : ApiResponse :=
  match o with
  | Rejected e => error_response (message_or e "Unknown login error") 0
  | Resolved response =>
      if negb (ok response) then handleApiError response
      else
        match json response with
        | inl e => error_response (message_or e "Unknown login error") 0
        | inr d =>
            if nullish d
            then error_response (message_or (TypeError w "token") "Unknown login error") 0
            else if negb (truthy (prop d "token"))
            then error_response (JStr "Invalid response format: Missing token")
                                (res_status response)
            else ok_response (JObj [("token", prop d "token"); ("user", prop d "user")])
                             (res_status response)
        end
  end.

(** [authApi.register], on what [fetch] settles to. *)
Definition register (w : World) (o : FetchOutcome) : ApiResponse :=
  match o with
  | Rejected e => error_response (message_or e "Unknown registration error") 0
  | Resolved response =>
      if negb (ok response) then handleApiError response
      else
        match json response with
        | inl e => error_response (message_or e "Unknown registration error") 0
        | inr d =>
            if nullish d
            then error_response (message_or (TypeError w "_id") "Unknown registration error")
                                0
            else if truthy (prop d "_id")
            then ok_response (JObj [("token", JStr ("temp-token-" ++ of_Z (now w)));
                                    ("user", d)])
                             (res_status response)
            else if truthy (prop d "token")
            then ok_response (JObj [("token", prop d "token");
                                    ("user", or (prop d "user") d)])
                             (res_status response)
            else error_response (JStr "Invalid response format from registration")
                                (res_status response)
        end
  end.

(** [authApi.getCurrentUser]; the request is made only with a token. *)
Definition getCurrentUser (token : string) (o : FetchOutcome) : ApiResponse :=
  if (token =? "")%string
  then error_response (JStr "No authentication token provided") 401
  else
    match o with
    | Rejected e => error_response (message_or e "Unknown error fetching user") 0
    | Resolved response =>
        if negb (ok response)
        then error_response
               (JStr ("Error fetching user: " ++ of_Z (res_status response) ++ " "
                      ++ statusText response))
               (res_status response)
        else
          match json response with
          | inl e => error_response (message_or e "Unknown error fetching user") 0
          | inr userData =>
              if negb (truthy userData)
              then error_response (JStr "User data is null or undefined from API") 200
              else ok_response userData (res_status response)
          end
    end.

End authApi.

Module barcodeApi.
Import Api.

(** [barcodeApi.scanBarcodeFromImage], on what [scanBlobForBarcode] settles
    to: a barcode, [null], or a rejection. *)
Definition scanBarcodeFromImage (decoded : Thrown + option string) : ApiResponse :=
  match decoded with
  | inr (Some barcode) =>
      if (barcode =? "")%string
      then error_response (JStr "No barcode detected in the image") 404
      else ok_response (JObj [("barcode", JStr barcode)]) 200
  | inr None => error_response (JStr "No barcode detected in the image") 404
  | inl e => error_response (message_or e "Unknown error scanning barcode") 0
  end.

End barcodeApi.

(* ================================================================== *)
(** * The scan screen, the rest: picking an image, the camera, the list of
      recent scans *)

Module ScanInput.
Import Api S3upload ScanTab.

Definition barcode_not_found : Toast :=
  destructive "Barcode Not Found" "Could not detect a barcode in the uploaded image.".

Definition image_scan_error (e : Thrown) : Toast :=
  {| title := "Image Scan Error";
     description := or (message e) (JStr "An error occurred while scanning the image.");
     variant := Some "destructive"; duration := None |}.

(** [handleFileUpload]: the file picked, if any, and what the decoder makes
    of it.  The handler ends by emptying the file input, which nothing
    here reads. *)
Definition handleFileUpload (w : World) (file : option File)
           (decoded : Thrown + option string) : M unit :=
  match file with
  | None => ret tt
  | Some _ =>
      emit (SetIsScanning true) ;;;
      try_catch
        (let response := barcodeApi.scanBarcodeFromImage decoded in
         if truthy (error response) then throw (Error (str w (error response)))
         else if truthy (opt_prop (data response) "barcode")
         then processBarcode w (str w (prop (data response) "barcode"))
         else toast barcode_not_found ;;; emit (SetIsScanning false))
        (fun e => toast (image_scan_error e) ;;; emit (SetIsScanning false))
  end.

Definition barcode_scan_failed : Toast :=
  destructive "Barcode Scan Failed" "No barcode detected in the image.".

Definition barcode_scan_error (e : Thrown) : Toast :=
  {| title := "Barcode Scan Error";
     description := or (message e) (JStr "Could not scan barcode.");
     variant := Some "destructive"; duration := None |}.

Definition failed_to_capture : Toast :=
  {| title := "Failed to capture image"; description := JUndefined;
     variant := Some "destructive"; duration := None |}.

(** The callback [handleCameraScan] gives to [canvas.toBlob]: whether a blob
    was captured, and what the decoder makes of it. *)
Definition onCameraBlob (w : World) (blob : bool) (decoded : Thrown + option string)
  : M unit :=
  if blob then
    emit (SetIsScanning true) ;;;
    try_catch
      (let response := barcodeApi.scanBarcodeFromImage decoded in
       if truthy (error response) then throw (Error (str w (error response)))
       else if truthy (opt_prop (data response) "barcode")
       then processBarcode w (str w (prop (data response) "barcode"))
       else toast barcode_scan_failed ;;; emit (SetIsScanning false))
      (fun e => toast (barcode_scan_error e) ;;; emit (SetIsScanning false))
  else toast failed_to_capture.

(** [getRelativeTime] of the recent scans; the quotients are those of
    [Math.floor], exact while the difference is below 2^53. *)
Definition getRelativeTime (w : World) (dateString : string) : string :=
  match Date_parse w dateString with
  | None => "NaN days ago"
  | Some date =>
      let diffMs := now w - date in
      let diffMins := diffMs / (1000 * 60) in
      if diffMins <? 60
      then of_Z diffMins ++ " minute" ++ (if diffMins =? 1 then "" else "s") ++ " ago"
      else
        let diffHours := diffMs / (1000 * 60 * 60) in
        if diffHours <? 24
        then of_Z diffHours ++ " hour" ++ (if diffHours =? 1 then "" else "s") ++ " ago"
        else
          let diffDays := diffMs / (1000 * 60 * 60 * 24) in
          of_Z diffDays ++ " day" ++ (if diffDays =? 1 then "" else "s") ++ " ago"
  end.

End ScanInput.

(* ================================================================== *)
(** * More of what a trace and an answer show *)

Module Cases.
Import Api S3upload ScanTab Observe.

(** A request sent on the network. *)
Definition is_fetch (ev : Event) : bool :=
  match ev with Fetch _ => true | _ => false end.

(** An object sent to the object store. *)
Definition is_s3_put (ev : Event) : bool :=
  match ev with S3Put _ _ => true | _ => false end.

(** A lookup in the external catalog. *)
Definition is_off_lookup (ev : Event) : bool :=
  match ev with Call (openFoodFactsApi_getProduct _) => true | _ => false end.

(** The external catalog has no such product: it answers 404, or a body
    whose status is 0 or that holds no product. *)
Definition lookup_not_found (w : World) (barcode : string) (r : ApiResponse) : Prop :=
  outcome (openFoodFactsApi.getProduct w barcode) = inr r
  /\ ((truthy (error r) = true /\ http_status r = 404)
      \/ (truthy (error r) = false
          /\ exists st, get w (data r) "status" = inr st
                        /\ (is_zero st || negb (truthy (prop (data r) "product"))) = true)).

(** The Classifier answered, with a label. *)
Definition classified (r : ApiResponse) : bool :=
  negb (truthy (error r))
  && truthy (opt_prop (data r) "success")
  && truthy (opt_prop (data r) "glutenFreeStatus").

(** What the check hands to the Classifier. *)
Definition check_input (product : ProductInScan) : GlutenCheckInput :=
  {| productName := name product; check_ingredients := ingredients product;
     currentStatus := stored_label product |}.

(** The scan response gives the check nothing to work on: no product, no
    date, no status, or ingredients that are not a text. *)
Definition nothing_to_check (d : ScanType) : bool :=
  match scan_product d with
  | None => true
  | Some p =>
      match sp_ingredients p, sp_status p with
      | Some _, Some _ => (sp_createdAt p =? "")%string
      | _, _ => true
      end
  end.

(** A text with no brace and no backtick. *)
Definition plain (text : string) : bool :=
  forallb (fun c => negb (Ascii.eqb c "{") && negb (Ascii.eqb c "`")) (of_string text).

End Cases.
(* ================================================================== *)
(** * Scenarios: concrete worlds and products *)

Module Scenario.
Import Api ScanTab.

Definition day0_text : string := "2024-01-01T00:00:00.000Z".
Definition day0 : Z := 1704067200000.

(** A host on UTC that reads the one date the scenarios use. *)
Definition read_date (s : string) : option Z :=
  if (s =? day0_text)%string then Some day0 else None.

Definition world (net : Request -> FetchOutcome) (store : S3Outcome) (clock : Z) : World :=
  {| JSON_parse := JSON.parse;
     Date_parse := read_date;
     Number_toString := fun n => of_Z (mant n) ++ "e" ++ of_Z (exp10 n);
     TypeError_message := fun k => "Cannot read properties of null (reading '" ++ k ++ "')";
     GEMINI_API_KEY := "key";
     S3_BUCKET_NAME := "bucket";
     S3_REGION := "eu-west-1";
     S3_ACCESS_KEY_ID := "id";
     S3_SECRET_ACCESS_KEY := "secret";
     S3_PUBLIC_URL := "";
     fetch := net;
     s3_send := fun _ _ => store;
     uuidv4 := "3f2c";
     now := clock;
     LocalTZA := fun _ _ => 0 |}.

Definition reply (st : Z) (body : JSValue) : FetchOutcome :=
  Resolved {| res_status := st; statusText := ""; json := inr body |}.

(** The envelope in which the model answers [text]. *)
Definition gemini_reply (text : string) : FetchOutcome :=
  reply 200
        (JObj [("candidates",
                JArr [JObj [("content",
                             JObj [("parts", JArr [JObj [("text", JStr text)]])])]])]).

Definition network_down : FetchOutcome := Rejected (Error "Failed to fetch").

Definition granola : ProductInScan :=
  {| barcode := "0001"; name := "Granola Bar";
     ingredients := "oats, honey";
     createdAt := day0_text;
     product_status :=
       Some {| status := "gluten-free"; explanation := Some "Certified oats" |} |}.

Definition granola_check : GlutenCheckInput :=
  {| productName := "Granola Bar"; check_ingredients := "oats, honey";
     currentStatus := Some "gluten-free" |}.

Definition days (n : Z) : Z := day0 + n * msPerDay.

(** The model answers with prose that holds no JSON and none of the words
    the client looks for; the catalog accepts every write. *)
Definition net_prose (req : Request) : FetchOutcome :=
  match req with
  | POST_gemini_check _ => gemini_reply "Sorry, I cannot help with that."
  | _ => reply 200 (JObj [])
  end.

(** The model answers with JSON whose label is none of the three. *)
Definition net_maybe (req : Request) : FetchOutcome :=
  match req with
  | POST_gemini_check _ => gemini_reply ("{" ++ quoted "glutenFreeStatus" ++ ":" ++ quoted "maybe" ++ "}")
  | _ => reply 200 (JObj [])
  end.

(** The model answers with a fenced JSON [null]. *)
Definition net_null (req : Request) : FetchOutcome :=
  match req with
  | POST_gemini_check _ =>
      gemini_reply (backticks ++ "json" ++ lf ++ "null" ++ lf ++ backticks)
  | _ => reply 200 (JObj [])
  end.

(** The model finds gluten in a product stored as gluten-free. *)
Definition verdict : string :=
  "{" ++ quoted "glutenFreeStatus" ++ ":" ++ quoted "contains-gluten" ++ ","
      ++ quoted "explanation" ++ ":" ++ quoted "oats are processed with wheat" ++ "}".

(** ... and the catalog accepts the write. *)
Definition net_verdict (req : Request) : FetchOutcome :=
  match req with
  | POST_gemini_check _ => gemini_reply verdict
  | PATCH_api_status _ statusData _ => reply 200 statusData
  | _ => reply 200 (JObj [])
  end.


Definition verdict_payload : JSValue :=
  JObj [("status", JStr "contains-gluten");
        ("explanation", JStr "oats are processed with wheat")].

(** What the external catalog holds for the granola bar. *)
Definition off_granola : JSValue :=
  JObj [("name", JStr "Granola Bar");
        ("ingredients_text", JStr "oats, honey, wheat flour")].


(** The external catalog has the product and the local catalog stores it. *)
Definition net_found (req : Request) : FetchOutcome :=
  match req with
  | GET_off_product _ => reply 200 (JObj [("status", JNum {| mant := 1; exp10 := 0 |});
                                          ("product", off_granola)])
  | POST_api_products productData _ => reply 201 productData
  | _ => reply 200 (JObj [])
  end.

(** The external catalog is out of order. *)
Definition net_off_unavailable (req : Request) : FetchOutcome :=
  match req with
  | GET_off_product _ =>
      Resolved {| res_status := 503; statusText := "Service Unavailable";
                  json := inl (Error "Unexpected token < in JSON at position 0") |}
  | _ => reply 200 (JObj [])
  end.

(** The local catalog records the scan of a granola bar created on day 0
    whose status says it was evaluated on day 7; the model confirms the
    label. *)
Definition net_evaluated_on_day_7 (req : Request) : FetchOutcome :=
  match req with
  | POST_api_scans _ _ =>
      reply 201
            (JObj [("productBarcode", JStr "0001");
                   ("product",
                    JObj [("barcode", JStr "0001");
                          ("name", JStr "Granola Bar");
                          ("ingredients", JStr "oats, honey");
                          ("createdAt", JStr day0_text);
                          ("status",
                           JObj [("status", JStr "gluten-free");
                                 ("explanation", JStr "Certified oats");
                                 ("lastEvaluatedAt",
                                  JStr "2024-01-08T00:00:00.000Z")])])])
  | POST_gemini_check _ =>
      gemini_reply ("{" ++ quoted "glutenFreeStatus" ++ ":" ++ quoted "gluten-free" ++ "}")
  | _ => reply 200 (JObj [])
  end.

(** A host in New York in 2024: five hours behind UTC, and four from
    2 a.m. of March 10 to 2 a.m. of November 3.  A local time that the
    change skips or repeats is read with the offset before the change. *)
Definition hour : Z := 3600000.

Definition new_york (t : Z) (isUTC : bool) : Z :=
  if isUTC then
    if (1710054000000 <=? t) && (t <? 1730613600000) then -4 * hour else -5 * hour
  else
    if (1710039600000 <=? t) && (t <? 1730599200000) then -4 * hour else -5 * hour.

Definition march_6_text : string := "2024-03-06T16:30:00.000Z".
Definition march_6 : Z := 1709742600000.
Definition october_30_text : string := "2024-10-30T16:30:00.000Z".
Definition october_30 : Z := 1730305800000.

(** Noon in New York, on March 13 and on November 6. *)
Definition march_13_noon : Z := 1710345600000.      (* 2024-03-13T16:00:00.000Z *)
Definition november_6_noon : Z := 1730912400000.    (* 2024-11-06T17:00:00.000Z *)

Definition read_dates (s : string) : option Z :=
  if (s =? march_6_text)%string then Some march_6
  else if (s =? october_30_text)%string then Some october_30
  else read_date s.

Definition world_in_new_york (net : Request -> FetchOutcome) (clock : Z) : World :=
  {| JSON_parse := JSON.parse;
     Date_parse := read_dates;
     Number_toString := fun n => of_Z (mant n) ++ "e" ++ of_Z (exp10 n);
     TypeError_message := fun k => "Cannot read properties of null (reading '" ++ k ++ "')";
     GEMINI_API_KEY := "key";
     S3_BUCKET_NAME := "bucket";
     S3_REGION := "eu-west-1";
     S3_ACCESS_KEY_ID := "id";
     S3_SECRET_ACCESS_KEY := "secret";
     S3_PUBLIC_URL := "";
     fetch := net;
     s3_send := fun _ _ => S3Sent;
     uuidv4 := "3f2c";
     now := clock;
     LocalTZA := new_york |}.

(** The granola bar, created at the date given. *)
Definition granola_created (date : string) : ProductInScan :=
  {| barcode := "0001"; name := "Granola Bar";
     ingredients := "oats, honey";
     createdAt := date;
     product_status :=
       Some {| status := "gluten-free"; explanation := Some "Certified oats" |} |}.

(** The screen at rest, signed in. *)
Definition idle : Closure :=
  {| token := Some "token"; isScanning := false; showUploadModal := false;
     uploadedImages := []; currentBarcodeForUpload := None |}.

(** What [createScanApi] throws when the local catalog has no product for
    the barcode 0001. *)
Definition not_found_0001 : Thrown :=
  {| instanceofError := true; message := JStr "Product not found";
     isProductNotFound := true; thrown_barcode := Some "0001" |}.

Definition scan_0001 : CreateScanData :=
  {| productBarcode := "0001"; date := days 8; symptoms := [] |}.

Definition photo (side : string) : File :=
  {| file_name := side ++ ".jpg"; file_type := "image/jpeg"; file_size := 204800;
     file_dataURL := Some ("data:image/jpeg;base64," ++ side) |}.

Definition four_photos : list File :=
  [photo "front"; photo "back"; photo "left"; photo "right"].

(** The upload dialog, open for the barcode 0001 with four photos. *)
Definition dialog : Closure :=
  {| token := Some "token"; isScanning := false; showUploadModal := true;
     uploadedImages := four_photos; currentBarcodeForUpload := Some "0001" |}.

(** The Extractor cannot be reached. *)
Definition net_extractor_down (req : Request) : FetchOutcome :=
  match req with
  | POST_gemini_images _ _ => network_down
  | POST_api_products productData _ => reply 201 productData
  | _ => reply 200 (JObj [])
  end.

(** The Extractor reads the photos and the catalog stores the product. *)
Definition net_extractor_up (req : Request) : FetchOutcome :=
  match req with
  | POST_gemini_images _ _ =>
      gemini_reply ("Product name: Granola Bar" ++ lf ++ "Ingredients: oats, honey")
  | POST_api_products productData _ => reply 201 productData
  | _ => reply 200 (JObj [])
  end.

(** The user picks the four photos again. *)
Definition pick_again (c : Closure) : Closure :=
  apply c (SetUploadedImages (addImages (uploadedImages c) four_photos)).


End Scenario.

(* ================================================================== *)
(** * More scenarios *)

Module Scenario2.
Import Api ScanTab Scenario.

(** The build has no key for the model. *)
Definition world_without_key (net : Request -> FetchOutcome) : World :=
  {| JSON_parse := JSON.parse;
     Date_parse := read_date;
     Number_toString := fun n => of_Z (mant n) ++ "e" ++ of_Z (exp10 n);
     TypeError_message := fun k => "Cannot read properties of null (reading '" ++ k ++ "')";
     GEMINI_API_KEY := "";
     S3_BUCKET_NAME := "bucket";
     S3_REGION := "eu-west-1";
     S3_ACCESS_KEY_ID := "id";
     S3_SECRET_ACCESS_KEY := "secret";
     S3_PUBLIC_URL := "";
     fetch := net;
     s3_send := fun _ _ => S3Sent;
     uuidv4 := "3f2c";
     now := days 8;
     LocalTZA := fun _ _ => 0 |}.

(** The local catalog is out of order. *)
Definition net_scans_broken (req : Request) : FetchOutcome :=
  match req with
  | POST_api_scans _ _ => reply 500 (JObj [("message", JStr "Internal Server Error")])
  | _ => reply 200 (JObj [])
  end.

(** The local catalog answers the scan with a success whose body is
    [null]. *)
Definition net_scan_null (req : Request) : FetchOutcome :=
  match req with
  | POST_api_scans _ _ => reply 200 JNull
  | _ => reply 200 (JObj [])
  end.

(** Neither catalog has the product. *)
Definition net_nowhere (req : Request) : FetchOutcome :=
  match req with
  | POST_api_scans _ _ => reply 404 (JObj [("message", JStr "Product not found")])
  | GET_off_product _ => reply 404 (JObj [("status", JStr "failure")])
  | _ => reply 200 (JObj [])
  end.

(** The model confirms the stored label. *)
Definition net_confirms (req : Request) : FetchOutcome :=
  match req with
  | POST_gemini_check _ =>
      gemini_reply ("{" ++ quoted "glutenFreeStatus" ++ ":" ++ quoted "gluten-free" ++ ","
                        ++ quoted "explanation" ++ ":" ++ quoted "oats only" ++ "}")
  | _ => reply 200 (JObj [])
  end.

(** A product whose date cannot be read. *)
Definition undated : ProductInScan :=
  {| barcode := "0002"; name := "Rye Bread"; ingredients := "rye, water";
     createdAt := "last week";
     product_status := Some {| status := "contains-gluten"; explanation := None |} |}.

(** The dialog of a user who is signed out. *)
Definition dialog_signed_out : Closure :=
  {| token := None; isScanning := false; showUploadModal := true;
     uploadedImages := four_photos; currentBarcodeForUpload := Some "0001" |}.

(** A photo the reader cannot read. *)
Definition unreadable : File :=
  {| file_name := "front.jpg"; file_type := "image/jpeg"; file_size := 204800;
     file_dataURL := None |}.

Definition dialog_unreadable : Closure :=
  {| token := Some "token"; isScanning := false; showUploadModal := true;
     uploadedImages := [photo "a"; unreadable; photo "c"; photo "d"];
     currentBarcodeForUpload := Some "0001" |}.

(** A recorded scan whose product lists its ingredients. *)
Definition scan_with_listed_ingredients : ScanType :=
  {| scan_productBarcode := "0001";
     scan_product :=
       Some {| sp_barcode := "0001"; sp_name := "Granola Bar"; sp_ingredients := None;
               sp_createdAt := day0_text;
               sp_status := Some {| status := "gluten-free"; explanation := None |} |} |}.

(** A photo of six megabytes. *)
Definition big_photo : File :=
  {| file_name := "big.jpg"; file_type := "image/jpeg"; file_size := 6 * 1024 * 1024;
     file_dataURL := Some "data:image/jpeg;base64,big" |}.

End Scenario2.

(* ================================================================== *)
(** * Properties *)

Module Properties.
Import Api S3upload ScanTab Observe.

(** ** The matcher and the reader on sample texts *)

Example fence_is_matched_lazily :
  Regex.match_ re_fence_json
               ("Here: " ++ backticks ++ "json" ++ lf ++ "{}" ++ lf ++ backticks
                ++ " and " ++ lf ++ backticks)
  = Some {| Regex.whole := backticks ++ "json" ++ lf ++ "{}" ++ lf ++ backticks;
            Regex.group1 := Some "{}" |}.
Proof. vm_compute. reflexivity. Qed.

Example braces_stop_at_the_first_closing_brace :
  Regex.match_ re_braces "a {b {c} d} e"
  = Some {| Regex.whole := "{b {c}"; Regex.group1 := None |}.
Proof. vm_compute. reflexivity. Qed.

Example explanation_spans_lines_up_to_a_blank_one :
  Regex.match_ re_explanation
               ("EXPLANATION:  no wheat" ++ lf ++ "at all" ++ lf ++ lf ++ "Regards")
  = Some {| Regex.whole := "EXPLANATION:  no wheat" ++ lf ++ "at all";
            Regex.group1 := Some ("no wheat" ++ lf ++ "at all") |}.
Proof. vm_compute. reflexivity. Qed.

Example fence_marks_are_removed :
  Regex.replace_all_empty re_fence_marks
                          (backticks ++ "json" ++ lf ++ "null" ++ lf ++ backticks)
  = "null" ++ lf.
Proof. vm_compute. reflexivity. Qed.

Example not_gluten_free_is_told_apart :
  glutenFreeStatus (extractGlutenInfoFromText "This is NOT gluten-free: it contains gluten.")
  = "contains-gluten"
  /\ glutenFreeStatus (extractGlutenInfoFromText "Certified Gluten Free.") = "gluten-free".
Proof. vm_compute. split; reflexivity. Qed.

Example json_object_is_read :
  JSON.parse ("{ " ++ quoted "a" ++ " : [1, -2.5e3, true, null], "
              ++ quoted "b" ++ ":" ++ quoted "x" ++ " }")
  = Some (JObj [("a", JArr [JNum {| mant := 1; exp10 := 0 |};
                            JNum {| mant := -25; exp10 := 2 |};
                            JBool true; JNull]);
                ("b", JStr "x")])
  /\ JSON.parse "{} trailing" = None.
Proof. vm_compute. split; reflexivity. Qed.

(** ** Counting in traces *)

Lemma count_app p (a b : list Event) : count p (a ++ b) = (count p a + count p b)%nat.
Proof. unfold count. rewrite filter_app, length_app. reflexivity. Qed.

Lemma count_cons p ev (t : list Event) :
  count p (ev :: t) = ((if p ev then 1 else 0) + count p t)%nat.
Proof. unfold count. simpl. destruct (p ev); reflexivity. Qed.

Lemma count_quiet p (t : list Event) :
  (forall ev, quiet ev = true -> p ev = false) ->
  forallb quiet t = true -> count p t = 0%nat.
Proof.
  intros Hp. induction t as [ | ev t IH]; simpl; intros H; [reflexivity | ].
  apply andb_prop in H. destruct H as [Hq Ht].
  rewrite count_cons, (Hp _ Hq), (IH Ht). reflexivity.
Qed.

Lemma quiet_app (a b : list Event) :
  forallb quiet a = true -> forallb quiet b = true -> forallb quiet (a ++ b) = true.
Proof. intros Ha Hb. rewrite forallb_app, Ha, Hb. reflexivity. Qed.

(** ** The API client: what it does, and that it returns *)

Ltac done_run := repeat eexists; reflexivity.

(** [apiFetch] sends one request and returns a response: a failure of the
    network or of the body is turned into an error response. *)
Lemma apiFetch_run w req : exists r, apiFetch w req = ([Fetch req], inr r).
Proof.
  unfold apiFetch. destruct (fetch w req) as [e | resp]; cbn; [done_run | ].
  destruct (ok resp); cbn; [ | done_run].
  destruct (json resp); cbn; done_run.
Qed.

Lemma updateProductStatus_run w b p tok :
  exists r, statusApi.updateProductStatus w b p tok
            = ([Call (statusApi_updateProductStatus b p tok); Fetch (PATCH_api_status b p tok)],
               inr r).
Proof.
  unfold statusApi.updateProductStatus.
  destruct (apiFetch_run w (PATCH_api_status b p tok)) as [r E]. rewrite E. cbn. done_run.
Qed.

Lemma createProduct_run w p tok :
  exists r, productApi.createProduct w p tok
            = ([Call (productApi_createProduct p tok); Fetch (POST_api_products p tok)], inr r).
Proof.
  unfold productApi.createProduct.
  destruct (apiFetch_run w (POST_api_products p tok)) as [r E]. rewrite E. cbn. done_run.
Qed.

Lemma getProduct_run w b :
  exists r, openFoodFactsApi.getProduct w b
            = ([Call (openFoodFactsApi_getProduct b); Fetch (GET_off_product b)], inr r).
Proof.
  unfold openFoodFactsApi.getProduct.
  destruct (apiFetch_run w (GET_off_product b)) as [r E]. rewrite E. cbn. done_run.
Qed.

Lemma recordScan_run w d tok :
  exists r, scanApi.recordScan w d tok
            = ([Call (scanApi_recordScan d tok); Fetch (POST_api_scans d tok)], inr r).
Proof.
  unfold scanApi.recordScan.
  destruct (apiFetch_run w (POST_api_scans d tok)) as [r E]. rewrite E. cbn. done_run.
Qed.

(** The Classifier is called once; it then either reports the missing key
    or sends one request; it returns a response and never throws. *)
Lemma checkGlutenStatus_run w pd :
  exists t r,
    geminiApi.checkGlutenStatus w pd = (Call (geminiApi_checkGlutenStatus pd) :: t, inr r)
    /\ (t = [ShowToast geminiApi.api_key_missing] \/ t = [Fetch (POST_gemini_check pd)]).
Proof.
  unfold geminiApi.checkGlutenStatus.
  destruct (GEMINI_API_KEY w =? "")%string; cbn; [eauto 6 | ].
  destruct (fetch w _) as [e | resp]; cbn; [eauto 6 | ].
  destruct (ok resp); cbn; [ | eauto 6].
  destruct (json resp) as [e | d]; cbn; [eauto 6 | ].
  destruct (geminiApi.candidate_text w d) as [e | txt]; cbn; [eauto 6 | ].
  destruct (geminiApi.as_text w txt) as [e | s]; cbn; [eauto 6 | ].
  destruct (get w (geminiApi.glutenInfo w s) "glutenFreeStatus") as [e | a]; cbn; [eauto 6 | ].
  destruct (get w (geminiApi.glutenInfo w s) "explanation") as [e | b]; cbn; eauto 6.
Qed.

(** The Extractor likewise. *)
Lemma generateProductInfo_run w images prompt :
  exists t r,
    geminiApi.generateProductInfo w images prompt
    = (Call (geminiApi_generateProductInfo images prompt) :: t, inr r)
    /\ forallb quiet t = true.
Proof.
  unfold geminiApi.generateProductInfo.
  destruct (GEMINI_API_KEY w =? "")%string; cbn; [done_run | ].
  destruct (fetch w _) as [e | resp]; cbn; [done_run | ].
  destruct (ok resp); cbn; [ | done_run].
  destruct (json resp) as [e | d]; cbn; [done_run | ].
  destruct (geminiApi.candidate_text w d) as [e | txt]; cbn; [done_run | ].
  destruct (geminiApi.as_text w txt) as [e | s]; cbn; done_run.
Qed.

(** The ObjectStore likewise. *)
Lemma uploadFileToS3_run w file prefix :
  exists t r,
    uploadFileToS3 w file prefix = (Call (s3_uploadFileToS3 file prefix) :: t, inr r)
    /\ forallb quiet t = true.
Proof.
  unfold uploadFileToS3.
  destruct (validateS3Config w); cbn; [done_run | ].
  destruct (getS3Client w); cbn; [ | done_run].
  destruct (validateFile file); cbn; [done_run | ].
  destruct (s3_send w _ file); cbn; done_run.
Qed.

(** From here on the client is used through the lemmas above. *)
Arguments apiFetch : simpl never.
Arguments statusApi.updateProductStatus : simpl never.
Arguments productApi.createProduct : simpl never.
Arguments openFoodFactsApi.getProduct : simpl never.
Arguments scanApi.recordScan : simpl never.
Arguments geminiApi.checkGlutenStatus : simpl never.
Arguments geminiApi.generateProductInfo : simpl never.
Arguments uploadFileToS3 : simpl never.

(** ** The staleness check *)

(** Case analysis on the conditions of a handler, outermost first. *)
Ltac branch :=
  match goal with
  | |- context [if ?b then _ else _] =>
      lazymatch b with
      | context [if _ then _ else _] => fail
      | context [match _ with _ => _ end] => fail
      | _ => destruct b eqn:?
      end
  end.

Ltac branches := repeat (cbn; try branch).


(** On a host whose offset to UTC does not change, a date that can be read
    is recent exactly when it is less than seven times 24 hours old. *)
Lemma is_recent_age w createdAt t off :
  (forall x b, LocalTZA w x b = off) ->
  Z.abs (now w - 7 * msPerDay) <= 8640000000000000 ->
  Date_parse w createdAt = Some t ->
  is_recent w createdAt = (now w - t <? 7 * msPerDay).
Proof.
  intros Hoff Hr E. unfold is_recent, minus_days, TimeClip. rewrite E. cbv zeta.
  rewrite !Hoff.
  replace (now w + off - 7 * msPerDay - off) with (now w - 7 * msPerDay) by lia.
  destruct (Z.abs (now w - 7 * msPerDay) <=? 8640000000000000) eqn:C;
    [ | apply Z.leb_gt in C; lia].
  destruct (now w - 7 * msPerDay <? t) eqn:A, (now w - t <? 7 * msPerDay) eqn:B;
    try reflexivity;
    [apply Z.ltb_lt in A; apply Z.ltb_ge in B | apply Z.ltb_ge in A; apply Z.ltb_lt in B];
    lia.
Qed.

Lemma not_empty (s : string) : s <> "" -> (s =? "")%string = false.
Proof. intros H. apply String.eqb_neq. exact H. Qed.

(** C3, against the claim as stated.  The check does not read the date of
    the last evaluation, and its seven days are days of the calendar of the
    host.  A product created on day 0 whose status was evaluated on day 7 is
    classified again when scanned on day 8.  In New York, a product created
    6 days 23 hours 30 minutes before a check made at noon of March 13 is
    classified, and one created 7 days and 30 minutes before a check made at
    noon of November 6 is not: the clocks changed in between. *)
Lemma C3_age_is_of_createdAt_in_calendar_days :
  count is_classifier_call
        (trace (recordScan (Scenario.world Scenario.net_evaluated_on_day_7 S3Sent
                                           (Scenario.days 8))
                           Scenario.idle Scenario.scan_0001)) = 1%nat
  /\ (Scenario.march_13_noon - Scenario.march_6 < 7 * msPerDay
      /\ count is_classifier_call
               (trace (checkAndProcessGlutenStatus
                         (Scenario.world_in_new_york Scenario.net_prose
                                                     Scenario.march_13_noon)
                         (Scenario.granola_created Scenario.march_6_text)
                         (Some "token"))) = 1%nat)
  /\ (7 * msPerDay <= Scenario.november_6_noon - Scenario.october_30
      /\ count is_classifier_call
               (trace (checkAndProcessGlutenStatus
                         (Scenario.world_in_new_york Scenario.net_prose
                                                     Scenario.november_6_noon)
                         (Scenario.granola_created Scenario.october_30_text)
                         (Some "token"))) = 0%nat).
Proof. vm_compute. repeat split; discriminate. Qed.

(** C3, amended.  The age of a product is measured from [createdAt], the
    date the scan response carries, against the instant seven days of the
    calendar before the check, at the same local time of the host.  A
    product whose date is later than that instant is left alone: the check
    calls the Classifier zero times, writes no status and returns the
    stored one.  Every other product with a date and a status, older or
    with a date that cannot be read, has the Classifier called, once.  On a
    host whose offset to UTC does not change, the product left alone is the
    one less than 7 times 24 hours old. *)
Theorem C3_recent_left_alone_others_classified w product authToken st :
  createdAt product <> "" ->
  product_status product = Some st ->
  (is_recent w (createdAt product) = true ->
   count is_classifier_call (trace (checkAndProcessGlutenStatus w product authToken))
   = 0%nat
   /\ count is_status_write (trace (checkAndProcessGlutenStatus w product authToken))
      = 0%nat
   /\ outcome (checkAndProcessGlutenStatus w product authToken)
      = inr (status_value product))
  /\ (is_recent w (createdAt product) = false ->
      count is_classifier_call (trace (checkAndProcessGlutenStatus w product authToken))
      = 1%nat)
  /\ (is_recent w (createdAt product) = true <->
      exists productDate oneWeekAgo,
        Date_parse w (createdAt product) = Some productDate
        /\ minus_days w (now w) 7 = Some oneWeekAgo
        /\ oneWeekAgo < productDate)
  /\ (forall off productDate,
         (forall t isUTC, LocalTZA w t isUTC = off) ->
         Z.abs (now w - 7 * msPerDay) <= 8640000000000000 ->
         Date_parse w (createdAt product) = Some productDate ->
         (is_recent w (createdAt product) = true <-> now w - productDate < 7 * msPerDay)).
Proof.
  intros Hc Hs. split; [ | split; [ | split]].
  - intros R. unfold checkAndProcessGlutenStatus.
    rewrite (not_empty Hc), R. unfold status_value. rewrite Hs.
    cbn. repeat split.
  - intros R. unfold checkAndProcessGlutenStatus.
    rewrite (not_empty Hc), R. unfold status_value. rewrite Hs.
    cbn [truthy Status_object negb orb].
    destruct (checkGlutenStatus_run w
                {| productName := name product; check_ingredients := ingredients product;
                   currentStatus := stored_label product |}) as (tr & r & E & Ht).
    cbv zeta. rewrite E.
    destruct (updateProductStatus_run w (barcode product)
                (JObj [("status", prop (data r) "glutenFreeStatus");
                       ("explanation", or (prop (data r) "explanation") (JStr ""))])
                (or_empty authToken)) as (u & U).
    destruct Ht as [-> | ->]; branches; rewrite ?U; branches; reflexivity.
  - unfold is_recent.
    destruct (Date_parse w (createdAt product)) as [p | ];
      [ | split; [discriminate | intros (p & o & H & _); discriminate H]].
    destruct (minus_days w (now w) 7) as [o | ];
      [ | split; [discriminate | intros (p' & o & _ & H & _); discriminate H]].
    split.
    + intros H. apply Z.ltb_lt in H. exists p, o. auto.
    + intros (p' & o' & H1 & H2 & H3). injection H1 as <-. injection H2 as <-.
      apply Z.ltb_lt. exact H3.
  - intros off productDate Hoff Hr Hd.
    rewrite (@is_recent_age _ _ _ _ Hoff Hr Hd). apply Z.ltb_lt.
Qed.

(** The theorem at a product scanned one day, and eight days, after its
    creation, on a host on UTC. *)
Lemma C3_recent_left_alone_others_classified_witness :
  count is_classifier_call
        (trace (checkAndProcessGlutenStatus
                  (Scenario.world Scenario.net_prose S3Sent (Scenario.days 1))
                  Scenario.granola (Some "token"))) = 0%nat
  /\ count is_classifier_call
         (trace (checkAndProcessGlutenStatus
                   (Scenario.world Scenario.net_prose S3Sent (Scenario.days 8))
                   Scenario.granola (Some "token"))) = 1%nat.
Proof.
  split.
  - refine (proj1 (proj1 (@C3_recent_left_alone_others_classified
                            (Scenario.world Scenario.net_prose S3Sent (Scenario.days 1))
                            Scenario.granola (Some "token")
                            {| status := "gluten-free";
                               explanation := Some "Certified oats" |}
                            _ _) _));
      [discriminate | reflexivity | vm_compute; reflexivity].
  - refine (proj1 (proj2 (@C3_recent_left_alone_others_classified
                            (Scenario.world Scenario.net_prose S3Sent (Scenario.days 8))
                            Scenario.granola (Some "token")
                            {| status := "gluten-free";
                               explanation := Some "Certified oats" |}
                            _ _)) _);
      [discriminate | reflexivity | vm_compute; reflexivity].
Defined.

(** When the Classifier returns an error response (the network failed, the
    answer was an HTTP failure, its body could not be read), the check
    writes nothing to the catalog and returns the stored status. *)
Lemma classifier_error_keeps_status w product authToken r :
  outcome (geminiApi.checkGlutenStatus w
             {| productName := name product; check_ingredients := ingredients product;
                currentStatus := stored_label product |}) = inr r ->
  truthy (error r) = true ->
  count is_catalog_write (trace (checkAndProcessGlutenStatus w product authToken)) = 0%nat
  /\ (outcome (checkAndProcessGlutenStatus w product authToken) = inr (status_value product)
      \/ outcome (checkAndProcessGlutenStatus w product authToken) = inr JNull).
Proof.
  intros Hr He. unfold checkAndProcessGlutenStatus.
  destruct ((createdAt product =? "")%string || negb (truthy (status_value product)));
    [cbn; auto | ].
  destruct (is_recent w (createdAt product)); [cbn; auto | ].
  destruct (checkGlutenStatus_run w
              {| productName := name product; check_ingredients := ingredients product;
                 currentStatus := stored_label product |}) as (tr & r' & E & Ht).
  rewrite E in Hr. cbn in Hr. injection Hr as ->.
  cbv zeta. rewrite E.
  destruct Ht as [-> | ->]; cbn; rewrite He; cbn; auto.
Qed.

(** C1, at the failing input.  The product is 8 days old and stored as
    gluten-free; the model answers with prose that holds no JSON and none of
    the words the client looks for.  The client reports a successful
    classification, label unknown, and the check writes it over the stored
    status. *)
Theorem C1_unparsed_answer_overwrites_status :
  let w := Scenario.world Scenario.net_prose S3Sent (Scenario.days 8) in
  stored_label Scenario.granola = Some "gluten-free"
  /\ outcome (geminiApi.checkGlutenStatus w Scenario.granola_check)
     = inr (ok_response (JObj [("success", JBool true);
                           ("glutenFreeStatus", JStr "unknown");
                           ("explanation", JStr "Unable to determine from AI response")])
                    200)
  /\ trace (checkAndProcessGlutenStatus w Scenario.granola (Some "token"))
     = [Call (geminiApi_checkGlutenStatus Scenario.granola_check);
        Fetch (POST_gemini_check Scenario.granola_check);
        Call (statusApi_updateProductStatus
                "0001"
                (JObj [("status", JStr "unknown");
                       ("explanation", JStr "Unable to determine from AI response")])
                "token");
        Fetch (PATCH_api_status
                 "0001"
                 (JObj [("status", JStr "unknown");
                        ("explanation", JStr "Unable to determine from AI response")])
                 "token");
        ShowToast (info "AI Gluten Check"
                        ("Product 'Granola Bar' status updated to 'unknown'. "
                         ++ "Reason: Unable to determine from AI response"))].
Proof. vm_compute. repeat split. Qed.

(** ** The Classifier's answer *)

Lemma trimmed_group_truthy m e : trimmed_group m = Some e -> truthy (JStr e) = true.
Proof.
  unfold trimmed_group. destruct m as [[wh [g | ]] | ]; try discriminate.
  destruct (Text.trim g =? "")%string eqn:E; [discriminate | ].
  intros H. injection H as <-. cbn. rewrite E. reflexivity.
Qed.

(** The fallback reading of a text gives one of the three labels and an
    explanation that is not empty. *)
Lemma extractGlutenInfoFromText_label text :
  is_label (JStr (glutenFreeStatus (extractGlutenInfoFromText text))) = true
  /\ truthy (JStr (glutenFreeStatus (extractGlutenInfoFromText text))) = true
  /\ truthy (JStr (info_explanation (extractGlutenInfoFromText text))) = true.
Proof.
  unfold extractGlutenInfoFromText. cbn [glutenFreeStatus info_explanation].
  split; [ | split].
  - destruct (test re_gluten_free text && negb (test re_not_gluten_free text));
      [reflexivity | ]. destruct (test re_contains_gluten text); reflexivity.
  - destruct (test re_gluten_free text && negb (test re_not_gluten_free text));
      [reflexivity | ]. destruct (test re_contains_gluten text); reflexivity.
  - destruct (trimmed_group _) eqn:E; [exact (trimmed_group_truthy _ E) | reflexivity].
Qed.

Lemma or_truthy a b : truthy a = true -> or a b = a.
Proof. intros H. unfold or. rewrite H. reflexivity. Qed.

(** C10, against the claim as stated.  An HTTP-200 answer whose JSON carries
    the label "maybe" is returned as a success with that label, which is
    none of the three; and an HTTP-200 answer whose fenced JSON is [null] is
    returned as an error response. *)
Lemma C10_label_outside_the_three :
  (outcome (geminiApi.checkGlutenStatus
              (Scenario.world Scenario.net_maybe S3Sent (Scenario.days 8))
              Scenario.granola_check)
   = inr (ok_response (JObj [("success", JBool true);
                             ("glutenFreeStatus", JStr "maybe");
                             ("explanation", JStr "Unable to determine")])
                      200)
   /\ is_label (JStr "maybe") = false)
  /\ outcome (geminiApi.checkGlutenStatus
                (Scenario.world Scenario.net_null S3Sent (Scenario.days 8))
                Scenario.granola_check)
     = inr (error_response
              (JStr "Cannot read properties of null (reading 'glutenFreeStatus')") 0).
Proof. vm_compute. repeat split. Qed.

(** C10, amended.  For an answer with a success status whose body is read
    and whose text holds no JSON the client can use, the Classifier returns
    a success whose label is one of the three, found by the fallback
    reading; a text with no status keyword gives "unknown", and one with no
    explanation keyword the explanation "Unable to determine from AI
    response".  No error response is returned. *)
Theorem C10_unparsed_text_is_a_successful_classification w pd response d text :
  GEMINI_API_KEY w <> "" ->
  fetch w (POST_gemini_check pd) = Resolved response ->
  ok response = true ->
  json response = inr d ->
  geminiApi.candidate_text w d = inr (JStr text) ->
  no_parsable_json w text = true ->
  exists st ex,
    outcome (geminiApi.checkGlutenStatus w pd)
    = inr (ok_response (JObj [("success", JBool true);
                              ("glutenFreeStatus", JStr st);
                              ("explanation", JStr ex)])
                       200)
    /\ st = glutenFreeStatus (extractGlutenInfoFromText text)
    /\ is_label (JStr st) = true
    /\ (no_status_keyword text = true -> st = "unknown")
    /\ (no_explanation_keyword text = true -> ex = "Unable to determine from AI response").
Proof.
  intros Hk Hf Hok Hj Ht Hp.
  assert (G : geminiApi.glutenInfo w text = GlutenInfo_object (extractGlutenInfoFromText text)).
  { unfold geminiApi.glutenInfo. unfold no_parsable_json in Hp.
    destruct (geminiApi.jsonMatch text); [ | reflexivity].
    destruct (JSON_parse w _); [discriminate | reflexivity]. }
  destruct (extractGlutenInfoFromText_label text) as (L & T1 & T2).
  exists (glutenFreeStatus (extractGlutenInfoFromText text)),
         (info_explanation (extractGlutenInfoFromText text)).
  split; [ | split; [reflexivity | split; [exact L | split]]].
  - unfold geminiApi.checkGlutenStatus.
    rewrite (not_empty Hk), Hf. cbn. rewrite Hok. cbn. rewrite Hj. cbn.
    rewrite Ht. cbn. rewrite G. cbn.
    rewrite (@or_truthy _ _ T1), (@or_truthy _ _ T2). reflexivity.
  - unfold no_status_keyword. intros H. apply andb_prop in H. destruct H as [A B].
    apply negb_true_iff in A. apply negb_true_iff in B.
    unfold extractGlutenInfoFromText. cbn [glutenFreeStatus]. rewrite A, B. reflexivity.
  - unfold no_explanation_keyword. intros H.
    apply andb_prop in H. destruct H as [H C].
    apply andb_prop in H. destruct H as [A B].
    apply negb_true_iff in A. apply negb_true_iff in B. apply negb_true_iff in C.
    unfold extractGlutenInfoFromText, test in *. cbn [info_explanation].
    destruct (Regex.match_ re_explanation text); [discriminate | ].
    destruct (Regex.match_ re_analysis text); [discriminate | ].
    destruct (Regex.match_ re_assessment text); [discriminate | ].
    reflexivity.
Qed.

(** The theorem at the model's prose "Sorry, I cannot help with that." *)
Lemma C10_unparsed_text_is_a_successful_classification_witness :
  exists st ex,
    outcome (geminiApi.checkGlutenStatus
               (Scenario.world Scenario.net_prose S3Sent (Scenario.days 8))
               Scenario.granola_check)
    = inr (ok_response (JObj [("success", JBool true);
                              ("glutenFreeStatus", JStr st);
                              ("explanation", JStr ex)])
                       200)
    /\ st = glutenFreeStatus (extractGlutenInfoFromText "Sorry, I cannot help with that.")
    /\ is_label (JStr st) = true
    /\ (no_status_keyword "Sorry, I cannot help with that." = true -> st = "unknown")
    /\ (no_explanation_keyword "Sorry, I cannot help with that." = true
        -> ex = "Unable to determine from AI response").
Proof.
  eapply (@C10_unparsed_text_is_a_successful_classification
            (Scenario.world Scenario.net_prose S3Sent (Scenario.days 8))
            Scenario.granola_check);
    [discriminate | reflexivity | reflexivity | reflexivity | reflexivity
     | vm_compute; reflexivity].
Defined.

(** ** The status write *)

Arguments differs : simpl never.
Arguments opt_prop : simpl never.




(** ** The external catalog *)

Arguments productPayload : simpl never.
Arguments str : simpl never.

(** C7, against the claim as stated.  The ingredients of the candidate are
    the text of the source, not a sequence, and the candidate has no
    status. *)
Lemma C7_ingredients_stay_text :
  prop (productPayload "0001" Scenario.off_granola) "ingredients"
  = JStr "oats, honey, wheat flour"
  /\ prop (productPayload "0001" Scenario.off_granola) "ingredients"
     <> JArr [JStr "oats"; JStr "honey"; JStr "wheat flour"]
  /\ prop (productPayload "0001" Scenario.off_granola) "status" = JUndefined.
Proof. vm_compute. repeat split. discriminate. Qed.

Lemma productPayload_fields barcode product :
  prop (productPayload barcode product) "barcode" = JStr barcode
  /\ prop (productPayload barcode product) "name"
     = prefer [prop product "product_name"; prop product "product_name_en";
               prop product "name"]
              (JStr "Unknown Product")
  /\ prop (productPayload barcode product) "ingredients"
     = prefer [prop product "ingredients_text_with_allergens";
               prop product "ingredients_text";
               prop product "ingredients_text_en";
               prop product "ingredients_text_debug"]
              (JStr "")
  /\ prop (productPayload barcode product) "pictureUrl"
     = prefer [prop product "image_front_url"; prop product "image_url";
               prop product "image_small_url"]
              (JStr "")
  /\ prop (productPayload barcode product) "status" = JUndefined.
Proof.
  unfold productPayload, prefer, or. cbn [prop lookup String.eqb Ascii.eqb Bool.eqb].
  repeat split.
  - destruct (truthy (prop product "product_name")) eqn:A;
      [ | destruct (truthy (prop product "product_name_en")) eqn:B;
          [ | destruct (truthy (prop product "name")) eqn:C]];
      rewrite ?A, ?B, ?C;
      repeat match goal with
             | H : truthy ?v = true |- context [match ?v with _ => _ end] =>
                 destruct v; try discriminate H
             end; reflexivity.
  - destruct (truthy (prop product "ingredients_text_with_allergens")) eqn:A;
      [ | destruct (truthy (prop product "ingredients_text")) eqn:B;
          [ | destruct (truthy (prop product "ingredients_text_en")) eqn:C;
              [ | destruct (truthy (prop product "ingredients_text_debug")) eqn:D]]];
      rewrite ?A, ?B, ?C, ?D;
      repeat match goal with
             | H : truthy ?v = true |- context [match ?v with _ => _ end] =>
                 destruct v; try discriminate H
             end; reflexivity.
  - destruct (truthy (prop product "image_front_url")) eqn:A;
      [ | destruct (truthy (prop product "image_url")) eqn:B;
          [ | destruct (truthy (prop product "image_small_url")) eqn:C]];
      rewrite ?A, ?B, ?C;
      repeat match goal with
             | H : truthy ?v = true |- context [match ?v with _ => _ end] =>
                 destruct v; try discriminate H
             end; reflexivity.
Qed.

(** On a found product and with an auth token, the resolver builds the
    candidate, sends it to the catalog once and answers by the outcome of
    that creation. *)
Lemma found_is_created w barcode tok r :
  lookup_found w barcode r ->
  tok <> "" ->
  exists u,
    outcome (productApi.createProduct w (productPayload barcode (prop (data r) "product")) tok)
    = inr u
    /\ fetchProductFromOpenFoodFacts w barcode (Some tok)
       = ([Call (openFoodFactsApi_getProduct barcode);
           Fetch (GET_off_product barcode);
           Call (productApi_createProduct (productPayload barcode (prop (data r) "product"))
                                          tok);
           Fetch (POST_api_products (productPayload barcode (prop (data r) "product")) tok)],
          inr (creation_result w u)).
Proof.
  intros (Hr & He & (st & Hst & Hz) & Hp) Htok.
  destruct (getProduct_run w barcode) as (r' & G).
  rewrite G in Hr. cbn in Hr. injection Hr as ->.
  destruct (createProduct_run w (productPayload barcode (prop (data r) "product")) tok)
    as (u & C).
  exists u. split; [rewrite C; reflexivity | ].
  unfold fetchProductFromOpenFoodFacts, creation_result.
  rewrite G. cbn. rewrite He. cbn. rewrite Hst. cbn. rewrite Hz, Hp. cbn.
  rewrite (not_empty Htok). cbn. rewrite C. cbn.
  destruct (truthy (error u)); reflexivity.
Qed.

(** C7, amended.  For every product the external catalog finds, and with an
    auth token, one candidate is sent to the local catalog.  Its name is the
    first non-empty of product_name, product_name_en and name, else "Unknown
    Product"; its ingredients are the first non-empty of
    ingredients_text_with_allergens, ingredients_text, ingredients_text_en
    and ingredients_text_debug, else the empty text, kept as the source
    gives them; its picture URL is the first non-empty of image_front_url,
    image_url and image_small_url, else empty.  The candidate holds no
    status. *)
Theorem C7_candidate_follows_preference_lists w barcode tok r :
  lookup_found w barcode r ->
  tok <> "" ->
  exists candidate,
    candidate = productPayload barcode (prop (data r) "product")
    /\ In (Call (productApi_createProduct candidate tok))
          (trace (fetchProductFromOpenFoodFacts w barcode (Some tok)))
    /\ count is_product_create (trace (fetchProductFromOpenFoodFacts w barcode (Some tok)))
       = 1%nat
    /\ prop candidate "barcode" = JStr barcode
    /\ prop candidate "name"
       = prefer [prop (prop (data r) "product") "product_name";
                 prop (prop (data r) "product") "product_name_en";
                 prop (prop (data r) "product") "name"]
                (JStr "Unknown Product")
    /\ prop candidate "ingredients"
       = prefer [prop (prop (data r) "product") "ingredients_text_with_allergens";
                 prop (prop (data r) "product") "ingredients_text";
                 prop (prop (data r) "product") "ingredients_text_en";
                 prop (prop (data r) "product") "ingredients_text_debug"]
                (JStr "")
    /\ prop candidate "pictureUrl"
       = prefer [prop (prop (data r) "product") "image_front_url";
                 prop (prop (data r) "product") "image_url";
                 prop (prop (data r) "product") "image_small_url"]
                (JStr "")
    /\ prop candidate "status" = JUndefined.
Proof.
  intros Hf Htok.
  destruct (found_is_created Hf Htok) as (u & _ & F).
  destruct (productPayload_fields barcode (prop (data r) "product"))
    as (Fb & Fn & Fi & Fp & Fs).
  eexists. split; [reflexivity | ].
  rewrite F. cbn [trace fst].
  split; [cbn; auto | ]. split; [reflexivity | ].
  repeat split; assumption.
Qed.

(** The theorem at the granola bar of the external catalog: the name is
    taken from [name], the ingredients are the text of [ingredients_text]. *)
Lemma C7_candidate_follows_preference_lists_witness :
  exists candidate,
    candidate = productPayload "0001" Scenario.off_granola
    /\ prop candidate "name" = JStr "Granola Bar"
    /\ prop candidate "ingredients" = JStr "oats, honey, wheat flour"
    /\ prop candidate "pictureUrl" = JStr "".
Proof.
  destruct (@C7_candidate_follows_preference_lists
              (Scenario.world Scenario.net_found S3Sent (Scenario.days 8)) "0001" "token"
              (ok_response (JObj [("status", JNum {| mant := 1; exp10 := 0 |});
                                  ("product", Scenario.off_granola)]) 200))
    as (candidate & Hc & _ & _ & _ & Hn & Hi & Hp & _).
  - repeat split; try reflexivity.
    exists (JNum {| mant := 1; exp10 := 0 |}). split; reflexivity.
  - discriminate.
  - exists candidate. repeat split; assumption.
Defined.




(** An upstream error of the lookup reaches the resolver as an error
    response whose status is not 404. *)
Lemma apiFetch_upstream_error w req :
  upstream_error (fetch w req) = true ->
  exists err st,
    apiFetch w req = ([Fetch req], inr (error_response err st)) /\ (st =? 404) = false.
Proof.
  unfold upstream_error, apiFetch. destruct (fetch w req) as [e | resp]; cbn.
  - intros _. do 2 eexists. split; reflexivity.
  - destruct (ok resp); cbn.
    + destruct (json resp); [ | discriminate]. intros _. cbn.
      do 2 eexists. split; reflexivity.
    + intros H. apply negb_true_iff in H. unfold handleApiError.
      destruct (json resp) as [e | d]; [ | destruct (nullish d)];
        do 2 eexists; (split; [reflexivity | exact H]).
Qed.

(** The resolver then answers with a failure that is not OFF_NOT_FOUND. *)
Lemma upstream_error_is_reported w barcode authToken :
  upstream_error (fetch w (GET_off_product barcode)) = true ->
  exists r m,
    fetchProductFromOpenFoodFacts w barcode authToken
    = ([Call (openFoodFactsApi_getProduct barcode); Fetch (GET_off_product barcode)],
       inr (off_failure r m))
    /\ (r = "OFF_API_ERROR" \/ r = "ERROR").
Proof.
  intros H. destruct (apiFetch_upstream_error w (GET_off_product barcode) H)
    as (err & st & A & Hst).
  unfold fetchProductFromOpenFoodFacts, openFoodFactsApi.getProduct. rewrite A. cbn.
  destruct (truthy err); cbn; [rewrite Hst | ]; cbn; eauto 6.
Qed.

(** The resolver turns to the external catalog when [createScanApi] threw
    the error it makes of a 404 of the local catalog: that error carries
    [isProductNotFound] and the barcode of the scan. *)
Lemma createScanApi_not_found w c scanData r :
  present (token c) = true ->
  outcome (scanApi.recordScan w scanData (or_empty (token c))) = inr r ->
  truthy (error r) = true ->
  http_status r = 404 ->
  exists e,
    outcome (createScanApi w c scanData) = inl e
    /\ isProductNotFound e = true
    /\ thrown_barcode e = Some (productBarcode scanData).
Proof.
  intros Ht Hr He Hs. unfold createScanApi. rewrite Ht. cbn [negb].
  destruct (recordScan_run w scanData (or_empty (token c))) as (r' & R).
  rewrite R in Hr. cbn in Hr. injection Hr as ->.
  rewrite R. cbn. rewrite He, Hs. cbn. eexists. repeat split.
Qed.

(** C2. When the lookup in the external catalog ends in an upstream error
    (the network fails, the answer is an HTTP failure other than 404, or its
    body cannot be read), the screen does not enter community sourcing: the
    upload dialog is not opened, no barcode is set for an upload and the
    Extractor is not called.  The resolver answers with a reason other than
    OFF_NOT_FOUND, the screen shows it as a "Product Processing Error" and
    goes back to rest, the rest of its state untouched, so that the scan can
    be made again. *)
Theorem C2_upstream_error_is_not_community_sourcing w c e variables barcode :
  isProductNotFound e = true ->
  thrown_barcode e = Some barcode ->
  barcode <> "" ->
  upstream_error (fetch w (GET_off_product barcode)) = true ->
  exists r m,
    outcome (fetchProductFromOpenFoodFacts w barcode (token c)) = inr (off_failure r m)
    /\ r <> "OFF_NOT_FOUND"
    /\ trace (onError w c e variables)
       = [SetIsScanning true;
          ShowToast (searching_off barcode);
          Call (openFoodFactsApi_getProduct barcode);
          Fetch (GET_off_product barcode);
          ShowToast (processing_error m);
          SetIsScanning false]
    /\ count opens_upload_dialog (trace (onError w c e variables)) = 0%nat
    /\ count is_extractor_call (trace (onError w c e variables)) = 0%nat
    /\ count (is_toast_titled "Not on Open Food Facts") (trace (onError w c e variables))
       = 0%nat
    /\ after c (trace (onError w c e variables))
       = {| token := token c; isScanning := false; showUploadModal := showUploadModal c;
            uploadedImages := uploadedImages c;
            currentBarcodeForUpload := currentBarcodeForUpload c |}.
Proof.
  intros Hnf Hb Hbc Hup.
  destruct (upstream_error_is_reported w barcode (token c) Hup) as (r & m & F & Hr).
  exists r, m.
  assert (T : trace (onError w c e variables)
              = [SetIsScanning true;
                 ShowToast (searching_off barcode);
                 Call (openFoodFactsApi_getProduct barcode);
                 Fetch (GET_off_product barcode);
                 ShowToast (processing_error m);
                 SetIsScanning false]).
  { unfold onError. rewrite Hnf, Hb. cbn [present or_empty].
    rewrite (not_empty Hbc). cbn [negb andb]. rewrite (not_empty Hbc). cbn [negb].
    rewrite F. destruct Hr as [-> | ->]; reflexivity. }
  split; [rewrite F; reflexivity | ].
  split; [destruct Hr as [-> | ->]; discriminate | ].
  split; [exact T | ]. rewrite T. repeat split.
Qed.

(** The theorem at an external catalog that answers 503 with a page that is
    not JSON. *)
Lemma C2_upstream_error_is_not_community_sourcing_witness :
  exists r m,
    outcome (fetchProductFromOpenFoodFacts
               (Scenario.world Scenario.net_off_unavailable S3Sent (Scenario.days 8))
               "0001" (Some "token")) = inr (off_failure r m)
    /\ r <> "OFF_NOT_FOUND"
    /\ count opens_upload_dialog
             (trace (onError (Scenario.world Scenario.net_off_unavailable S3Sent
                                             (Scenario.days 8))
                             Scenario.idle Scenario.not_found_0001 Scenario.scan_0001))
       = 0%nat.
Proof.
  destruct (@C2_upstream_error_is_not_community_sourcing
              (Scenario.world Scenario.net_off_unavailable S3Sent (Scenario.days 8))
              Scenario.idle Scenario.not_found_0001 Scenario.scan_0001 "0001")
    as (r & m & H1 & H2 & _ & H4 & _);
    [reflexivity | reflexivity | discriminate | reflexivity | ].
  exists r, m. repeat split; assumption.
Defined.

(** ** The scan and its background check *)

Arguments count : simpl never.





Arguments onSuccess : simpl never.



(** ** Community sourcing *)

Arguments or : simpl never.
Arguments prop : simpl never.

Ltac not_a_call := intros [ [ ] | | | | | | | | | ]; (discriminate || reflexivity).

Lemma quiet_is_no_extractor_call ev : quiet ev = true -> is_extractor_call ev = false.
Proof. revert ev. not_a_call. Qed.

Lemma quiet_is_no_objectstore_call ev : quiet ev = true -> is_objectstore_call ev = false.
Proof. revert ev. not_a_call. Qed.

Lemma quiet_is_no_catalog_write ev : quiet ev = true -> is_catalog_write ev = false.
Proof. revert ev. not_a_call. Qed.

Lemma quiet_is_no_mutate ev : quiet ev = true -> is_mutate ev = false.
Proof. revert ev. not_a_call. Qed.

Lemma quiet_counts (t : list Event) :
  forallb quiet t = true ->
  count is_extractor_call t = 0%nat /\ count is_objectstore_call t = 0%nat
  /\ count is_catalog_write t = 0%nat /\ count is_mutate t = 0%nat.
Proof.
  intros H. repeat split; apply count_quiet; auto using quiet_is_no_extractor_call,
    quiet_is_no_objectstore_call, quiet_is_no_catalog_write, quiet_is_no_mutate.
Qed.

(** A submission of enough images, by what the Extractor and the
    ObjectStore answer. *)
Lemma submission_counts w c barcode urls f0 rest r ur :
  Nat.ltb (length (uploadedImages c)) 4 = false ->
  currentBarcodeForUpload c = Some barcode ->
  barcode <> "" ->
  uploadedImages c = f0 :: rest ->
  all_fileToBase64 (uploadedImages c) = inr urls ->
  outcome (geminiApi.generateProductInfo w urls (upload_prompt barcode)) = inr r ->
  outcome (uploadFileToS3 w f0 ("products/" ++ barcode)) = inr ur ->
  outcome (handleMultipleImageUpload w c) = inr tt
  /\ count is_extractor_call (trace (handleMultipleImageUpload w c)) = 1%nat
  /\ count is_objectstore_call (trace (handleMultipleImageUpload w c))
     = (if extractor_succeeded r then 1%nat else 0%nat)
  /\ (extractor_succeeded r = false \/ present (s3_error ur) = true ->
      count is_catalog_write (trace (handleMultipleImageUpload w c)) = 0%nat
      /\ count is_mutate (trace (handleMultipleImageUpload w c)) = 0%nat).
Proof.
  intros Hn Hb Hbc Hf Hu Hr Hur.
  unfold handleMultipleImageUpload, uploadImageToServer, extractor_succeeded.
  rewrite Hn, Hb, Hu, Hf. cbn [present or_empty first_image].
  rewrite (not_empty Hbc). cbn [negb]. cbv zeta. cbn [lift bind emit]. cbv zeta.
  remember ("products/" ++ barcode) as prefix eqn:Hprefix.
  remember (upload_prompt barcode) as prompt eqn:Hprompt.
  destruct (generateProductInfo_run w urls prompt) as (t & r' & G & Qt).
  destruct (uploadFileToS3_run w f0 prefix) as (t' & ur' & S & Qt').
  rewrite G in Hr. cbn in Hr. injection Hr as ->.
  rewrite S in Hur. cbn in Hur. injection Hur as ->.
  destruct (createProduct_run w
              (JObj [("barcode", JStr barcode);
                     ("name", or (prop (prop (data r) "product") "name")
                                 (JStr "Unknown Product (from AI)"));
                     ("ingredients", or (prop (prop (data r) "product") "ingredients")
                                        (JStr ""));
                     ("pictureUrl", JStr (or_empty (fileUrl ur)))])
              (or_empty (token c))) as (u & C).
  destruct (quiet_counts t Qt) as (A1 & A2 & A3 & A4).
  destruct (quiet_counts t' Qt') as (B1 & B2 & B3 & B4).
  assert (Leaf : forall (P : Prop) (T : list Event) (n m : nat) (b : bool),
             count is_extractor_call T = 1%nat ->
             count is_objectstore_call T = n -> n = m ->
             (b = false \/ present (s3_error ur) = true ->
              count is_catalog_write T = 0%nat /\ count is_mutate T = 0%nat) ->
             @inr Thrown unit tt = inr tt
             /\ count is_extractor_call T = 1%nat
             /\ count is_objectstore_call T = m
             /\ (b = false \/ present (s3_error ur) = true ->
                 count is_catalog_write T = 0%nat /\ count is_mutate T = 0%nat)).
  { intros _ T n m b H1 H2 <- H3. repeat split; try assumption; apply H3; assumption. }
  rewrite G. cbn.
  destruct (negb (showUploadModal c) || showUploadModal c && negb (isScanning c));
    (destruct (truthy (error r)) eqn:Er; cbn;
     [ | destruct (truthy (opt_prop (data r) "success")) eqn:Es; cbn;
         [ destruct (truthy (opt_prop (data r) "product")) eqn:Ep; cbn;
           [ rewrite S; cbn; destruct (present (s3_error ur)) eqn:Eu; cbn;
             [ | destruct (present (token c)) eqn:Et; cbn;
                 [ rewrite C; cbn; destruct (truthy (error u)) eqn:Ee; cbn | ] ]
           | ]
         | ] ]);
    (eapply (Leaf True);
     [ repeat (rewrite count_cons || rewrite count_app); rewrite ?A1, ?B1; reflexivity
     | repeat (rewrite count_cons || rewrite count_app); rewrite ?A2, ?B2; reflexivity
     | reflexivity
     | intros [X | X]; try discriminate X;
       repeat (rewrite count_cons || rewrite count_app);
       rewrite ?A3, ?A4, ?B3, ?B4; split; reflexivity ]).
Qed.

(** C4, against the claim as stated.  Four images are submitted and the
    Extractor cannot be reached: it is called once, and the ObjectStore is
    not called. *)
Lemma C4_failed_extraction_uploads_nothing :
  length (uploadedImages Scenario.dialog) = 4%nat
  /\ count is_extractor_call
           (trace (handleMultipleImageUpload
                     (Scenario.world Scenario.net_extractor_down S3Sent (Scenario.days 8))
                     Scenario.dialog)) = 1%nat
  /\ count is_objectstore_call
           (trace (handleMultipleImageUpload
                     (Scenario.world Scenario.net_extractor_down S3Sent (Scenario.days 8))
                     Scenario.dialog)) = 0%nat.
Proof. vm_compute. repeat split. Qed.

(** C4, amended.  With fewer than 4 images the submission reports "More
    Images Needed" and calls neither the Extractor nor the ObjectStore.
    With at least 4 images, a barcode for the upload and images that can be
    read, it calls the Extractor exactly once, and the ObjectStore exactly
    once when the Extractor succeeded and not at all when it failed.  The
    images collected are never more than 8. *)
Theorem C4_image_count_gates_the_calls w c :
  ((length (uploadedImages c) < 4)%nat ->
   trace (handleMultipleImageUpload w c)
   = [ShowToast (more_images_needed (length (uploadedImages c)))]
   /\ count is_extractor_call (trace (handleMultipleImageUpload w c)) = 0%nat
   /\ count is_objectstore_call (trace (handleMultipleImageUpload w c)) = 0%nat)
  /\ ((4 <= length (uploadedImages c))%nat ->
      forall barcode urls r,
        currentBarcodeForUpload c = Some barcode ->
        barcode <> "" ->
        all_fileToBase64 (uploadedImages c) = inr urls ->
        outcome (geminiApi.generateProductInfo w urls (upload_prompt barcode)) = inr r ->
        count is_extractor_call (trace (handleMultipleImageUpload w c)) = 1%nat
        /\ count is_objectstore_call (trace (handleMultipleImageUpload w c))
           = (if extractor_succeeded r then 1%nat else 0%nat))
  /\ (forall prev files : list File,
         (length prev <= 8)%nat -> (length (addImages prev files) <= 8)%nat).
Proof.
  split; [ | split].
  - intros H. apply Nat.ltb_lt in H. unfold handleMultipleImageUpload. rewrite H.
    cbn. repeat split.
  - intros H barcode urls r Hb Hbc Hu Hr.
    assert (Hn : Nat.ltb (length (uploadedImages c)) 4 = false)
      by (apply Nat.ltb_ge; exact H).
    destruct (uploadedImages c) as [ | f0 rest] eqn:Hf; [cbn in H; lia | ].
    destruct (uploadFileToS3_run w f0 ("products/" ++ barcode)) as (t' & ur & S & _).
    rewrite <- Hf in Hn, Hu.
    destruct (@submission_counts w c barcode urls f0 rest r ur Hn Hb Hbc Hf Hu Hr)
      as (_ & H1 & H2 & _); [rewrite S; reflexivity | ].
    split; assumption.
  - intros prev files H. unfold addImages. destruct files; [exact H | ].
    apply firstn_le_length.
Qed.

(** The theorem at four photos that the Extractor reads and the ObjectStore
    takes: one call of each. *)
Lemma C4_image_count_gates_the_calls_witness :
  count is_extractor_call
        (trace (handleMultipleImageUpload
                  (Scenario.world Scenario.net_extractor_up S3Sent (Scenario.days 8))
                  Scenario.dialog)) = 1%nat
  /\ count is_objectstore_call
           (trace (handleMultipleImageUpload
                     (Scenario.world Scenario.net_extractor_up S3Sent (Scenario.days 8))
                     Scenario.dialog)) = 1%nat.
Proof.
  refine (proj1 (proj2 (C4_image_count_gates_the_calls
                          (Scenario.world Scenario.net_extractor_up S3Sent (Scenario.days 8))
                          Scenario.dialog))
                _ "0001"
                ["data:image/jpeg;base64,front"; "data:image/jpeg;base64,back";
                 "data:image/jpeg;base64,left"; "data:image/jpeg;base64,right"]
                (ok_response
                   (JObj [("success", JBool true);
                          ("product", JObj [("name", JStr "Granola Bar");
                                            ("ingredients", JStr "oats, honey")])])
                   200)
                _ _ _ _).
  - vm_compute. lia.
  - reflexivity.
  - discriminate.
  - reflexivity.
  - vm_compute. reflexivity.
Defined.

(** A submission in which the Extractor fails, or the upload of the first
    image fails, writes nothing to the catalog and records no scan. *)
Lemma failed_submission_writes_nothing w c barcode urls f0 rest r ur :
  Nat.ltb (length (uploadedImages c)) 4 = false ->
  currentBarcodeForUpload c = Some barcode ->
  barcode <> "" ->
  uploadedImages c = f0 :: rest ->
  all_fileToBase64 (uploadedImages c) = inr urls ->
  outcome (geminiApi.generateProductInfo w urls (upload_prompt barcode)) = inr r ->
  outcome (uploadFileToS3 w f0 ("products/" ++ barcode)) = inr ur ->
  extractor_succeeded r = false \/ present (s3_error ur) = true ->
  count is_catalog_write (trace (handleMultipleImageUpload w c)) = 0%nat
  /\ count is_mutate (trace (handleMultipleImageUpload w c)) = 0%nat.
Proof.
  intros Hn Hb Hbc Hf Hu Hr Hur H.
  exact (proj2 (proj2 (proj2 (@submission_counts w c barcode urls f0 rest r ur
                                                   Hn Hb Hbc Hf Hu Hr Hur))) H).
Qed.

(** Whatever a submission does, it leaves the dialog without images and
    without a barcode once the Submit button could be pressed: the
    condition of its [finally] holds in every state in which the button is
    enabled. *)
Lemma submission_clears_the_dialog w c :
  can_submit c = true ->
  present (currentBarcodeForUpload c) = true ->
  uploadedImages (after c (trace (handleMultipleImageUpload w c))) = []
  /\ currentBarcodeForUpload (after c (trace (handleMultipleImageUpload w c))) = None.
Proof.
  unfold can_submit. intros H Hb.
  apply andb_prop in H. destruct H as [H Hn]. apply andb_prop in H. destruct H as [Hs Hm].
  apply negb_true_iff in Hs, Hn.
  unfold handleMultipleImageUpload. rewrite Hn, Hb, Hs, Hm. cbn [negb orb andb].
  unfold finally.
  destruct (try_catch _ _) as [t o]. cbn.
  unfold after. cbn [fold_left]. rewrite fold_left_app. cbn. split; reflexivity.
Qed.

(** C5, at the failing input.  Four photos are submitted for the barcode
    0001 and the Extractor cannot be reached.  Nothing is written to the
    catalog; but the dialog, still open, has lost the photos and the
    barcode, and a second submission of the same photos in it is refused
    with "No barcode associated with this upload". *)
Theorem C5_failed_submission_cannot_be_retried :
  count is_catalog_write
        (trace (handleMultipleImageUpload
                  (Scenario.world Scenario.net_extractor_down S3Sent (Scenario.days 8))
                  Scenario.dialog)) = 0%nat
  /\ after Scenario.dialog
           (trace (handleMultipleImageUpload
                     (Scenario.world Scenario.net_extractor_down S3Sent (Scenario.days 8))
                     Scenario.dialog))
     = {| token := Some "token"; isScanning := false; showUploadModal := true;
          uploadedImages := []; currentBarcodeForUpload := None |}
  /\ uploadedImages
       (Scenario.pick_again
          (after Scenario.dialog
                 (trace (handleMultipleImageUpload
                           (Scenario.world Scenario.net_extractor_down S3Sent
                                           (Scenario.days 8))
                           Scenario.dialog))))
     = Scenario.four_photos
  /\ handleMultipleImageUpload
       (Scenario.world Scenario.net_extractor_up S3Sent (Scenario.days 8))
       (Scenario.pick_again
          (after Scenario.dialog
                 (trace (handleMultipleImageUpload
                           (Scenario.world Scenario.net_extractor_down S3Sent
                                           (Scenario.days 8))
                           Scenario.dialog))))
     = ([ShowToast no_barcode], inr tt).
Proof. vm_compute. repeat split. Qed.

End Properties.

(* ================================================================== *)
(** * Further properties of the code *)

Module More.
Import Api S3upload ScanTab Observe ScanInput Cases Properties.

(** ** The API client *)

Lemma api_error_text_truthy (s : string) : truthy (JStr ("API error: " ++ s)) = true.
Proof. reflexivity. Qed.

Lemma handleApiError_data response :
  truthy (error (handleApiError response)) = true
  /\ data (handleApiError response) = JUndefined.
Proof.
  unfold handleApiError.
  destruct (json response) as [e | d]; [split; reflexivity | ].
  destruct (nullish d); [split; reflexivity | ].
  cbn [error data error_response]. split; [ | reflexivity].
  unfold or.
  destruct (truthy (if truthy (prop d "message") then prop d "message"
                    else prop d "error")) eqn:E; [exact E | reflexivity].
Qed.

Lemma or_default_truthy a b : truthy b = true -> truthy (or a b) = true.
Proof. intros H. unfold or. destruct (truthy a) eqn:E; [exact E | exact H]. Qed.

(** An HTTP failure always becomes an error response that callers can test:
    its error is truthy, whatever the body of the failure holds (no JSON,
    [null], no message), it has no data and it keeps the status of the
    failure.  A message in the body is preferred to an error field. *)
Theorem handleApiError_is_always_an_error response :
  truthy (error (handleApiError response)) = true
  /\ data (handleApiError response) = JUndefined
  /\ http_status (handleApiError response) = res_status response
  /\ (forall d, json response = inr d -> nullish d = false ->
      truthy (prop d "message") = true ->
      error (handleApiError response) = prop d "message").
Proof.
  unfold handleApiError.
  destruct (json response) as [e | d]; [repeat split; intros; discriminate | ].
  destruct (nullish d) eqn:N.
  - repeat split. intros d' H. injection H as <-. congruence.
  - cbn [error data http_status error_response]. repeat split.
    + unfold or.
      destruct (truthy (if truthy (prop d "message") then prop d "message"
                        else prop d "error")) eqn:E; [exact E | reflexivity].
    + intros d' H _ T. injection H as <-. unfold or. rewrite T, T. reflexivity.
Qed.

(** [apiFetch] sends exactly one request and never throws.  A response with
    a success status and a JSON body is returned as data with that status
    and no error; an HTTP failure is returned by [handleApiError]; a request
    that fails on the network, or a success whose body is not JSON, is
    returned with status 0 and no data. *)
Theorem apiFetch_never_throws w req :
  exists r,
    apiFetch w req = ([Fetch req], inr r)
    /\ (forall response d,
          fetch w req = Resolved response -> ok response = true ->
          json response = inr d ->
          r = ok_response d (res_status response))
    /\ (forall response,
          fetch w req = Resolved response -> ok response = false ->
          r = handleApiError response)
    /\ (upstream_error (fetch w req) = true ->
        (exists response, fetch w req = Resolved response /\ ok response = false)
        \/ (http_status r = 0 /\ data r = JUndefined)).
Proof.
  unfold apiFetch, upstream_error. destruct (fetch w req) as [e | response]; cbn.
  - eexists. split; [reflexivity | ]. repeat split; try discriminate. auto.
  - destruct (ok response) eqn:O; cbn.
    + destruct (json response) as [e | d] eqn:J; cbn;
        (eexists; split; [reflexivity | ]); repeat split; try discriminate.
      * intros r' d' H _ H'. injection H as <-. congruence.
      * intros r' H. injection H as <-. congruence.
      * auto.
      * intros r' d' H _ H'. injection H as <-. congruence.
      * intros r' H. injection H as <-. congruence.
    + eexists. split; [reflexivity | ]. repeat split.
      * intros r' d' H H'. injection H as <-. congruence.
      * intros r' H _. injection H as <-. reflexivity.
      * intros _. left. eauto.
Qed.

(** Without a key for the model, neither the Classifier nor the Extractor
    sends a request: each shows "API Key Missing" and returns the error
    "Gemini API key is not configured" with status 0. *)
Theorem gemini_without_key_sends_nothing w :
  GEMINI_API_KEY w = "" ->
  (forall productData,
      geminiApi.checkGlutenStatus w productData
      = ([Call (geminiApi_checkGlutenStatus productData);
          ShowToast geminiApi.api_key_missing],
         inr (error_response (JStr "Gemini API key is not configured") 0)))
  /\ (forall images prompt,
         geminiApi.generateProductInfo w images prompt
         = ([Call (geminiApi_generateProductInfo images prompt);
             ShowToast geminiApi.api_key_missing],
            inr (error_response (JStr "Gemini API key is not configured") 0))).
Proof.
  intros K. split; intros;
    [unfold geminiApi.checkGlutenStatus | unfold geminiApi.generateProductInfo];
    rewrite K; reflexivity.
Qed.

Lemma gemini_without_key_sends_nothing_witness :
  count is_fetch
        (trace (geminiApi.checkGlutenStatus
                  (Scenario2.world_without_key Scenario.net_prose) Scenario.granola_check))
  = 0%nat.
Proof.
  rewrite (proj1 (@gemini_without_key_sends_nothing
                    (Scenario2.world_without_key Scenario.net_prose) eq_refl)).
  reflexivity.
Defined.

(** ** Sessions *)

(** A login, a registration or a lookup of the current user that returns
    data returns no error with it, and the data is usable: a truthy token
    for login and registration, a truthy user for the lookup. *)
Theorem session_data_is_usable w o token :
  (data (authApi.login w o) <> JUndefined ->
   error (authApi.login w o) = JUndefined
   /\ truthy (prop (data (authApi.login w o)) "token") = true)
  /\ (data (authApi.register w o) <> JUndefined ->
      error (authApi.register w o) = JUndefined
      /\ truthy (prop (data (authApi.register w o)) "token") = true)
  /\ (data (authApi.getCurrentUser token o) <> JUndefined ->
      error (authApi.getCurrentUser token o) = JUndefined
      /\ truthy (data (authApi.getCurrentUser token o)) = true).
Proof.
  pose proof handleApiError_data as HE.
  unfold authApi.login, authApi.register, authApi.getCurrentUser.
  split; [ | split].
  - destruct o as [e | response]; [cbn; congruence | ].
    destruct (ok response); cbn [negb];
      [ | intros H; destruct (HE response) as (_ & D); congruence].
    destruct (json response) as [e | d]; [cbn; congruence | ].
    destruct (nullish d); [cbn; congruence | ].
    destruct (truthy (prop d "token")) eqn:T; cbn [negb]; [ | cbn; congruence].
    intros _. split; [reflexivity | ].
    cbn [data ok_response]. unfold prop at 1. cbn [lookup String.eqb Ascii.eqb Bool.eqb].
    destruct (prop d "user"); destruct (prop d "token"); try discriminate T; exact T.
  - destruct o as [e | response]; [cbn; congruence | ].
    destruct (ok response); cbn [negb];
      [ | intros H; destruct (HE response) as (_ & D); congruence].
    destruct (json response) as [e | d]; [cbn; congruence | ].
    destruct (nullish d) eqn:N; [cbn; congruence | ].
    destruct (truthy (prop d "_id")).
    { intros _. split; [reflexivity | ].
      cbn [data ok_response]. unfold prop at 1.
      cbn [lookup String.eqb Ascii.eqb Bool.eqb].
      destruct d; try discriminate N; reflexivity. }
    destruct (truthy (prop d "token")) eqn:T; [ | cbn; congruence].
    intros _. split; [reflexivity | ].
    cbn [data ok_response]. unfold prop at 1. cbn [lookup String.eqb Ascii.eqb Bool.eqb].
    destruct (or (prop d "user") d); destruct (prop d "token"); try discriminate T; exact T.
  - destruct (token =? "")%string; [cbn; congruence | ].
    destruct o as [e | response]; [cbn; congruence | ].
    destruct (ok response); cbn [negb]; [ | cbn; congruence].
    destruct (json response) as [e | d]; [cbn; congruence | ].
    destruct (truthy d) eqn:T; cbn [negb]; [ | cbn; congruence].
    intros _. split; [reflexivity | exact T].
Qed.

(** ** Recording a scan *)

Arguments failed_to_record : simpl never.
Arguments fetchProductFromOpenFoodFacts : simpl never.

(** What [createScanApi] throws carries no barcode or the barcode of the
    scan, so the barcode the error handler works with is that of the scan. *)
Lemma createScanApi_thrown w c scanData e :
  outcome (createScanApi w c scanData) = inl e ->
  (thrown_barcode e = None \/ thrown_barcode e = Some (productBarcode scanData))
  /\ (isProductNotFound e = false ->
      trace (createScanApi w c scanData) = []
      \/ trace (createScanApi w c scanData)
         = [Call (scanApi_recordScan scanData (or_empty (token c)));
            Fetch (POST_api_scans scanData (or_empty (token c)))]).
Proof.
  unfold createScanApi. destruct (negb (present (token c))).
  - cbn. intros H. injection H as <-. cbn. auto.
  - destruct (recordScan_run w scanData (or_empty (token c))) as (r & R). rewrite R. cbn.
    destruct (truthy (error r)); [ | discriminate].
    destruct (http_status r =? 404); cbn; intros H; injection H as <-; cbn; auto.
Qed.

Lemma current_barcode e scanData :
  thrown_barcode e = None \/ thrown_barcode e = Some (productBarcode scanData) ->
  (if present (thrown_barcode e) then or_empty (thrown_barcode e)
   else productBarcode scanData) = productBarcode scanData.
Proof.
  intros [-> | ->]; [reflexivity | ]. cbn.
  destruct (productBarcode scanData =? "")%string; reflexivity.
Qed.

(** A scan that fails for another reason than a product missing from the
    local catalog (no token, the catalog out of order, the network down)
    goes no further: the external catalog is not asked, the upload dialog is
    not opened, "Failed to Record Scan" is shown with the barcode of the
    scan and the screen stops scanning. *)
Theorem scan_failure_other_than_not_found_stops w c scanData e :
  outcome (createScanApi w c scanData) = inl e ->
  isProductNotFound e = false ->
  outcome (recordScan w c scanData) = inl e
  /\ count is_off_lookup (trace (recordScan w c scanData)) = 0%nat
  /\ count opens_upload_dialog (trace (recordScan w c scanData)) = 0%nat
  /\ count is_catalog_write (trace (recordScan w c scanData)) = 0%nat
  /\ In (ShowToast (failed_to_record w e (productBarcode scanData)))
        (trace (recordScan w c scanData))
  /\ isScanning (after c (trace (recordScan w c scanData))) = false.
Proof.
  intros He Hn. destruct (createScanApi_thrown w c scanData He) as (Hb & Ht).
  specialize (Ht Hn). unfold recordScan.
  destruct (createScanApi w c scanData) as [t o]. cbn in He, Ht. subst o.
  cbn [bind try_catch]. unfold onError. rewrite Hn, (current_barcode e scanData Hb). cbn.
  destruct Ht as [-> | ->]; cbn; repeat split; auto 6.
Qed.

(** The theorem at a local catalog that answers 500. *)
Lemma scan_failure_other_than_not_found_stops_witness :
  count is_off_lookup
        (trace (recordScan (Scenario.world Scenario2.net_scans_broken S3Sent
                                           (Scenario.days 8))
                           Scenario.idle Scenario.scan_0001)) = 0%nat.
Proof.
  refine (proj1 (proj2 (@scan_failure_other_than_not_found_stops
                          (Scenario.world Scenario2.net_scans_broken S3Sent
                                          (Scenario.days 8))
                          Scenario.idle Scenario.scan_0001
                          {| instanceofError := true;
                             message := JStr "Internal Server Error";
                             isProductNotFound := false;
                             thrown_barcode := Some "0001" |}
                          _ _)));
    reflexivity.
Defined.

(** A scan that the catalog answers with a success whose body is [null] is
    shown as failed: [onSuccess] throws on reading the barcode of the body
    before it shows anything, the mutation runs its error handler, which
    shows "Failed to Record Scan" with the message of the [TypeError] and
    the barcode of the scan and stops the scanning indicator, and the
    mutation rejects.  The check is not started. *)
Theorem null_body_is_shown_as_a_failed_scan w c scanData body :
  outcome (createScanApi w c scanData) = inr body ->
  nullish body = true ->
  outcome (recordScan w c scanData) = inl (TypeError w "productBarcode")
  /\ trace (recordScan w c scanData)
     = [Call (scanApi_recordScan scanData (or_empty (token c)));
        Fetch (POST_api_scans scanData (or_empty (token c)));
        ShowToast (failed_to_record w (TypeError w "productBarcode")
                                    (productBarcode scanData));
        SetIsScanning false]
  /\ count (is_toast_titled "Scan Recorded!") (trace (recordScan w c scanData)) = 0%nat
  /\ count is_classifier_call (trace (recordScan w c scanData)) = 0%nat.
Proof.
  unfold recordScan, createScanApi.
  destruct (negb (present (token c))); [discriminate | ].
  destruct (recordScan_run w scanData (or_empty (token c))) as (r & R). rewrite R. cbn.
  destruct (truthy (error r)); [destruct (http_status r =? 404); discriminate | ].
  cbn. intros H. injection H as ->. intros Hn.
  unfold as_ScanType. rewrite Hn. cbn. repeat split.
Qed.

Lemma null_body_is_shown_as_a_failed_scan_witness :
  count (is_toast_titled "Failed to Record Scan")
        (trace (recordScan (Scenario.world Scenario2.net_scan_null S3Sent (Scenario.days 8))
                           Scenario.idle Scenario.scan_0001)) = 1%nat.
Proof.
  rewrite (proj1 (proj2 (@null_body_is_shown_as_a_failed_scan
                           (Scenario.world Scenario2.net_scan_null S3Sent (Scenario.days 8))
                           Scenario.idle Scenario.scan_0001 JNull eq_refl eq_refl))).
  reflexivity.
Defined.

(** [createScanApi] throws the error that starts the cascade only when a
    token is there and the local catalog answers the scan with 404. *)
Theorem not_found_is_a_404_of_the_local_catalog w c scanData e :
  outcome (createScanApi w c scanData) = inl e ->
  isProductNotFound e = true ->
  present (token c) = true
  /\ exists r,
      outcome (scanApi.recordScan w scanData (or_empty (token c))) = inr r
      /\ truthy (error r) = true /\ http_status r = 404
      /\ message e = JStr (str w (error r))
      /\ thrown_barcode e = Some (productBarcode scanData).
Proof.
  unfold createScanApi. destruct (present (token c)); cbn [negb].
  - destruct (recordScan_run w scanData (or_empty (token c))) as (r & R). rewrite R. cbn.
    destruct (truthy (error r)) eqn:E; [ | discriminate].
    destruct (http_status r =? 404) eqn:S; cbn; intros H; injection H as <-; cbn;
      [ | discriminate].
    intros _. split; [reflexivity | ]. exists r. apply Z.eqb_eq in S. repeat split; auto.
  - cbn. intros H. injection H as <-. discriminate.
Qed.

Lemma not_found_is_a_404_of_the_local_catalog_witness :
  present (token Scenario.idle) = true.
Proof.
  refine (proj1 (@not_found_is_a_404_of_the_local_catalog
                   (Scenario.world Scenario2.net_nowhere S3Sent (Scenario.days 8))
                   Scenario.idle Scenario.scan_0001
                   {| instanceofError := true; message := JStr "Product not found";
                      isProductNotFound := true; thrown_barcode := Some "0001" |}
                   _ _));
    reflexivity.
Defined.

(** ** The cascade *)

(** The resolver never throws.  It asks the external catalog once, creates
    at most one product, creates none without an auth token, and answers
    success only when it asked the local catalog to create one. *)
Theorem resolver_answers_and_creates_at_most_once w barcode authToken :
  exists res,
    outcome (fetchProductFromOpenFoodFacts w barcode authToken) = inr res
    /\ count is_off_lookup (trace (fetchProductFromOpenFoodFacts w barcode authToken))
       = 1%nat
    /\ (count is_product_create (trace (fetchProductFromOpenFoodFacts w barcode authToken))
        <= 1)%nat
    /\ (present authToken = false ->
        count is_product_create (trace (fetchProductFromOpenFoodFacts w barcode authToken))
        = 0%nat /\ success res = false)
    /\ (success res = true ->
        count is_product_create (trace (fetchProductFromOpenFoodFacts w barcode authToken))
        = 1%nat).
Proof.
  unfold fetchProductFromOpenFoodFacts.
  destruct (getProduct_run w barcode) as (r & G). rewrite G. cbn.
  destruct (truthy (error r)); cbn;
    [destruct (http_status r =? 404); cbn; eexists; repeat split; auto; discriminate | ].
  destruct (get w (data r) "status") as [e | st]; cbn;
    [eexists; repeat split; auto; discriminate | ].
  destruct (is_zero st || negb (truthy (prop (data r) "product"))); cbn;
    [eexists; repeat split; auto; discriminate | ].
  destruct (present authToken) eqn:P; cbn;
    [ | eexists; repeat split; auto; discriminate].
  destruct (createProduct_run w (productPayload barcode (prop (data r) "product"))
                              (or_empty authToken)) as (u & C).
  rewrite C. cbn. destruct (truthy (error u)); cbn;
    eexists; repeat split; auto; discriminate.
Qed.

(** When neither catalog has the product, the screen turns to the user: it
    sets the barcode for the upload, empties the images collected, opens
    the upload dialog, asks for images and stops scanning.  Nothing is
    created and no scan is recorded. *)
Theorem not_found_anywhere_opens_the_upload_dialog w c e variables barcode r :
  isProductNotFound e = true ->
  thrown_barcode e = Some barcode ->
  barcode <> "" ->
  lookup_not_found w barcode r ->
  trace (onError w c e variables)
  = [SetIsScanning true;
     ShowToast (searching_off barcode);
     Call (openFoodFactsApi_getProduct barcode);
     Fetch (GET_off_product barcode);
     SetCurrentBarcodeForUpload (Some barcode);
     SetUploadedImages [];
     SetShowUploadModal true;
     ShowToast not_on_off;
     SetIsScanning false]
  /\ after c (trace (onError w c e variables))
     = {| token := token c; isScanning := false; showUploadModal := true;
          uploadedImages := []; currentBarcodeForUpload := Some barcode |}.
Proof.
  intros Hnf Hb Hbc (Hr & H).
  destruct (getProduct_run w barcode) as (r' & G).
  rewrite G in Hr. cbn in Hr. injection Hr as ->.
  assert (F : fetchProductFromOpenFoodFacts w barcode (token c)
              = ([Call (openFoodFactsApi_getProduct barcode);
                  Fetch (GET_off_product barcode)],
                 inr (off_failure "OFF_NOT_FOUND" JUndefined))).
  { unfold fetchProductFromOpenFoodFacts. rewrite G. cbn.
    destruct H as [(E & S) | (E & st & Hst & Z)]; rewrite E; cbn.
    - rewrite S. reflexivity.
    - rewrite Hst. cbn. rewrite Z. reflexivity. }
  assert (T : trace (onError w c e variables)
              = [SetIsScanning true;
                 ShowToast (searching_off barcode);
                 Call (openFoodFactsApi_getProduct barcode);
                 Fetch (GET_off_product barcode);
                 SetCurrentBarcodeForUpload (Some barcode);
                 SetUploadedImages [];
                 SetShowUploadModal true;
                 ShowToast not_on_off;
                 SetIsScanning false]).
  { unfold onError. rewrite Hnf, Hb. cbn [present or_empty].
    rewrite (not_empty Hbc). cbn [negb andb]. rewrite (not_empty Hbc). cbn [negb].
    rewrite F. reflexivity. }
  split; [exact T | rewrite T; reflexivity].
Qed.

(** The theorem at a product that neither catalog has. *)
Lemma not_found_anywhere_opens_the_upload_dialog_witness :
  showUploadModal
    (after Scenario.idle
           (trace (onError (Scenario.world Scenario2.net_nowhere S3Sent (Scenario.days 8))
                           Scenario.idle Scenario.not_found_0001 Scenario.scan_0001)))
  = true.
Proof.
  rewrite (proj2 (@not_found_anywhere_opens_the_upload_dialog
                    (Scenario.world Scenario2.net_nowhere S3Sent (Scenario.days 8))
                    Scenario.idle Scenario.not_found_0001 Scenario.scan_0001 "0001"
                    (error_response (JStr "API error: 404") 404)
                    eq_refl eq_refl ltac:(discriminate)
                    (conj eq_refl (or_introl (conj eq_refl eq_refl))))).
  reflexivity.
Defined.

(** When the external catalog has the product and the local catalog stores
    it, the screen announces "Product Added!" and scans the same barcode
    again, once; the upload dialog stays closed. *)
Theorem found_and_stored_is_scanned_again w c e variables barcode tok r u :
  isProductNotFound e = true ->
  thrown_barcode e = Some barcode ->
  barcode <> "" ->
  token c = Some tok ->
  tok <> "" ->
  lookup_found w barcode r ->
  outcome (productApi.createProduct w (productPayload barcode (prop (data r) "product")) tok)
  = inr u ->
  truthy (error u) = false ->
  trace (onError w c e variables)
  = [SetIsScanning true;
     ShowToast (searching_off barcode);
     Call (openFoodFactsApi_getProduct barcode);
     Fetch (GET_off_product barcode);
     Call (productApi_createProduct (productPayload barcode (prop (data r) "product")) tok);
     Fetch (POST_api_products (productPayload barcode (prop (data r) "product")) tok);
     ShowToast product_added;
     SetIsScanning true;
     Mutate {| productBarcode := barcode; date := now w; symptoms := [] |}]
  /\ count is_mutate (trace (onError w c e variables)) = 1%nat
  /\ count opens_upload_dialog (trace (onError w c e variables)) = 0%nat.
Proof.
  intros Hnf Hb Hbc Htok Htk Hf Hu Heu.
  destruct (found_is_created Hf Htk) as (u' & Hu' & F).
  rewrite Hu in Hu'. injection Hu' as <-.
  unfold creation_result in F. rewrite Heu in F.
  assert (T : trace (onError w c e variables)
              = [SetIsScanning true;
                 ShowToast (searching_off barcode);
                 Call (openFoodFactsApi_getProduct barcode);
                 Fetch (GET_off_product barcode);
                 Call (productApi_createProduct
                         (productPayload barcode (prop (data r) "product")) tok);
                 Fetch (POST_api_products
                          (productPayload barcode (prop (data r) "product")) tok);
                 ShowToast product_added;
                 SetIsScanning true;
                 Mutate {| productBarcode := barcode; date := now w; symptoms := [] |}]).
  { unfold onError. rewrite Hnf, Hb, Htok. cbn [present or_empty].
    rewrite (not_empty Hbc). cbn [negb andb]. rewrite (not_empty Hbc). cbn [negb].
    rewrite F. reflexivity. }
  split; [exact T | rewrite T; split; reflexivity].
Qed.

(** The theorem at the granola bar that the external catalog has. *)
Lemma found_and_stored_is_scanned_again_witness :
  count is_mutate
        (trace (onError (Scenario.world Scenario.net_found S3Sent (Scenario.days 8))
                        Scenario.idle Scenario.not_found_0001 Scenario.scan_0001))
  = 1%nat.
Proof.
  refine (proj1 (proj2 (@found_and_stored_is_scanned_again
            (Scenario.world Scenario.net_found S3Sent (Scenario.days 8))
            Scenario.idle Scenario.not_found_0001 Scenario.scan_0001 "0001" "token"
            (ok_response (JObj [("status", JNum {| mant := 1; exp10 := 0 |});
                                ("product", Scenario.off_granola)]) 200)
            (ok_response (productPayload "0001" Scenario.off_granola) 201)
            _ _ _ _ _ _ _ _)));
    try reflexivity; try discriminate.
  repeat split; try reflexivity.
  exists (JNum {| mant := 1; exp10 := 0 |}). split; reflexivity.
Defined.

(** ** The staleness check, further *)

(** When the Classifier confirms the stored label of a stale product, the
    check writes nothing and shows nothing: the stored status is returned
    as it is, so the product stays stale and is classified again at the next
    scan. *)
Theorem confirmed_label_writes_nothing w product authToken st r :
  createdAt product <> "" ->
  product_status product = Some st ->
  is_recent w (createdAt product) = false ->
  outcome (geminiApi.checkGlutenStatus w (check_input product)) = inr r ->
  classified r = true ->
  differs (prop (data r) "glutenFreeStatus") (Some (status st)) = false ->
  trace (checkAndProcessGlutenStatus w product authToken)
  = trace (geminiApi.checkGlutenStatus w (check_input product))
  /\ count is_status_write (trace (checkAndProcessGlutenStatus w product authToken)) = 0%nat
  /\ outcome (checkAndProcessGlutenStatus w product authToken)
     = inr (status_value product).
Proof.
  intros Hc Hs Hrec Hr Hcl Hd. unfold classified in Hcl. unfold check_input in *.
  apply andb_prop in Hcl. destruct Hcl as [Hcl C3].
  apply andb_prop in Hcl. destruct Hcl as [C1 C2]. apply negb_true_iff in C1.
  unfold checkAndProcessGlutenStatus. rewrite (not_empty Hc), Hrec.
  unfold stored_label in *. unfold status_value. rewrite Hs in *.
  cbn [truthy Status_object negb orb option_map] in *.
  destruct (checkGlutenStatus_run w
              {| productName := name product; check_ingredients := ingredients product;
                 currentStatus := Some (status st) |}) as (t & r' & E & Ht).
  rewrite E in Hr. cbn in Hr. injection Hr as ->.
  cbv zeta. rewrite E. cbn. rewrite C1, C2, C3, Hd. cbn. rewrite app_nil_r.
  destruct Ht as [-> | ->]; repeat split.
Qed.

(** The theorem at the granola bar whose label the model confirms. *)
Lemma confirmed_label_writes_nothing_witness :
  count is_status_write
        (trace (checkAndProcessGlutenStatus
                  (Scenario.world Scenario2.net_confirms S3Sent (Scenario.days 8))
                  Scenario.granola (Some "token"))) = 0%nat.
Proof.
  refine (proj1 (proj2 (@confirmed_label_writes_nothing
            (Scenario.world Scenario2.net_confirms S3Sent (Scenario.days 8))
            Scenario.granola (Some "token")
            {| status := "gluten-free"; explanation := Some "Certified oats" |}
            (ok_response (JObj [("success", JBool true);
                                ("glutenFreeStatus", JStr "gluten-free");
                                ("explanation", JStr "oats only")]) 200)
            _ _ _ _ _ _)));
    try reflexivity; discriminate.
Defined.

(** A product whose date cannot be read is taken as stale: the comparison
    with an invalid date is false, and the Classifier is called. *)
Theorem unreadable_date_is_stale w product authToken st :
  createdAt product <> "" ->
  product_status product = Some st ->
  Date_parse w (createdAt product) = None ->
  count is_classifier_call (trace (checkAndProcessGlutenStatus w product authToken))
  = 1%nat.
Proof.
  intros Hc Hs Hd. unfold checkAndProcessGlutenStatus.
  unfold is_recent. rewrite (not_empty Hc), Hd.
  unfold status_value. rewrite Hs. cbn [truthy Status_object negb orb].
  destruct (checkGlutenStatus_run w (check_input product)) as (tr & r & E & Ht).
  unfold check_input in E. cbv zeta. rewrite E.
  destruct (updateProductStatus_run w (barcode product)
              (JObj [("status", prop (data r) "glutenFreeStatus");
                     ("explanation", or (prop (data r) "explanation") (JStr ""))])
              (or_empty authToken)) as (u & U).
  destruct Ht as [-> | ->]; branches; rewrite ?U; branches; reflexivity.
Qed.

Lemma unreadable_date_is_stale_witness :
  count is_classifier_call
        (trace (checkAndProcessGlutenStatus
                  (Scenario.world Scenario.net_prose S3Sent (Scenario.days 1))
                  Scenario2.undated None)) = 1%nat.
Proof.
  apply (@unreadable_date_is_stale
           (Scenario.world Scenario.net_prose S3Sent (Scenario.days 1))
           Scenario2.undated None
           {| status := "contains-gluten"; explanation := None |});
    [discriminate | reflexivity | reflexivity].
Defined.

(** The check writes to the catalog at most once, only after it called the
    Classifier, and never without an auth token. *)
Theorem check_writes_at_most_once w product authToken :
  (count is_status_write (trace (checkAndProcessGlutenStatus w product authToken)) <= 1)%nat
  /\ count is_product_create (trace (checkAndProcessGlutenStatus w product authToken))
     = 0%nat
  /\ (count is_status_write (trace (checkAndProcessGlutenStatus w product authToken))
      <= count is_classifier_call
               (trace (checkAndProcessGlutenStatus w product authToken)))%nat
  /\ (present authToken = false ->
      count is_status_write (trace (checkAndProcessGlutenStatus w product authToken))
      = 0%nat).
Proof.
  unfold checkAndProcessGlutenStatus.
  destruct ((createdAt product =? "")%string || negb (truthy (status_value product)));
    [cbn; repeat split; auto | ].
  destruct (is_recent w (createdAt product)); [cbn; repeat split; auto | ].
  destruct (checkGlutenStatus_run w (check_input product)) as (t & r & E & Ht).
  unfold check_input in *. cbv zeta. rewrite E.
  destruct (updateProductStatus_run w (barcode product)
              (JObj [("status", prop (data r) "glutenFreeStatus");
                     ("explanation", or (prop (data r) "explanation") (JStr ""))])
              (or_empty authToken)) as (u & U).
  destruct (present authToken) eqn:P;
    (destruct Ht as [-> | ->]; branches; rewrite ?U; branches;
     repeat split; try (intros X; discriminate X); try reflexivity;
     unfold count; cbn; lia).
Qed.

(** What the check writes is what the Classifier said: the status goes to
    the product that was checked, with the token given, and holds the label
    the Classifier returned and its explanation, or the empty text. *)
Theorem written_status_is_the_classifiers w product authToken b payload tok :
  In (Call (statusApi_updateProductStatus b payload tok))
     (trace (checkAndProcessGlutenStatus w product authToken)) ->
  exists r,
    outcome (geminiApi.checkGlutenStatus w (check_input product)) = inr r
    /\ classified r = true
    /\ b = barcode product
    /\ authToken = Some tok
    /\ payload = JObj [("status", prop (data r) "glutenFreeStatus");
                       ("explanation", or (prop (data r) "explanation") (JStr ""))]
    /\ differs (prop (data r) "glutenFreeStatus") (stored_label product) = true.
Proof.
  unfold checkAndProcessGlutenStatus.
  destruct ((createdAt product =? "")%string || negb (truthy (status_value product)));
    [cbn; tauto | ].
  destruct (is_recent w (createdAt product)); [cbn; tauto | ].
  destruct (checkGlutenStatus_run w (check_input product)) as (t & r & E & Ht).
  unfold check_input in *. cbv zeta. rewrite E.
  destruct (updateProductStatus_run w (barcode product)
              (JObj [("status", prop (data r) "glutenFreeStatus");
                     ("explanation", or (prop (data r) "explanation") (JStr ""))])
              (or_empty authToken)) as (u & U).
  unfold classified.
  destruct authToken as [tk | ]; cbn [or_empty] in U;
    (destruct Ht as [-> | ->]; branches; rewrite ?U; branches;
     intros H; cbn in H;
     repeat match goal with
            | H : _ \/ _ |- _ => destruct H as [H | H]
            | H : False |- _ => destruct H
            | H : Call _ = Call _ |- _ => injection H as ? ? ?
            | H : _ = Call _ |- _ => discriminate H
            end;
     subst; exists r;
     repeat match goal with H : ?x = _ |- context [?x] => rewrite H end;
     cbn; repeat split; try reflexivity; try assumption;
     match goal with
     | H : negb ?a || negb ?b = false |- _ =>
         apply orb_false_elim in H; destruct H as [A B];
         apply negb_false_iff in A, B; rewrite A, B; reflexivity
     end).
Qed.

Lemma written_status_is_the_classifiers_witness :
  exists r,
    outcome (geminiApi.checkGlutenStatus
               (Scenario.world Scenario.net_verdict S3Sent (Scenario.days 8))
               (check_input Scenario.granola)) = inr r
    /\ classified r = true.
Proof.
  destruct (@written_status_is_the_classifiers
              (Scenario.world Scenario.net_verdict S3Sent (Scenario.days 8))
              Scenario.granola (Some "token") "0001" Scenario.verdict_payload "token")
    as (r & H1 & H2 & _).
  - vm_compute. auto 6.
  - exists r. split; assumption.
Defined.

(** A recorded scan whose response holds no product, or a product without
    date or status, or with ingredients that are not a text (a list, say),
    is not checked, however old the product: the success is shown, the
    queries are invalidated, and the Classifier is not called. *)
Theorem incomplete_product_is_not_checked w c d :
  nothing_to_check d = true ->
  trace (onSuccess w c d)
  = [ShowToast (scan_recorded d);
     SetIsScanning false;
     InvalidateQueries ["recentScans"];
     InvalidateQueries ["currentUser"];
     InvalidateQueries ["product"; scan_productBarcode d]]
  /\ count is_classifier_call (trace (onSuccess w c d)) = 0%nat.
Proof.
  unfold nothing_to_check, onSuccess.
  destruct (scan_product d) as [p | ]; [ | intros _; cbn; split; reflexivity].
  destruct (sp_ingredients p), (sp_status p); intros H; try rewrite H;
    cbn; split; reflexivity.
Qed.

Lemma incomplete_product_is_not_checked_witness :
  count is_classifier_call
        (trace (onSuccess (Scenario.world Scenario.net_prose S3Sent (Scenario.days 8))
                          Scenario.idle Scenario2.scan_with_listed_ingredients)) = 0%nat.
Proof.
  apply (@incomplete_product_is_not_checked
           (Scenario.world Scenario.net_prose S3Sent (Scenario.days 8))
           Scenario.idle Scenario2.scan_with_listed_ingredients).
  reflexivity.
Defined.

(** ** Community sourcing, further *)

(** With enough images but no barcode for the upload, the submission does
    nothing but say so; and when one of the images cannot be read, the
    Extractor is not called, nothing is uploaded and nothing is created. *)
Theorem submission_needs_a_barcode_and_readable_images w c :
  Nat.ltb (length (uploadedImages c)) 4 = false ->
  (present (currentBarcodeForUpload c) = false ->
   handleMultipleImageUpload w c = ([ShowToast no_barcode], inr tt))
  /\ (present (currentBarcodeForUpload c) = true ->
      forall e, all_fileToBase64 (uploadedImages c) = inl e ->
      count is_extractor_call (trace (handleMultipleImageUpload w c)) = 0%nat
      /\ count is_objectstore_call (trace (handleMultipleImageUpload w c)) = 0%nat
      /\ count is_catalog_write (trace (handleMultipleImageUpload w c)) = 0%nat
      /\ In (ShowToast (creation_failed e)) (trace (handleMultipleImageUpload w c))).
Proof.
  intros Hn. unfold handleMultipleImageUpload. rewrite Hn. split; intros Hb.
  - rewrite Hb. reflexivity.
  - intros e He. rewrite Hb, He. cbn [negb].
    destruct (negb (showUploadModal c) || showUploadModal c && negb (isScanning c));
      cbn; repeat split; auto.
Qed.

Lemma submission_needs_a_barcode_and_readable_images_witness :
  count is_extractor_call
        (trace (handleMultipleImageUpload
                  (Scenario.world Scenario.net_extractor_up S3Sent (Scenario.days 8))
                  Scenario2.dialog_unreadable)) = 0%nat.
Proof.
  refine (proj1 (proj2 (@submission_needs_a_barcode_and_readable_images
                          (Scenario.world Scenario.net_extractor_up S3Sent (Scenario.days 8))
                          Scenario2.dialog_unreadable eq_refl)
                       eq_refl reader_error eq_refl)).
Defined.

(** A submission made signed out is refused only at the end: the Extractor
    has been called and the first image uploaded when "Authentication token
    not found." is thrown, so the image stays in the object store while no
    product is created and no scan recorded. *)
Theorem signed_out_submission_uploads_before_it_fails w c barcode urls f0 rest r ur :
  Nat.ltb (length (uploadedImages c)) 4 = false ->
  currentBarcodeForUpload c = Some barcode ->
  barcode <> "" ->
  uploadedImages c = f0 :: rest ->
  all_fileToBase64 (uploadedImages c) = inr urls ->
  outcome (geminiApi.generateProductInfo w urls (upload_prompt barcode)) = inr r ->
  extractor_succeeded r = true ->
  outcome (uploadFileToS3 w f0 ("products/" ++ barcode)) = inr ur ->
  present (s3_error ur) = false ->
  present (token c) = false ->
  count is_objectstore_call (trace (handleMultipleImageUpload w c)) = 1%nat
  /\ count is_catalog_write (trace (handleMultipleImageUpload w c)) = 0%nat
  /\ count is_mutate (trace (handleMultipleImageUpload w c)) = 0%nat
  /\ In (ShowToast (creation_failed (Error "Authentication token not found.")))
        (trace (handleMultipleImageUpload w c)).
Proof.
  intros Hn Hb Hbc Hf Hu Hr Hx Hur Hs Ht.
  destruct (@submission_counts w c barcode urls f0 rest r ur Hn Hb Hbc Hf Hu Hr Hur)
    as (_ & _ & H2 & _).
  rewrite Hx in H2. split; [exact H2 | ]. clear H2.
  unfold extractor_succeeded in Hx.
  apply andb_prop in Hx. destruct Hx as [Hx X3].
  apply andb_prop in Hx. destruct Hx as [X1 X2]. apply negb_true_iff in X1.
  unfold handleMultipleImageUpload, uploadImageToServer.
  rewrite Hn, Hb, Hu, Hf. cbn [present or_empty first_image].
  rewrite (not_empty Hbc). cbn [negb]. cbv zeta. cbn [lift bind emit]. cbv zeta.
  remember ("products/" ++ barcode) as prefix eqn:Hprefix.
  remember (upload_prompt barcode) as prompt eqn:Hprompt.
  destruct (generateProductInfo_run w urls prompt) as (t & r' & G & Qt).
  destruct (uploadFileToS3_run w f0 prefix) as (t' & ur' & S & Qt').
  rewrite G in Hr. cbn in Hr. injection Hr as ->.
  rewrite S in Hur. cbn in Hur. injection Hur as ->.
  destruct (quiet_counts t Qt) as (_ & _ & A3 & A4).
  destruct (quiet_counts t' Qt') as (_ & _ & B3 & B4).
  rewrite G. cbn. rewrite X1, X2, X3. cbn. rewrite S. cbn. rewrite Hs. cbn. rewrite Ht. cbn.
  destruct (negb (showUploadModal c) || showUploadModal c && negb (isScanning c));
    (split; [ | split ];
     [ repeat (rewrite count_cons || rewrite count_app); rewrite ?A3, ?B3; reflexivity
     | repeat (rewrite count_cons || rewrite count_app); rewrite ?A4, ?B4; reflexivity
     | cbn [In]; repeat (rewrite in_app_iff; cbn [In]); auto 20 ]).
Qed.

Lemma signed_out_submission_uploads_before_it_fails_witness :
  count is_objectstore_call
        (trace (handleMultipleImageUpload
                  (Scenario.world Scenario.net_extractor_up S3Sent (Scenario.days 8))
                  Scenario2.dialog_signed_out)) = 1%nat.
Proof.
  refine (proj1 (@signed_out_submission_uploads_before_it_fails
            (Scenario.world Scenario.net_extractor_up S3Sent (Scenario.days 8))
            Scenario2.dialog_signed_out "0001"
            ["data:image/jpeg;base64,front"; "data:image/jpeg;base64,back";
             "data:image/jpeg;base64,left"; "data:image/jpeg;base64,right"]
            (Scenario.photo "front")
            [Scenario.photo "back"; Scenario.photo "left"; Scenario.photo "right"]
            (ok_response
               (JObj [("success", JBool true);
                      ("product", JObj [("name", JStr "Granola Bar");
                                        ("ingredients", JStr "oats, honey")])])
               200)
            {| fileUrl := Some "https://bucket.s3.eu-west-1.amazonaws.com/products/0001/3f2c.jpg";
               s3_error := None; s3_status := 200 |}
            _ _ _ _ _ _ _ _ _ _));
    try reflexivity; discriminate.
Defined.

(** The images collected grow at the end and stop at 8: the images already
    there stay where they are, and once 8 are there adding changes nothing. *)
Theorem collected_images_are_kept_and_capped (prev files : list File) :
  (length prev <= 8)%nat ->
  firstn (length prev) (addImages prev files) = prev
  /\ (length (addImages prev files) = Nat.min 8 (length prev + length files))%nat
  /\ (length prev = 8%nat -> addImages prev files = prev).
Proof.
  intros H. unfold addImages. destruct files as [ | f files].
  - rewrite firstn_all. cbn [length]. repeat split; lia.
  - remember (f :: files) as fs.
    split; [ | split].
    + rewrite firstn_firstn. replace (Nat.min (length prev) 8) with (length prev) by lia.
      rewrite firstn_app, firstn_all, Nat.sub_diag. cbn. apply app_nil_r.
    + rewrite length_firstn, length_app. reflexivity.
    + intros E. rewrite <- E, firstn_app, firstn_all, Nat.sub_diag. cbn. apply app_nil_r.
Qed.

Lemma collected_images_are_kept_and_capped_witness :
  addImages (Scenario.four_photos ++ Scenario.four_photos) [Scenario2.big_photo]
  = (Scenario.four_photos ++ Scenario.four_photos)%list.
Proof.
  apply (@collected_images_are_kept_and_capped
           (Scenario.four_photos ++ Scenario.four_photos) [Scenario2.big_photo]);
    [cbn; lia | reflexivity].
Defined.

(** ** The answers of the model *)

(** When the Classifier returns data, the data is a success with a truthy
    label and a truthy explanation, the status is 200 and there is no
    error: an answer without label or explanation gets "unknown" and
    "Unable to determine". *)
Theorem classifier_data_is_labelled w productData r :
  outcome (geminiApi.checkGlutenStatus w productData) = inr r ->
  data r <> JUndefined ->
  error r = JUndefined
  /\ http_status r = 200
  /\ classified r = true
  /\ truthy (prop (data r) "explanation") = true.
Proof.
  unfold geminiApi.checkGlutenStatus.
  destruct (GEMINI_API_KEY w =? "")%string; cbn;
    [intros H; injection H as <-; cbn; congruence | ].
  destruct (fetch w _) as [e | resp]; cbn;
    [intros H; injection H as <-; cbn; congruence | ].
  destruct (ok resp); cbn;
    [ | intros H; injection H as <-; destruct (handleApiError_data resp); congruence].
  destruct (json resp) as [e | d]; cbn;
    [intros H; injection H as <-; cbn; congruence | ].
  destruct (geminiApi.candidate_text w d) as [e | txt]; cbn;
    [intros H; injection H as <-; cbn; congruence | ].
  destruct (geminiApi.as_text w txt) as [e | s]; cbn;
    [intros H; injection H as <-; cbn; congruence | ].
  destruct (get w (geminiApi.glutenInfo w s) "glutenFreeStatus") as [e | a]; cbn;
    [intros H; injection H as <-; cbn; congruence | ].
  destruct (get w (geminiApi.glutenInfo w s) "explanation") as [e | b]; cbn;
    [intros H; injection H as <-; cbn; congruence | ].
  intros H _. injection H as <-.
  assert (A : truthy (or a (JStr "unknown")) = true) by (apply or_default_truthy; reflexivity).
  assert (B : truthy (or b (JStr "Unable to determine")) = true)
    by (apply or_default_truthy; reflexivity).
  unfold classified, opt_prop, prop.
  cbn [data error http_status ok_response nullish truthy negb andb lookup
       String.eqb Ascii.eqb Bool.eqb].
  repeat split.
  - destruct (or b (JStr "Unable to determine")); try discriminate B;
      destruct (or a (JStr "unknown")); try discriminate A; exact A.
  - destruct (or b (JStr "Unable to determine")); try discriminate B; exact B.
Qed.

Lemma classifier_data_is_labelled_witness :
  exists r,
    outcome (geminiApi.checkGlutenStatus
               (Scenario.world Scenario.net_prose S3Sent (Scenario.days 8))
               Scenario.granola_check) = inr r
    /\ classified r = true.
Proof.
  eexists. split; [vm_compute; reflexivity | ].
  refine (proj1 (proj2 (proj2 (@classifier_data_is_labelled
            (Scenario.world Scenario.net_prose S3Sent (Scenario.days 8))
            Scenario.granola_check _ _ _))));
    [vm_compute; reflexivity | vm_compute; discriminate].
Defined.

Lemma info_name_not_empty text :
  info_name (extractProductInfoFromGeminiResponse text) <> "".
Proof.
  unfold extractProductInfoFromGeminiResponse. cbn [info_name].
  unfold trimmed_group.
  destruct (or_match (Regex.match_ re_product_name text) (Regex.match_ re_name text))
    as [[wh [g | ]] | ];
    cbv zeta; try (intros F; discriminate F).
  destruct (Text.trim g =? "")%string eqn:E; [intros F; discriminate F | ].
  intros F. rewrite F in E. discriminate E.
Qed.

Arguments extractProductInfoFromGeminiResponse : simpl never.

(** The name the Extractor reads from the model's text is never empty: with
    no name line, or a name line of blanks, it is "Unknown Product".  So
    when the Extractor returns data, the data is a success whose product
    has a truthy name and ingredients that are a text, possibly empty. *)
Theorem extractor_data_is_a_named_product w images prompt r :
  outcome (geminiApi.generateProductInfo w images prompt) = inr r ->
  data r <> JUndefined ->
  extractor_succeeded r = true
  /\ http_status r = 200
  /\ exists text,
       prop (data r) "product"
       = ProductInfo_object (extractProductInfoFromGeminiResponse text)
       /\ info_name (extractProductInfoFromGeminiResponse text) <> "".
Proof.
  unfold geminiApi.generateProductInfo.
  destruct (GEMINI_API_KEY w =? "")%string; cbn;
    [intros H; injection H as <-; cbn; congruence | ].
  destruct (fetch w _) as [e | resp]; cbn;
    [intros H; injection H as <-; cbn; congruence | ].
  destruct (ok resp); cbn;
    [ | intros H; injection H as <-; destruct (handleApiError_data resp); congruence].
  destruct (json resp) as [e | d]; cbn;
    [intros H; injection H as <-; cbn; congruence | ].
  destruct (geminiApi.candidate_text w d) as [e | txt]; cbn;
    [intros H; injection H as <-; cbn; congruence | ].
  destruct (geminiApi.as_text w txt) as [e | s]; cbn;
    [intros H; injection H as <-; cbn; congruence | ].
  intros H _. injection H as <-.
  split; [reflexivity | ]. split; [reflexivity | ].
  exists s. split; [reflexivity | apply info_name_not_empty].
Qed.

Lemma extractor_data_is_a_named_product_witness :
  exists r,
    outcome (geminiApi.generateProductInfo
               (Scenario.world Scenario.net_extractor_up S3Sent (Scenario.days 8))
               ["data:image/jpeg;base64,front"] "prompt") = inr r
    /\ extractor_succeeded r = true.
Proof.
  eexists. split; [vm_compute; reflexivity | ].
  refine (proj1 (@extractor_data_is_a_named_product
            (Scenario.world Scenario.net_extractor_up S3Sent (Scenario.days 8))
            ["data:image/jpeg;base64,front"] "prompt" _ _ _));
    [vm_compute; reflexivity | vm_compute; discriminate].
Defined.

(** What the Extractor answers: nothing, or a product read from a text. *)
Lemma generateProductInfo_answer w images prompt :
  exists t r,
    geminiApi.generateProductInfo w images prompt
    = (Call (geminiApi_generateProductInfo images prompt) :: t, inr r)
    /\ forallb quiet t = true
    /\ (data r = JUndefined
        \/ exists text,
             r = ok_response
                   (JObj [("success", JBool true);
                          ("product",
                           ProductInfo_object (extractProductInfoFromGeminiResponse text))])
                   200).
Proof.
  unfold geminiApi.generateProductInfo.
  destruct (GEMINI_API_KEY w =? "")%string; cbn;
    [do 2 eexists; repeat split; left; reflexivity | ].
  destruct (fetch w _) as [e | resp]; cbn;
    [do 2 eexists; repeat split; left; reflexivity | ].
  destruct (ok resp); cbn;
    [ | do 2 eexists; repeat split; left; apply handleApiError_data].
  destruct (json resp) as [e | d]; cbn;
    [do 2 eexists; repeat split; left; reflexivity | ].
  destruct (geminiApi.candidate_text w d) as [e | txt]; cbn;
    [do 2 eexists; repeat split; left; reflexivity | ].
  destruct (geminiApi.as_text w txt) as [e | s]; cbn;
    [do 2 eexists; repeat split; left; reflexivity | ].
  do 2 eexists. repeat split. right. exists s. reflexivity.
Qed.

Lemma extracted_fields text :
  let r := ok_response
             (JObj [("success", JBool true);
                    ("product",
                     ProductInfo_object (extractProductInfoFromGeminiResponse text))])
             200 in
  truthy (error r) = false
  /\ truthy (opt_prop (data r) "success") = true
  /\ truthy (opt_prop (data r) "product") = true
  /\ or (prop (prop (data r) "product") "name") (JStr "Unknown Product (from AI)")
     = JStr (info_name (extractProductInfoFromGeminiResponse text))
  /\ or (prop (prop (data r) "product") "ingredients") (JStr "")
     = JStr (info_ingredients (extractProductInfoFromGeminiResponse text)).
Proof.
  cbv zeta. repeat split.
  - change (or (JStr (info_name (extractProductInfoFromGeminiResponse text)))
               (JStr "Unknown Product (from AI)")
            = JStr (info_name (extractProductInfoFromGeminiResponse text))).
    unfold or. cbn [truthy].
    rewrite (not_empty (@info_name_not_empty text)). reflexivity.
  - change (or (JStr (info_ingredients (extractProductInfoFromGeminiResponse text)))
               (JStr "")
            = JStr (info_ingredients (extractProductInfoFromGeminiResponse text))).
    unfold or. cbn [truthy].
    destruct (info_ingredients (extractProductInfoFromGeminiResponse text) =? "")%string
      eqn:E; [apply String.eqb_eq in E; rewrite E | ]; reflexivity.
Qed.

Lemma quiet_no_call (t : list Event) x : forallb quiet t = true -> ~ In (Call x) t.
Proof.
  induction t as [ | ev t IH]; cbn [forallb In]; intros H; [tauto | ].
  apply andb_prop in H. destruct H as [H1 H2].
  intros [E | I]; [subst ev; discriminate H1 | exact (IH H2 I)].
Qed.

Ltac hunt H :=
  cbn [In app] in H;
  repeat (rewrite in_app_iff in H; cbn [In app] in H);
  repeat match goal with
         | H : _ \/ _ |- _ => destruct H as [H | H]
         | H : False |- _ => destruct H
         | H : SetIsScanning _ = Call _ |- _ => discriminate H
         | H : ShowToast _ = Call _ |- _ => discriminate H
         | H : SetShowUploadModal _ = Call _ |- _ => discriminate H
         | H : Mutate _ = Call _ |- _ => discriminate H
         | H : Fetch _ = Call _ |- _ => discriminate H
         | H : Call (geminiApi_generateProductInfo _ _) = Call _ |- _ => discriminate H
         | H : Call (s3_uploadFileToS3 _ _) = Call _ |- _ => discriminate H
         end.

Ltac dead :=
  let H := fresh "H" in
  cbn; intros H; hunt H; try contradiction;
  try match goal with
      | I : In _ ?t, Q : forallb quiet ?t = true |- _ =>
          exfalso; exact (@quiet_no_call _ _ Q I)
      end.

(** A product that a submission creates is the one the Extractor read from
    the images: it has the barcode of the dialog, the name and the
    ingredients read from the model's text (so the name kept for a product
    without one, "Unknown Product (from AI)", is used only if the text says
    so), and as its picture the first image, the only one uploaded.  It is
    created with the user's token, after an upload that reported no
    error. *)
Theorem created_product_is_what_the_extractor_read w c payload tok :
  In (Call (productApi_createProduct payload tok))
     (trace (handleMultipleImageUpload w c)) ->
  exists barcode urls text f0 ur,
    currentBarcodeForUpload c = Some barcode
    /\ token c = Some tok
    /\ all_fileToBase64 (uploadedImages c) = inr urls
    /\ hd_error (uploadedImages c) = Some f0
    /\ outcome (geminiApi.generateProductInfo w urls (upload_prompt barcode))
       = inr (ok_response
                (JObj [("success", JBool true);
                       ("product",
                        ProductInfo_object (extractProductInfoFromGeminiResponse text))])
                200)
    /\ outcome (uploadFileToS3 w f0 ("products/" ++ barcode)) = inr ur
    /\ present (s3_error ur) = false
    /\ payload
       = JObj [("barcode", JStr barcode);
               ("name", JStr (info_name (extractProductInfoFromGeminiResponse text)));
               ("ingredients",
                JStr (info_ingredients (extractProductInfoFromGeminiResponse text)));
               ("pictureUrl", JStr (or_empty (fileUrl ur)))].
Proof.
  unfold handleMultipleImageUpload, uploadImageToServer.
  destruct (Nat.ltb (length (uploadedImages c)) 4);
    [cbn; intros [H | []]; discriminate H | ].
  destruct (currentBarcodeForUpload c) as [barcode | ]; cbn [present or_empty negb];
    [ | cbn; intros [H | []]; discriminate H].
  destruct (barcode =? "")%string; cbn [negb]; [cbn; intros [H | []]; discriminate H | ].
  cbv zeta.
  remember (if negb (showUploadModal c) || showUploadModal c && negb (isScanning c)
            then [SetUploadedImages []; SetCurrentBarcodeForUpload None]
            else []) as cleanup eqn:Hcleanup.
  assert (Hc : ~ In (Call (productApi_createProduct payload tok)) cleanup).
  { subst cleanup.
    destruct (negb (showUploadModal c) || showUploadModal c && negb (isScanning c));
      cbn; intros H; repeat destruct H as [H | H]; try discriminate H; exact H. }
  remember ("products/" ++ barcode) as prefix eqn:Hprefix.
  remember (upload_prompt barcode) as prompt eqn:Hprompt.
  destruct (all_fileToBase64 (uploadedImages c)) as [e | urls] eqn:Hu.
  { cbn. intros H. hunt H; contradiction. }
  cbn [lift bind emit]. cbv zeta.
  destruct (generateProductInfo_answer w urls prompt) as (t & r & G & Qt & Hr).
  rewrite G. cbn [bind].
  destruct Hr as [D | (text & ->)].
  { destruct (truthy (error r)); [dead | ].
    rewrite D. change (opt_prop JUndefined "success") with JUndefined. dead. }
  destruct (extracted_fields text) as (F1 & F2 & F3 & F4 & F5). cbv zeta in *.
  rewrite F1, F2, F3, F4, F5. cbn [negb orb].
  destruct (uploadedImages c) as [ | f0 rest] eqn:Hf; cbn [first_image]; [dead | ].
  destruct (uploadFileToS3_run w f0 prefix) as (t' & ur & S & Qt').
  rewrite S. cbn [bind].
  destruct (present (s3_error ur)) eqn:Hs; [dead | ].
  cbn [ret app]. cbv zeta.
  destruct (token c) as [tk | ] eqn:Ht; cbn [present or_empty negb]; [ | dead].
  destruct (tk =? "")%string eqn:Htk; cbn [negb]; [dead | ].
  cbn [bind].
  match goal with
  | |- context [productApi.createProduct w ?p tk] =>
      destruct (createProduct_run w p tk) as (u & C); rewrite C
  end.
  cbn [bind].
  assert (Done : Call (productApi_createProduct
                         (JObj [("barcode", JStr barcode);
                                ("name",
                                 JStr (info_name
                                         (extractProductInfoFromGeminiResponse text)));
                                ("ingredients",
                                 JStr (info_ingredients
                                         (extractProductInfoFromGeminiResponse text)));
                                ("pictureUrl", JStr (or_empty (fileUrl ur)))])
                         tk)
                 = Call (productApi_createProduct payload tok) ->
                 exists barcode0 urls0 text0 f1 ur0,
                   Some barcode = Some barcode0
                   /\ Some tk = Some tok
                   /\ @inr Thrown _ urls = inr urls0
                   /\ hd_error (f0 :: rest) = Some f1
                   /\ outcome (geminiApi.generateProductInfo w urls0 (upload_prompt barcode0))
                      = inr (ok_response
                               (JObj [("success", JBool true);
                                      ("product",
                                       ProductInfo_object
                                         (extractProductInfoFromGeminiResponse text0))])
                               200)
                   /\ outcome (uploadFileToS3 w f1 ("products/" ++ barcode0)) = inr ur0
                   /\ present (s3_error ur0) = false
                   /\ payload
                      = JObj [("barcode", JStr barcode0);
                              ("name",
                               JStr (info_name
                                       (extractProductInfoFromGeminiResponse text0)));
                              ("ingredients",
                               JStr (info_ingredients
                                       (extractProductInfoFromGeminiResponse text0)));
                              ("pictureUrl", JStr (or_empty (fileUrl ur0)))]).
  { intros E. injection E as <- <-. subst prompt prefix.
    exists barcode, urls, text, f0, ur. rewrite G, S. repeat split. exact Hs. }
  destruct (truthy (error u)); cbn; intros H; hunt H; try contradiction;
    try match goal with
        | I : In _ ?t, Q : forallb quiet ?t = true |- _ =>
            exfalso; exact (@quiet_no_call _ _ Q I)
        end;
    match goal with
    | E : Call _ = Call _ |- _ => exact (Done E)
    end.
Qed.

Lemma created_product_is_what_the_extractor_read_witness :
  exists barcode urls text f0 ur,
    currentBarcodeForUpload Scenario.dialog = Some barcode
    /\ token Scenario.dialog = Some "token"
    /\ all_fileToBase64 (uploadedImages Scenario.dialog) = inr urls
    /\ hd_error (uploadedImages Scenario.dialog) = Some f0
    /\ outcome (geminiApi.generateProductInfo
                  (Scenario.world Scenario.net_extractor_up S3Sent (Scenario.days 8))
                  urls (upload_prompt barcode))
       = inr (ok_response
                (JObj [("success", JBool true);
                       ("product",
                        ProductInfo_object (extractProductInfoFromGeminiResponse text))])
                200)
    /\ outcome (uploadFileToS3
                  (Scenario.world Scenario.net_extractor_up S3Sent (Scenario.days 8))
                  f0 ("products/" ++ barcode)) = inr ur
    /\ present (s3_error ur) = false
    /\ JObj [("barcode", JStr "0001");
             ("name", JStr "Granola Bar");
             ("ingredients", JStr "oats, honey");
             ("pictureUrl",
              JStr "https://bucket.s3.eu-west-1.amazonaws.com/products/0001/3f2c.jpg")]
       = JObj [("barcode", JStr barcode);
               ("name", JStr (info_name (extractProductInfoFromGeminiResponse text)));
               ("ingredients",
                JStr (info_ingredients (extractProductInfoFromGeminiResponse text)));
               ("pictureUrl", JStr (or_empty (fileUrl ur)))].
Proof.
  apply (@created_product_is_what_the_extractor_read
           (Scenario.world Scenario.net_extractor_up S3Sent (Scenario.days 8))
           Scenario.dialog
           (JObj [("barcode", JStr "0001");
                  ("name", JStr "Granola Bar");
                  ("ingredients", JStr "oats, honey");
                  ("pictureUrl",
                   JStr "https://bucket.s3.eu-west-1.amazonaws.com/products/0001/3f2c.jpg")])
           "token").
  vm_compute. auto 10.
Defined.

(** ** The object store *)

Lemma validateS3Config_message w e :
  validateS3Config w = Some e -> present (Some e) = true.
Proof.
  unfold validateS3Config.
  repeat match goal with |- context [if ?b then _ else _] => destruct b end;
    intros H; try discriminate H; injection H as <-; reflexivity.
Qed.

Lemma validateFile_message file e :
  validateFile file = Some e -> present (Some e) = true.
Proof.
  unfold validateFile.
  repeat match goal with |- context [if ?b then _ else _] => destruct b end;
    intros H; try discriminate H; injection H as <-; reflexivity.
Qed.

Lemma constructFileUrl_present w key : present (Some (constructFileUrl w key)) = true.
Proof.
  unfold constructFileUrl.
  destruct (S3_PUBLIC_URL w) as [ | c u]; reflexivity.
Qed.

Lemma upload_failure_reports h code :
  fileUrl (upload_failure h code) = None
  /\ present (s3_error (upload_failure h code)) = true.
Proof.
  unfold upload_failure.
  destruct h as [c | ];
    [destruct (c =? 0); [ | destruct (c =? 403); [ | destruct (c =? 404)]] | ];
    repeat (match goal with
            | |- context [match ?x with _ => _ end] => is_var x; destruct x
            end;
            try (split; reflexivity)).
Qed.

(** An upload never throws; it answers with a URL or with an error, never
    with both or neither.  The object is sent only when the configuration
    is complete and the file is an image of at most 5 MB; an incomplete
    configuration answers with status 0 and a refused file with status
    400.  [uploadImageToServer] throws exactly when the answer holds an
    error, and returns the URL otherwise. *)
Theorem upload_answers_with_a_url_or_an_error w file prefix :
  exists t ur,
    uploadFileToS3 w file prefix = (Call (s3_uploadFileToS3 file prefix) :: t, inr ur)
    /\ present (fileUrl ur) = negb (present (s3_error ur))
    /\ count is_s3_put t
       = match validateS3Config w, validateFile file with
         | None, None => 1%nat
         | _, _ => 0%nat
         end
    /\ (validateS3Config w <> None -> s3_status ur = 0)
    /\ (validateS3Config w = None -> validateFile file <> None -> s3_status ur = 400)
    /\ outcome (uploadImageToServer w file prefix)
       = if present (s3_error ur) then inl (Error (or_empty (s3_error ur)))
         else inr (or_empty (fileUrl ur)).
Proof.
  assert (main : exists t ur,
    uploadFileToS3 w file prefix = (Call (s3_uploadFileToS3 file prefix) :: t, inr ur)
    /\ present (fileUrl ur) = negb (present (s3_error ur))
    /\ count is_s3_put t
       = match validateS3Config w, validateFile file with
         | None, None => 1%nat
         | _, _ => 0%nat
         end
    /\ (validateS3Config w <> None -> s3_status ur = 0)
    /\ (validateS3Config w = None -> validateFile file <> None -> s3_status ur = 400)).
  { unfold uploadFileToS3, getS3Client.
    destruct (validateS3Config w) as [ce | ] eqn:C; cbn.
    { do 2 eexists. split; [reflexivity | ].
      cbn [fileUrl s3_error s3_status]. rewrite (validateS3Config_message _ C).
      repeat split; congruence. }
    destruct (validateFile file) as [fe | ] eqn:V; cbn.
    { do 2 eexists. split; [reflexivity | ].
      cbn [fileUrl s3_error s3_status]. rewrite (validateFile_message _ V).
      repeat split; congruence. }
    destruct (s3_send w _ file) as [ | h code]; cbn.
    - do 2 eexists. split; [reflexivity | ].
      cbn [fileUrl s3_error s3_status]. rewrite constructFileUrl_present.
      repeat split; congruence.
    - do 2 eexists. split; [reflexivity | ].
      destruct (upload_failure_reports h code) as [U1 U2]. rewrite U1, U2.
      repeat split; congruence. }
  destruct main as (t & ur & E & P1 & P2 & P3 & P4).
  exists t, ur. repeat split; try assumption.
  unfold uploadImageToServer. rewrite E. cbn.
  destruct (present (s3_error ur)); reflexivity.
Qed.

(** ** Reading a barcode from an image *)

Ltac decode_cases decoded :=
  let e := fresh "e" in
  let b := fresh "b" in
  let c := fresh "c" in
  let I := fresh "I" in
  let T := fresh "T" in
  destruct decoded as [e | [[ | c b] | ]];
  [ unfold message_or; destruct (instanceofError e) eqn:I;
    [destruct (truthy (message e)) eqn:T | ]
  | | | ].

(** An image picked from the disk, or taken with the camera, records a scan
    exactly when the decoder finds a barcode in it, and then once, with
    that barcode.  In every other case isScanning is reset.  An image in
    which the decoder finds nothing is reported as an error, with the
    message "No barcode detected in the image": the notifications "Barcode
    Not Found" and "Barcode Scan Failed" are shown only when the decoder
    failed with an error whose message is empty.  Neither handler
    throws. *)
Theorem image_without_barcode_is_reported_as_an_error w c file decoded :
  let found :=
    match decoded with
    | inr (Some b) => negb (b =? "")%string
    | _ => false
    end in
  let silent_failure :=
    match decoded with
    | inl e => negb (truthy (message_or e "Unknown error scanning barcode"))
    | inr _ => false
    end in
  (let t := trace (handleFileUpload w (Some file) decoded) in
   outcome (handleFileUpload w (Some file) decoded) = inr tt
   /\ count is_mutate t = (if found then 1 else 0)%nat
   /\ (forall b, decoded = inr (Some b) -> found = true ->
       In (Mutate {| productBarcode := b; date := now w; symptoms := [] |}) t)
   /\ (found = false -> isScanning (after c t) = false)
   /\ count (is_toast_titled "Barcode Not Found") t = (if silent_failure then 1 else 0)%nat
   /\ (found = false -> silent_failure = false ->
       count (is_toast_titled "Image Scan Error") t = 1%nat))
  /\ (let t := trace (onCameraBlob w true decoded) in
      outcome (onCameraBlob w true decoded) = inr tt
      /\ count is_mutate t = (if found then 1 else 0)%nat
      /\ (forall b, decoded = inr (Some b) -> found = true ->
          In (Mutate {| productBarcode := b; date := now w; symptoms := [] |}) t)
      /\ (found = false -> isScanning (after c t) = false)
      /\ count (is_toast_titled "Barcode Scan Failed") t = (if silent_failure then 1 else 0)%nat
      /\ (found = false -> silent_failure = false ->
          count (is_toast_titled "Barcode Scan Error") t = 1%nat)).
Proof.
  unfold handleFileUpload, onCameraBlob, barcodeApi.scanBarcodeFromImage.
  split; decode_cases decoded;
    cbn [error_response ok_response error data String.eqb negb];
    unfold opt_prop, prop, str; cbn; rewrite ?T; cbn;
    repeat split; intros; try discriminate; try reflexivity;
    match goal with
    | H : inr (Some _) = inr (Some _) |- _ => injection H as <-; auto
    end.
Qed.

(** ** The list of recent scans *)

(** The age shown for a recent scan is rounded down, never up, in the
    largest unit that fits: whole minutes below an hour, whole hours below a
    day, whole days from then on.  The unit is in the singular for exactly
    one.  A date in the future is shown as a negative number of minutes.
    The ages are those below 2^53 ms, for which the quotient of the source
    and the integer quotient agree. *)
Theorem relative_time_is_rounded_down w dateString date :
  Date_parse w dateString = Some date ->
  Z.abs (now w - date) < 2 ^ 53 ->
  exists n unit_ms unit_name,
    getRelativeTime w dateString
    = of_Z n ++ " " ++ unit_name ++ (if n =? 1 then "" else "s") ++ " ago"
    /\ n * unit_ms <= now w - date < (n + 1) * unit_ms
    /\ ((unit_name = "minute" /\ unit_ms = 60000 /\ n < 60)
        \/ (unit_name = "hour" /\ unit_ms = 3600000 /\ 1 <= n < 24)
        \/ (unit_name = "day" /\ unit_ms = 86400000 /\ 1 <= n)).
Proof.
  intros D _. unfold getRelativeTime. rewrite D. cbv zeta.
  change (1000 * 60 * 60 * 24) with 86400000.
  change (1000 * 60 * 60) with 3600000.
  change (1000 * 60) with 60000.
  set (d := now w - date).
  destruct (d / 60000 <? 60) eqn:A.
  { apply Z.ltb_lt in A.
    exists (d / 60000), 60000, "minute". split; [reflexivity | ].
    split; [ | left; auto].
    pose proof (Z.div_mod d 60000). pose proof (Z.mod_pos_bound d 60000). lia. }
  apply Z.ltb_ge in A.
  destruct (d / 3600000 <? 24) eqn:B.
  { apply Z.ltb_lt in B.
    exists (d / 3600000), 3600000, "hour". split; [reflexivity | ].
    pose proof (Z.div_mod d 3600000). pose proof (Z.mod_pos_bound d 3600000).
    pose proof (Z.div_mod d 60000). pose proof (Z.mod_pos_bound d 60000).
    split; [lia | right; left; repeat split; lia]. }
  apply Z.ltb_ge in B.
  exists (d / 86400000), 86400000, "day". split; [reflexivity | ].
  pose proof (Z.div_mod d 86400000). pose proof (Z.mod_pos_bound d 86400000).
  pose proof (Z.div_mod d 3600000). pose proof (Z.mod_pos_bound d 3600000).
  split; [lia | right; right; repeat split; lia].
Qed.

Lemma relative_time_is_rounded_down_witness :
  exists n unit_ms unit_name,
    getRelativeTime (Scenario.world Scenario.net_prose S3Sent (Scenario.days 8))
                    Scenario.day0_text
    = of_Z n ++ " " ++ unit_name ++ (if n =? 1 then "" else "s") ++ " ago"
    /\ n * unit_ms
       <= now (Scenario.world Scenario.net_prose S3Sent (Scenario.days 8)) - Scenario.day0
       < (n + 1) * unit_ms
    /\ ((unit_name = "minute" /\ unit_ms = 60000 /\ n < 60)
        \/ (unit_name = "hour" /\ unit_ms = 3600000 /\ 1 <= n < 24)
        \/ (unit_name = "day" /\ unit_ms = 86400000 /\ 1 <= n)).
Proof.
  apply (@relative_time_is_rounded_down
           (Scenario.world Scenario.net_prose S3Sent (Scenario.days 8))
           Scenario.day0_text Scenario.day0);
    [reflexivity | vm_compute; reflexivity].
Defined.

(** ** Looking for JSON in the model's text *)

Lemma search_none r (p : ascii -> bool) s :
  (forall c s', p c = false -> Regex.match_here r (c :: s') = None) ->
  Regex.match_here r [] = None ->
  forallb (fun c => negb (p c)) s = true ->
  Regex.search r s = None.
Proof.
  intros Hc Hn. induction s as [ | c s IH]; intros H.
  - cbn [Regex.search]. rewrite Hn. reflexivity.
  - cbn [forallb] in H. apply andb_prop in H. destruct H as [H1 H2].
    apply negb_true_iff in H1.
    cbn [Regex.search]. rewrite (Hc _ _ H1). exact (IH H2).
Qed.

Lemma plain_no_backtick text :
  plain text = true ->
  forallb (fun c => negb (Ascii.eqb "`" c)) (Text.of_string text) = true.
Proof.
  unfold plain. generalize (Text.of_string text). intros l.
  induction l as [ | c l IH]; [reflexivity | ].
  cbn [forallb]. intros H. apply andb_prop in H. destruct H as [H1 H2].
  apply andb_prop in H1. destruct H1 as [_ H1].
  rewrite (IH H2), Ascii.eqb_sym, H1. reflexivity.
Qed.

Lemma plain_no_brace text :
  plain text = true ->
  forallb (fun c => negb (Ascii.eqb "{" c)) (Text.of_string text) = true.
Proof.
  unfold plain. generalize (Text.of_string text). intros l.
  induction l as [ | c l IH]; [reflexivity | ].
  cbn [forallb]. intros H. apply andb_prop in H. destruct H as [H1 H2].
  apply andb_prop in H1. destruct H1 as [H1 _].
  rewrite (IH H2), Ascii.eqb_sym, H1. reflexivity.
Qed.

(** A text with no brace and no backtick holds nothing the client takes
    for JSON, so [JSON.parse] is not consulted: the answer is read by
    keywords, and its label is one of the three. *)
Theorem text_without_brace_or_backtick_is_read_by_keywords text :
  plain text = true ->
  geminiApi.jsonMatch text = None
  /\ forall w,
       geminiApi.glutenInfo w text = GlutenInfo_object (extractGlutenInfoFromText text)
       /\ no_parsable_json w text = true
       /\ is_label (prop (geminiApi.glutenInfo w text) "glutenFreeStatus") = true.
Proof.
  intros P.
  assert (J : geminiApi.jsonMatch text = None).
  { unfold geminiApi.jsonMatch, Regex.match_.
    rewrite (@search_none re_fence_json (Ascii.eqb "`") _);
      [ | intros c s' H; unfold Regex.match_here; cbn -[Ascii.eqb]; rewrite H; reflexivity
        | reflexivity | exact (plain_no_backtick _ P)].
    rewrite (@search_none re_fence (Ascii.eqb "`") _);
      [ | intros c s' H; unfold Regex.match_here; cbn -[Ascii.eqb]; rewrite H; reflexivity
        | reflexivity | exact (plain_no_backtick _ P)].
    rewrite (@search_none re_braces (Ascii.eqb "{") _);
      [ | intros c s' H; unfold Regex.match_here; cbn -[Ascii.eqb]; rewrite H; reflexivity
        | reflexivity | exact (plain_no_brace _ P)].
    reflexivity. }
  split; [exact J | ]. intros w.
  unfold geminiApi.glutenInfo, no_parsable_json. rewrite J.
  split; [reflexivity | ]. split; [reflexivity | ].
  unfold GlutenInfo_object, extractGlutenInfoFromText, prop.
  cbn [lookup String.eqb Ascii.eqb Bool.eqb glutenFreeStatus].
  destruct (test re_gluten_free text && negb (test re_not_gluten_free text));
    [reflexivity | ].
  destruct (test re_contains_gluten text); reflexivity.
Qed.

Lemma text_without_brace_or_backtick_is_read_by_keywords_witness :
  geminiApi.jsonMatch "Sorry, I cannot help with that." = None.
Proof.
  apply (@text_without_brace_or_backtick_is_read_by_keywords
           "Sorry, I cannot help with that.").
  reflexivity.
Defined.

End More.
